(** * Scenario engine of the mock sensor server: status classification,
      value generation and the scenario registry

    Shallow embedding of [server/scenarios/*.py].

    Numbers.  Python [float] values are modelled as exact rationals [Q]:
    comparisons, [min]/[max], [round(x, 1)] (ties to even) and the
    arithmetic are those of the source, without binary64 rounding error.
    Python [int] values are [Z].  The one value that the engine accumulates
    over calls, the offset of the drift classes, is modelled on binary64
    floats as well ([Binary64]), where the rounding of each addition shows.

    Effects.  [random.random()] reads the next element of a stream owned by
    the [World]; [datetime.now()] reads the world's clock.  [math.sin] and
    [math.pi] are parameters of the engine section.  Every [get_value] is a
    computation in the monad [M], which threads the world and can raise
    [ZeroDivisionError]. *)

From Stdlib Require Import QArith Qround Qabs ZArith Lia Lqa Bool.
From Stdlib Require Import Floats.
From stdpp Require Import gmap strings list fin_maps.

Local Open Scope Q_scope.

#[local] Set Warnings "-clear-no-such-hyp".
#[local] Set Warnings "-inexact-float".

(** ** Rationals as Python floats *)

Module PyNum.

(** [x < y] on floats. *)
Definition ltb (x y : Q) : bool := negb (Qle_bool y x).

(** [x > y] on floats. *)
Definition gtb (x y : Q) : bool := ltb y x.

(** Built-in [min(a, b)]: the first argument unless the second is
    strictly smaller. *)
Definition min (a b : Q) : Q := if ltb b a then b else a.

(** Built-in [max(a, b)]: the first argument unless the second is
    strictly larger. *)
Definition max (a b : Q) : Q := if gtb b a then b else a.

(** Nearest integer, ties to the even one. *)
Definition round_half_even (x : Q) : Z :=
  let f := Qfloor x in
  let r := x - inject_Z f in
  if ltb r (1 # 2) then f
  else if ltb (1 # 2) r then (f + 1)%Z
  else if Z.even f then f else (f + 1)%Z.

(** Built-in [round(x, 1)]. *)
Definition round1 (x : Q) : Q := round_half_even (x * 10) # 10.

End PyNum.

(** ** base.py *)

(** The statuses are the string constants of the source. *)
Definition status := string.

Definition fault_code := option string.

Record SensorValue := mkSensorValue {
  temperature : Q;
  humidity : Q;
  temp_status : status;
  hum_status : status;
  combined_status : status;
  modbus_error : fault_code
}.

(** [BaseScenario._clamp] *)
Definition _clamp (value min_val max_val : Q) : Q :=
  PyNum.max min_val (PyNum.min max_val value).

(** [BaseScenario._calculate_status] *)
Definition _calculate_status
    (value limit_min limit_max warning_delta alarm_delta : Q) : status :=
  if PyNum.ltb value (limit_min - alarm_delta)
     || PyNum.gtb value (limit_max + alarm_delta)
  then "alarm"
  else if PyNum.ltb value (limit_min - warning_delta)
          || PyNum.gtb value (limit_max + warning_delta)
  then "warning"
  else if PyNum.ltb value limit_min || PyNum.gtb value limit_max
  then "warning"
  else "normal".

(** [BaseScenario._get_combined_status] *)
Definition _get_combined_status (temp_status hum_status : status) : status :=
  if String.eqb temp_status "alarm" || String.eqb hum_status "alarm"
  then "alarm"
  else if String.eqb temp_status "warning" || String.eqb hum_status "warning"
  then "warning"
  else "normal".

(** The classifier as the specification words it: one alarm test, one
    flattened four-way disjunction for the warning, normal otherwise. *)
Definition classify_spec (v min max warning_delta alarm_delta : Q) : status :=
  if PyNum.ltb v (min - alarm_delta) || PyNum.gtb v (max + alarm_delta)
  then "alarm"
  else if PyNum.ltb v (min - warning_delta)
          || PyNum.gtb v (max + warning_delta)
          || PyNum.ltb v min
          || PyNum.gtb v max
  then "warning"
  else "normal".

(** ** The world outside the engine: the random generator and the clock *)

Record World := mkWorld {
  rng_stream : nat -> Q;          (* successive results of random.random() *)
  rng_cursor : nat;
  clock : nat -> Z * Z;           (* successive (hour, minute) of datetime.now() *)
  clock_reads : nat
}.

Inductive Exn := ZeroDivisionError.

Inductive Outcome (A : Type) :=
| Returned (a : A) (w : World)
| Raised (e : Exn).
Arguments Returned {A} a w.
Arguments Raised {A} e.

Definition M (A : Type) : Type := World -> Outcome A.

#[export] Instance M_ret : MRet M := fun A a w => Returned a w.

#[export] Instance M_bind : MBind M := fun A B f c w =>
  match c w with
  | Returned a w' => f a w'
  | Raised e => Raised e
  end.

Definition raise {A} (e : Exn) : M A := fun _ => Raised e.

(** [random.random()] *)
Definition random : M Q := fun w =>
  Returned (rng_stream w (rng_cursor w))
           (mkWorld (rng_stream w) (S (rng_cursor w)) (clock w) (clock_reads w)).

(** [random.uniform(a, b)], which the library computes as
    [a + (b - a) * random()]. *)
Definition uniform (a b : Q) : M Q :=
  u ← random; mret (a + (b - a) * u).

(** [random.randint(a, b)]: an integer of [a..b], here obtained by scaling
    one unit draw. *)
Definition randint (a b : Z) : M Z :=
  u ← random; mret (a + Qfloor (u * inject_Z (b - a + 1)))%Z.

(** [datetime.now()], as the pair of its [hour] and [minute]. *)
Definition now : M (Z * Z) := fun w =>
  Returned (clock w (clock_reads w))
           (mkWorld (rng_stream w) (rng_cursor w) (clock w) (S (clock_reads w))).

(** The draws of a world are those of [random.random()]: in [0, 1). *)
Definition unit_draws (w : World) : Prop :=
  forall i, 0 <= rng_stream w i /\ rng_stream w i < 1.

(** ** Construction parameters *)

(** Keyword arguments of a constructor: the numeric ones by name, and the
    list [offline_sensors]. *)
Record Kwargs := mkKwargs {
  kw_num : gmap string Q;
  kw_offline_sensors : option (list Z)
}.

Definition kw_get (kw : Kwargs) (name : string) (dflt : Q) : Q :=
  default dflt (kw_num kw !! name).

Record BaseScenario := mkBase {
  temp_base : Q;
  temp_variation : Q;
  temp_min : Q;
  temp_max : Q;
  hum_base : Q;
  hum_variation : Q;
  hum_min : Q;
  hum_max : Q;
  offline_sensors : list Z;
  _iteration : Z
}.

(** [BaseScenario.__init__] *)
Definition BaseScenario_init (kw : Kwargs) : BaseScenario :=
  {| temp_base := kw_get kw "temp_base" 22.0;
     temp_variation := kw_get kw "temp_variation" 2.0;
     temp_min := kw_get kw "temp_min" (-40.0);
     temp_max := kw_get kw "temp_max" 85.0;
     hum_base := kw_get kw "hum_base" 45.0;
     hum_variation := kw_get kw "hum_variation" 5.0;
     hum_min := kw_get kw "hum_min" 0.0;
     hum_max := kw_get kw "hum_max" 100.0;
     offline_sensors := default [] (kw_offline_sensors kw);
     _iteration := 0 |}.

(** [BaseScenario.tick] *)
Definition tick (b : BaseScenario) : BaseScenario :=
  {| temp_base := temp_base b; temp_variation := temp_variation b;
     temp_min := temp_min b; temp_max := temp_max b;
     hum_base := hum_base b; hum_variation := hum_variation b;
     hum_min := hum_min b; hum_max := hum_max b;
     offline_sensors := offline_sensors b;
     _iteration := (_iteration b + 1)%Z |}.

(** The scenario objects: the class, its parameters and its private state. *)
Inductive Scenario :=
| NormalScenario (b : BaseScenario)
| DriftUpScenario (b : BaseScenario) (drift_rate _current_offset : Q)
| DriftDownScenario (b : BaseScenario) (drift_rate _current_offset : Q)
| SineScenario (b : BaseScenario) (period amplitude : Q)
| OfflineScenario (b : BaseScenario)
| IntermittentScenario (b : BaseScenario) (failure_rate : Q)
| TimeoutScenario (b : BaseScenario) (timeout_rate : Q)
| CRCErrorScenario (b : BaseScenario) (crc_error_rate : Q)
| PartialOfflineScenario (b : BaseScenario) (offline_probability : Q)
    (_offline_sensors : gset Z)
| DailyCycleScenario (b : BaseScenario) (day_temp night_temp : Q)
| HVACControlScenario (b : BaseScenario) (setpoint hysteresis : Q)
    (_hvac_on : bool) (_current_temp : Q)
| DoorOpenScenario (b : BaseScenario) (open_probability outside_temp : Q)
    (_door_open : bool) (_door_timer : Z)
| PowerOutageScenario (b : BaseScenario) (outage_probability : Q)
    (_power_off : bool) (_outage_timer : Z)
| SensorFailureScenario (b : BaseScenario) (failure_rate : Q)
    (_failed_sensors : gset Z).

Definition base_of (s : Scenario) : BaseScenario :=
  match s with
  | NormalScenario b | DriftUpScenario b _ _ | DriftDownScenario b _ _
  | SineScenario b _ _ | OfflineScenario b | IntermittentScenario b _
  | TimeoutScenario b _ | CRCErrorScenario b _
  | PartialOfflineScenario b _ _ | DailyCycleScenario b _ _
  | HVACControlScenario b _ _ _ _ | DoorOpenScenario b _ _ _ _
  | PowerOutageScenario b _ _ _ | SensorFailureScenario b _ _ => b
  end.

Inductive ScenarioClass :=
| CNormal | CDriftUp | CDriftDown | CSine | COffline | CIntermittent
| CTimeout | CCRCError | CPartialOffline | CDailyCycle | CHVACControl
| CDoorOpen | CPowerOutage | CSensorFailure.

Definition class_of (s : Scenario) : ScenarioClass :=
  match s with
  | NormalScenario _ => CNormal
  | DriftUpScenario _ _ _ => CDriftUp
  | DriftDownScenario _ _ _ => CDriftDown
  | SineScenario _ _ _ => CSine
  | OfflineScenario _ => COffline
  | IntermittentScenario _ _ => CIntermittent
  | TimeoutScenario _ _ => CTimeout
  | CRCErrorScenario _ _ => CCRCError
  | PartialOfflineScenario _ _ _ => CPartialOffline
  | DailyCycleScenario _ _ _ => CDailyCycle
  | HVACControlScenario _ _ _ _ _ => CHVACControl
  | DoorOpenScenario _ _ _ _ _ => CDoorOpen
  | PowerOutageScenario _ _ _ _ => CPowerOutage
  | SensorFailureScenario _ _ _ => CSensorFailure
  end.

(** ** Blocks that the scenario classes repeat verbatim *)

(** The reading every communication fault returns, up to its fault code. *)
Definition offline_reading (err : string) : SensorValue :=
  {| temperature := 0.0; humidity := 0.0;
     temp_status := "offline"; hum_status := "offline";
     combined_status := "offline"; modbus_error := Some err |}.

(** [limits.get(key, dflt)] *)
Definition limits_get (limits : gmap string Q) (key : string) (dflt : Q) : Q :=
  default dflt (limits !! key).

(** The two [_calculate_status] calls and the [SensorValue] built from
    them, on the values [temp] and [hum] already clamped and rounded. *)
Definition classified_reading (limits : gmap string Q) (temp hum : Q)
    : SensorValue :=
  let temp_status :=
    _calculate_status temp
      (limits_get limits "temp_min" (-10)) (limits_get limits "temp_max" 40)
      (limits_get limits "temp_warning_delta" 3)
      (limits_get limits "temp_alarm_delta" 5) in
  let hum_status :=
    _calculate_status hum
      (limits_get limits "hum_min" 20) (limits_get limits "hum_max" 80)
      (limits_get limits "hum_warning_delta" 5)
      (limits_get limits "hum_alarm_delta" 10) in
  {| temperature := temp; humidity := hum;
     temp_status := temp_status; hum_status := hum_status;
     combined_status := _get_combined_status temp_status hum_status;
     modbus_error := None |}.

(** The [SensorValue] with the three statuses written as the constant
    ["normal"] (timeout.., crc.. and power outage classes). *)
Definition unclassified_reading (temp hum : Q) : SensorValue :=
  {| temperature := temp; humidity := hum;
     temp_status := "normal"; hum_status := "normal";
     combined_status := "normal"; modbus_error := None |}.

(** [(sensor_id - 1) * k] *)
Definition sensor_bias (sensor_id : Z) (k : Q) : Q :=
  inject_Z (sensor_id - 1) * k.

(** ** The scenario classes *)

Section Engine.

(** [math.sin] and [math.pi] *)
Variable sin : Q -> Q.
Variable pi : Q.

(** normal.py, [NormalScenario.get_value] *)
Definition NormalScenario_get_value (b : BaseScenario)
    (sensor_id : Z) (limits : gmap string Q) : M SensorValue :=
  let sensor_offset := sensor_bias sensor_id 0.3 in
  n ← uniform (- temp_variation b) (temp_variation b);
  let temp := temp_base b + sensor_offset + n in
  n ← uniform (- hum_variation b) (hum_variation b);
  let hum := hum_base b + n in
  let temp := _clamp temp (temp_min b) (temp_max b) in
  let hum := _clamp hum (hum_min b) (hum_max b) in
  let temp := PyNum.round1 temp in
  let hum := PyNum.round1 hum in
  mret (classified_reading limits temp hum).

(** drift.py, [DriftUpScenario.get_value]; returns the new
    [_current_offset] with the reading.  The addition to the offset is
    exact here; [Binary64.drift_up_update] is the same statement with the
    rounding of the float addition. *)
Definition DriftUpScenario_get_value (b : BaseScenario)
    (drift_rate _current_offset : Q)
    (sensor_id : Z) (limits : gmap string Q) : M (SensorValue * Q) :=
  let sensor_offset := sensor_bias sensor_id 0.3 in
  let _current_offset := _current_offset + drift_rate in
  let temp := temp_base b + sensor_offset + _current_offset in
  n ← uniform (- temp_variation b * 0.5) (temp_variation b * 0.5);
  let temp := temp + n in
  let hum := hum_base b - _current_offset * 0.5 in
  n ← uniform (- hum_variation b) (hum_variation b);
  let hum := hum + n in
  let temp := _clamp temp (temp_min b) (temp_max b) in
  let hum := _clamp hum (hum_min b) (hum_max b) in
  let temp := PyNum.round1 temp in
  let hum := PyNum.round1 hum in
  mret (classified_reading limits temp hum, _current_offset).

(** drift.py, [DriftDownScenario.get_value]; the subtraction from the
    offset is exact here, as the addition above. *)
Definition DriftDownScenario_get_value (b : BaseScenario)
    (drift_rate _current_offset : Q)
    (sensor_id : Z) (limits : gmap string Q) : M (SensorValue * Q) :=
  let sensor_offset := sensor_bias sensor_id 0.3 in
  let _current_offset := _current_offset - drift_rate in
  let temp := temp_base b + sensor_offset + _current_offset in
  n ← uniform (- temp_variation b * 0.5) (temp_variation b * 0.5);
  let temp := temp + n in
  let hum := hum_base b - _current_offset * 0.5 in
  n ← uniform (- hum_variation b) (hum_variation b);
  let hum := hum + n in
  let temp := _clamp temp (temp_min b) (temp_max b) in
  let hum := _clamp hum (hum_min b) (hum_max b) in
  let temp := PyNum.round1 temp in
  let hum := PyNum.round1 hum in
  mret (classified_reading limits temp hum, _current_offset).

(** sine.py, [SineScenario.get_value]; returns the base with the
    incremented [_iteration].  The division by [period] raises when the
    period is zero. *)
Definition SineScenario_get_value (b : BaseScenario) (period amplitude : Q)
    (sensor_id : Z) (limits : gmap string Q)
    : M (SensorValue * BaseScenario) :=
  let sensor_offset := sensor_bias sensor_id 0.3 in
  let phase_shift := inject_Z (sensor_id - 1) * (2 * pi / 10) in
  if Qeq_bool period 0 then raise ZeroDivisionError else
  let sine_value :=
    sin (2 * pi * inject_Z (_iteration b) / period + phase_shift) in
  let temp := temp_base b + sensor_offset + amplitude * sine_value in
  n ← uniform (- temp_variation b * 0.3) (temp_variation b * 0.3);
  let temp := temp + n in
  let hum := hum_base b - (amplitude * 2) * sine_value in
  n ← uniform (- hum_variation b * 0.5) (hum_variation b * 0.5);
  let hum := hum + n in
  let temp := _clamp temp (temp_min b) (temp_max b) in
  let hum := _clamp hum (hum_min b) (hum_max b) in
  let temp := PyNum.round1 temp in
  let hum := PyNum.round1 hum in
  mret (classified_reading limits temp hum, tick b).

(** errors.py, [OfflineScenario.get_value] *)
Definition OfflineScenario_get_value (b : BaseScenario)
    (sensor_id : Z) (limits : gmap string Q) : M SensorValue :=
  mret (offline_reading "timeout").

(** errors.py, [IntermittentScenario.get_value] *)
Definition IntermittentScenario_get_value (b : BaseScenario)
    (failure_rate : Q)
    (sensor_id : Z) (limits : gmap string Q) : M SensorValue :=
  r ← random;
  if PyNum.ltb r failure_rate then mret (offline_reading "timeout") else
  let sensor_offset := sensor_bias sensor_id 0.3 in
  n ← uniform (- temp_variation b) (temp_variation b);
  let temp := temp_base b + sensor_offset + n in
  n ← uniform (- hum_variation b) (hum_variation b);
  let hum := hum_base b + n in
  let temp := PyNum.round1 (_clamp temp (temp_min b) (temp_max b)) in
  let hum := PyNum.round1 (_clamp hum (hum_min b) (hum_max b)) in
  mret (classified_reading limits temp hum).

(** errors.py, [TimeoutScenario.get_value] *)
Definition TimeoutScenario_get_value (b : BaseScenario) (timeout_rate : Q)
    (sensor_id : Z) (limits : gmap string Q) : M SensorValue :=
  r ← random;
  if PyNum.ltb r timeout_rate then mret (offline_reading "timeout") else
  let sensor_offset := sensor_bias sensor_id 0.3 in
  n ← uniform (- temp_variation b) (temp_variation b);
  let temp := temp_base b + sensor_offset + n in
  n ← uniform (- hum_variation b) (hum_variation b);
  let hum := hum_base b + n in
  let temp := PyNum.round1 (_clamp temp (temp_min b) (temp_max b)) in
  let hum := PyNum.round1 (_clamp hum (hum_min b) (hum_max b)) in
  mret (unclassified_reading temp hum).

(** errors.py, [CRCErrorScenario.get_value] *)
Definition CRCErrorScenario_get_value (b : BaseScenario)
    (crc_error_rate : Q)
    (sensor_id : Z) (limits : gmap string Q) : M SensorValue :=
  r ← random;
  if PyNum.ltb r crc_error_rate then mret (offline_reading "crc_error") else
  let sensor_offset := sensor_bias sensor_id 0.3 in
  n ← uniform (- temp_variation b) (temp_variation b);
  let temp := temp_base b + sensor_offset + n in
  n ← uniform (- hum_variation b) (hum_variation b);
  let hum := hum_base b + n in
  let temp := PyNum.round1 (_clamp temp (temp_min b) (temp_max b)) in
  let hum := PyNum.round1 (_clamp hum (hum_min b) (hum_max b)) in
  mret (unclassified_reading temp hum).

(** errors.py, [PartialOfflineScenario.get_value] *)
Definition PartialOfflineScenario_get_value (b : BaseScenario)
    (_offline_sensors : gset Z)
    (sensor_id : Z) (limits : gmap string Q) : M SensorValue :=
  if bool_decide (sensor_id ∈ _offline_sensors)
     || bool_decide (sensor_id ∈ offline_sensors b)
  then mret (offline_reading "timeout") else
  let sensor_offset := sensor_bias sensor_id 0.3 in
  n ← uniform (- temp_variation b) (temp_variation b);
  let temp := temp_base b + sensor_offset + n in
  n ← uniform (- hum_variation b) (hum_variation b);
  let hum := hum_base b + n in
  let temp := PyNum.round1 (_clamp temp (temp_min b) (temp_max b)) in
  let hum := PyNum.round1 (_clamp hum (hum_min b) (hum_max b)) in
  mret (classified_reading limits temp hum).

(** realworld.py, [DailyCycleScenario.get_value] *)
Definition DailyCycleScenario_get_value (b : BaseScenario)
    (day_temp night_temp : Q)
    (sensor_id : Z) (limits : gmap string Q) : M SensorValue :=
  '(now_hour, now_minute) ← now;
  let hour := inject_Z now_hour + inject_Z now_minute / 60.0 in
  let daily_factor := sin ((hour - 8) * pi / 12) in
  let temp_amplitude := (day_temp - night_temp) / 2 in
  let temp_center := (day_temp + night_temp) / 2 in
  let sensor_offset := sensor_bias sensor_id 0.2 in
  let temp := temp_center + temp_amplitude * daily_factor + sensor_offset in
  n ← uniform (-1) 1;
  let temp := temp + n in
  let hum := hum_base b - 10 * daily_factor in
  n ← uniform (- hum_variation b) (hum_variation b);
  let hum := hum + n in
  let temp := PyNum.round1 (_clamp temp (temp_min b) (temp_max b)) in
  let hum := PyNum.round1 (_clamp hum (hum_min b) (hum_max b)) in
  mret (classified_reading limits temp hum).

(** realworld.py, [HVACControlScenario.get_value]; returns the new
    [_hvac_on] and [_current_temp] with the reading. *)
Definition HVACControlScenario_get_value (b : BaseScenario)
    (setpoint hysteresis : Q) (_hvac_on : bool) (_current_temp : Q)
    (sensor_id : Z) (limits : gmap string Q)
    : M (SensorValue * bool * Q) :=
  let _hvac_on :=
    if PyNum.gtb _current_temp (setpoint + hysteresis) then true
    else if PyNum.ltb _current_temp (setpoint - hysteresis) then false
    else _hvac_on in
  _current_temp ←
    (if _hvac_on
     then d ← uniform 0.1 0.3; mret (_current_temp - d)
     else d ← uniform 0.05 0.15; mret (_current_temp + d));
  let sensor_offset := sensor_bias sensor_id 0.1 in
  n ← uniform (-0.3) 0.3;
  let temp := _current_temp + sensor_offset + n in
  let hum := hum_base b + (if _hvac_on then 5 else -2) in
  n ← uniform (- hum_variation b * 0.5) (hum_variation b * 0.5);
  let hum := hum + n in
  let temp := PyNum.round1 (_clamp temp (temp_min b) (temp_max b)) in
  let hum := PyNum.round1 (_clamp hum (hum_min b) (hum_max b)) in
  mret (classified_reading limits temp hum, _hvac_on, _current_temp).

(** realworld.py, [DoorOpenScenario.get_value]; returns the new
    [_door_open] and [_door_timer] with the reading. *)
Definition DoorOpenScenario_get_value (b : BaseScenario)
    (open_probability outside_temp : Q) (_door_open : bool) (_door_timer : Z)
    (sensor_id : Z) (limits : gmap string Q)
    : M (SensorValue * bool * Z) :=
  '(_door_open, _door_timer) ←
    (if negb _door_open
     then r ← random;
          if PyNum.ltb r open_probability
          then t ← randint 5 15; mret (true, t)
          else mret (_door_open, _door_timer)
     else mret (_door_open, _door_timer));
  let '(_door_open, _door_timer) :=
    if (_door_open : bool)
    then let t := (_door_timer - 1)%Z in
         if (t <=? 0)%Z then (false, t) else (_door_open, t)
    else (_door_open, _door_timer) in
  let sensor_offset := sensor_bias sensor_id 0.3 in
  '(temp, hum) ←
    (if _door_open
     then let temp := temp_base b + (outside_temp - temp_base b) * 0.3 in
          n ← uniform (-2) 2;
          let temp := temp + n in
          n ← uniform (-10) 10;
          mret (temp, hum_base b + n)
     else let temp := temp_base b + sensor_offset in
          n ← uniform (- temp_variation b) (temp_variation b);
          let temp := temp + n in
          n ← uniform (- hum_variation b) (hum_variation b);
          mret (temp, hum_base b + n));
  let temp := PyNum.round1 (_clamp temp (temp_min b) (temp_max b)) in
  let hum := PyNum.round1 (_clamp hum (hum_min b) (hum_max b)) in
  mret (classified_reading limits temp hum, _door_open, _door_timer).

(** realworld.py, [PowerOutageScenario.get_value]; returns the new
    [_power_off] and [_outage_timer] with the reading. *)
Definition PowerOutageScenario_get_value (b : BaseScenario)
    (outage_probability : Q) (_power_off : bool) (_outage_timer : Z)
    (sensor_id : Z) (limits : gmap string Q)
    : M (SensorValue * bool * Z) :=
  '(_power_off, _outage_timer) ←
    (if negb _power_off
     then r ← random;
          if PyNum.ltb r outage_probability
          then t ← randint 10 30; mret (true, t)
          else mret (_power_off, _outage_timer)
     else mret (_power_off, _outage_timer));
  if (_power_off : bool)
  then let t := (_outage_timer - 1)%Z in
       mret (offline_reading "no_power",
             if (t <=? 0)%Z then false else _power_off, t)
  else
  let sensor_offset := sensor_bias sensor_id 0.3 in
  n ← uniform (- temp_variation b) (temp_variation b);
  let temp := temp_base b + sensor_offset + n in
  n ← uniform (- hum_variation b) (hum_variation b);
  let hum := hum_base b + n in
  let temp := PyNum.round1 (_clamp temp (temp_min b) (temp_max b)) in
  let hum := PyNum.round1 (_clamp hum (hum_min b) (hum_max b)) in
  mret (unclassified_reading temp hum, _power_off, _outage_timer).

(** realworld.py, [SensorFailureScenario.get_value]; returns the new
    [_failed_sensors] with the reading. *)
Definition SensorFailureScenario_get_value (b : BaseScenario)
    (failure_rate : Q) (_failed_sensors : gset Z)
    (sensor_id : Z) (limits : gmap string Q)
    : M (SensorValue * gset Z) :=
  _failed_sensors ←
    (if bool_decide (sensor_id ∉ _failed_sensors)
     then r ← random;
          if PyNum.ltb r failure_rate
          then mret ({[sensor_id]} ∪ _failed_sensors)
          else mret _failed_sensors
     else mret _failed_sensors);
  if bool_decide (sensor_id ∈ _failed_sensors)
  then r ← random;
       if PyNum.ltb r 0.5
       then mret (offline_reading "sensor_failure", _failed_sensors)
       else t ← uniform (-40) 85;
            h ← uniform 0 100;
            mret ({| temperature := PyNum.round1 t;
                     humidity := PyNum.round1 h;
                     temp_status := "alarm"; hum_status := "alarm";
                     combined_status := "alarm";
                     modbus_error := Some "invalid_data" |},
                  _failed_sensors)
  else
  let sensor_offset := sensor_bias sensor_id 0.3 in
  n ← uniform (- temp_variation b) (temp_variation b);
  let temp := temp_base b + sensor_offset + n in
  n ← uniform (- hum_variation b) (hum_variation b);
  let hum := hum_base b + n in
  let temp := PyNum.round1 (_clamp temp (temp_min b) (temp_max b)) in
  let hum := PyNum.round1 (_clamp hum (hum_min b) (hum_max b)) in
  mret (classified_reading limits temp hum, _failed_sensors).

(** [scenario.get_value(sensor_id, limits)]: the method of the object's
    class, and the object after the call. *)
Definition get_value (s : Scenario) (sensor_id : Z)
    (limits : gmap string Q) : M (SensorValue * Scenario) :=
  match s with
  | NormalScenario b =>
      v ← NormalScenario_get_value b sensor_id limits; mret (v, s)
  | DriftUpScenario b rate off =>
      '(v, off') ← DriftUpScenario_get_value b rate off sensor_id limits;
      mret (v, DriftUpScenario b rate off')
  | DriftDownScenario b rate off =>
      '(v, off') ← DriftDownScenario_get_value b rate off sensor_id limits;
      mret (v, DriftDownScenario b rate off')
  | SineScenario b period amplitude =>
      '(v, b') ← SineScenario_get_value b period amplitude sensor_id limits;
      mret (v, SineScenario b' period amplitude)
  | OfflineScenario b =>
      v ← OfflineScenario_get_value b sensor_id limits; mret (v, s)
  | IntermittentScenario b rate =>
      v ← IntermittentScenario_get_value b rate sensor_id limits;
      mret (v, s)
  | TimeoutScenario b rate =>
      v ← TimeoutScenario_get_value b rate sensor_id limits; mret (v, s)
  | CRCErrorScenario b rate =>
      v ← CRCErrorScenario_get_value b rate sensor_id limits; mret (v, s)
  | PartialOfflineScenario b p off =>
      v ← PartialOfflineScenario_get_value b off sensor_id limits;
      mret (v, s)
  | DailyCycleScenario b day night =>
      v ← DailyCycleScenario_get_value b day night sensor_id limits;
      mret (v, s)
  | HVACControlScenario b setpoint hysteresis on cur =>
      '(v, on', cur') ←
        HVACControlScenario_get_value b setpoint hysteresis on cur
          sensor_id limits;
      mret (v, HVACControlScenario b setpoint hysteresis on' cur')
  | DoorOpenScenario b p outside open timer =>
      '(v, open', timer') ←
        DoorOpenScenario_get_value b p outside open timer sensor_id limits;
      mret (v, DoorOpenScenario b p outside open' timer')
  | PowerOutageScenario b p off timer =>
      '(v, off', timer') ←
        PowerOutageScenario_get_value b p off timer sensor_id limits;
      mret (v, PowerOutageScenario b p off' timer')
  | SensorFailureScenario b rate failed =>
      '(v, failed') ←
        SensorFailureScenario_get_value b rate failed sensor_id limits;
      mret (v, SensorFailureScenario b rate failed')
  end.

(** Successive [get_value] calls on one object; the readings in call
    order and the object after the last call. *)
Fixpoint run_calls (s : Scenario) (calls : list (Z * gmap string Q))
    : M (list SensorValue * Scenario) :=
  match calls with
  | [] => mret ([], s)
  | (sensor_id, limits) :: rest =>
      '(v, s') ← get_value s sensor_id limits;
      '(vs, s'') ← run_calls s' rest;
      mret (v :: vs, s'')
  end.

End Engine.

(** ** Constructors and the registry, [scenarios/__init__.py] *)

(** The loop of [PartialOfflineScenario.__init__] over [range(1, 11)]. *)
Fixpoint choose_offline (ids : list Z) (offline_probability : Q)
    (_offline_sensors : gset Z) : M (gset Z) :=
  match ids with
  | [] => mret _offline_sensors
  | i :: rest =>
      r ← random;
      choose_offline rest offline_probability
        (if PyNum.ltb r offline_probability
         then {[i]} ∪ _offline_sensors else _offline_sensors)
  end.

(** The call of [scenario_class] on the keyword arguments: the
    [__init__] of each class. *)
Definition Scenario_init (c : ScenarioClass) (kw : Kwargs) : M Scenario :=
  let b := BaseScenario_init kw in
  match c with
  | CNormal => mret (NormalScenario b)
  | CDriftUp => mret (DriftUpScenario b (kw_get kw "drift_rate" 0.1) 0.0)
  | CDriftDown => mret (DriftDownScenario b (kw_get kw "drift_rate" 0.1) 0.0)
  | CSine =>
      mret (SineScenario b (kw_get kw "period" 60) (kw_get kw "amplitude" 5.0))
  | COffline => mret (OfflineScenario b)
  | CIntermittent =>
      mret (IntermittentScenario b (kw_get kw "failure_rate" 0.2))
  | CTimeout => mret (TimeoutScenario b (kw_get kw "timeout_rate" 0.3))
  | CCRCError => mret (CRCErrorScenario b (kw_get kw "crc_error_rate" 0.15))
  | CPartialOffline =>
      let offline_probability := kw_get kw "offline_probability" 0.3 in
      off ← choose_offline (seqZ 1 10) offline_probability ∅;
      mret (PartialOfflineScenario b offline_probability off)
  | CDailyCycle =>
      mret (DailyCycleScenario b (kw_get kw "day_temp" 25.0)
              (kw_get kw "night_temp" 18.0))
  | CHVACControl =>
      let setpoint := kw_get kw "setpoint" 22.0 in
      mret (HVACControlScenario b setpoint (kw_get kw "hysteresis" 1.0)
              false setpoint)
  | CDoorOpen =>
      mret (DoorOpenScenario b (kw_get kw "open_probability" 0.1)
              (kw_get kw "outside_temp" 35.0) false 0)
  | CPowerOutage =>
      mret (PowerOutageScenario b (kw_get kw "outage_probability" 0.05)
              false 0)
  | CSensorFailure =>
      mret (SensorFailureScenario b (kw_get kw "failure_rate" 0.01) ∅)
  end.

(** [SCENARIOS] *)
Definition SCENARIOS : gmap string ScenarioClass :=
  list_to_map
    [ ("normal", CNormal); ("drift_up", CDriftUp);
      ("drift_down", CDriftDown); ("sine", CSine); ("offline", COffline);
      ("intermittent", CIntermittent); ("timeout", CTimeout);
      ("crc_error", CCRCError); ("partial_offline", CPartialOffline);
      ("daily_cycle", CDailyCycle); ("hvac_control", CHVACControl);
      ("door_open", CDoorOpen); ("power_outage", CPowerOutage);
      ("sensor_failure", CSensorFailure) ].

(** [get_scenario] *)
Definition get_scenario (name : string) (kw : Kwargs) : M Scenario :=
  let scenario_class := default CNormal (SCENARIOS !! name) in
  Scenario_init scenario_class kw.

(** ** Vocabulary of the properties *)

(** The limits that an empty dictionary stands for. *)
Definition default_limits : gmap string Q :=
  list_to_map
    [ ("temp_min", -10); ("temp_max", 40);
      ("temp_warning_delta", 3); ("temp_alarm_delta", 5);
      ("hum_min", 20); ("hum_max", 80);
      ("hum_warning_delta", 5); ("hum_alarm_delta", 10) ].


(** The classes whose non-fault branch writes the three statuses as the
    constant ["normal"]. *)
Definition forced_normal (c : ScenarioClass) : bool :=
  match c with
  | CTimeout | CCRCError | CPowerOutage => true
  | _ => false
  end.

(** The drift offset of a drift scenario. *)
Definition current_offset (s : Scenario) : Q :=
  match s with
  | DriftUpScenario _ _ off | DriftDownScenario _ _ off => off
  | _ => 0
  end.

(** A world whose next draws are [us], followed by zeros; the clock
    reads midnight. *)
Definition world_of (us : list Q) : World :=
  mkWorld (fun i => nth i us 0) 0 (fun _ => (0%Z, 0%Z)) 0.

(** A value on the one-decimal grid: rounding leaves it in place. *)
Definition one_decimal (x : Q) : Prop := PyNum.round1 x == x.

(** The bounds of a scenario are ordered and on the one-decimal grid. *)
Definition grid_bounds (b : BaseScenario) : Prop :=
  temp_min b <= temp_max b /\ hum_min b <= hum_max b /\
  one_decimal (temp_min b) /\ one_decimal (temp_max b) /\
  one_decimal (hum_min b) /\ one_decimal (hum_max b).

(** Base parameters with everything at its default except the listed
    numeric keywords. *)
Definition kwargs_of (l : list (string * Q)) : Kwargs :=
  mkKwargs (list_to_map l) None.

(** The reading of the garbage branch of a failed sensor, from the two
    uniform draws. *)
Definition garbage_reading (t h : Q) : SensorValue :=
  {| temperature := PyNum.round1 t; humidity := PyNum.round1 h;
     temp_status := "alarm"; hum_status := "alarm";
     combined_status := "alarm"; modbus_error := Some "invalid_data" |}.

(** What a call can return: a fault reading (offline, or the garbage of a
    failed sensor), or a generated pair of values, clamped to the bounds of
    the scenario and then rounded, with the statuses either computed from
    the rounded values or written as constants. *)
Inductive reading_shape (b : BaseScenario) (c : ScenarioClass)
    (limits : gmap string Q) (v : SensorValue) : Prop :=
| shape_offline (err : string) :
    v = offline_reading err -> reading_shape b c limits v
| shape_garbage (t h : Q) :
    c = CSensorFailure -> v = garbage_reading t h -> reading_shape b c limits v
| shape_classified (t h : Q) :
    forced_normal c = false ->
    v = classified_reading limits
          (PyNum.round1 (_clamp t (temp_min b) (temp_max b)))
          (PyNum.round1 (_clamp h (hum_min b) (hum_max b))) ->
    reading_shape b c limits v
| shape_unclassified (t h : Q) :
    forced_normal c = true ->
    v = unclassified_reading
          (PyNum.round1 (_clamp t (temp_min b) (temp_max b)))
          (PyNum.round1 (_clamp h (hum_min b) (hum_max b))) ->
    reading_shape b c limits v.

(** The [k]-th next result of [random.random()] in a world. *)
Definition draw (w : World) (k : nat) : Q := rng_stream w (k + rng_cursor w).

(** The value [random.uniform(a, b)] makes of the unit draw [u]. *)
Definition uniform_of (a b u : Q) : Q := a + (b - a) * u.

(** The two readings of a failed sensor. *)
Definition failed_reading (v : SensorValue) : Prop :=
  v = offline_reading "sensor_failure" \/ exists t h, v = garbage_reading t h.

(** The one call that raises: the division by a zero [period] in the
    sine class. *)
Definition zero_period (s : Scenario) : bool :=
  match s with
  | SineScenario _ period _ => Qeq_bool period 0
  | _ => false
  end.

(** The drift offset an object has after a sequence of calls. *)
Definition offset_after (sin : Q -> Q) (pi : Q) (s : Scenario)
    (calls : list (Z * gmap string Q)) (w : World) : Q :=
  match run_calls sin pi s calls w with
  | Returned (_, s') _ => current_offset s'
  | Raised _ => 0
  end.

(** A count of calls as a number. *)
Definition Qnat (n : nat) : Q := inject_Z (Z.of_nat n).

(** The fault test of the three classes with constant statuses: the draw
    [random.random() < rate] of the timeout and CRC-error classes; in the
    power-outage class the outage that is under way, or the draw
    [random.random() < outage_probability] that starts one. *)
Definition fault_triggers (s : Scenario) (w : World) : bool :=
  match s with
  | TimeoutScenario _ rate | CRCErrorScenario _ rate =>
      PyNum.ltb (draw w 0) rate
  | PowerOutageScenario _ p off _ => off || PyNum.ltb (draw w 0) p
  | _ => false
  end.

(** The reading of the non-fault branch of these classes for sensor
    [sensor_id], from the unit draws [u1] and [u2]. *)
Definition forced_normal_reading (b : BaseScenario) (sensor_id : Z)
    (u1 u2 : Q) : SensorValue :=
  unclassified_reading
    (PyNum.round1
       (_clamp
          (temp_base b + sensor_bias sensor_id 0.3
           + uniform_of (- temp_variation b) (temp_variation b) u1)
          (temp_min b) (temp_max b)))
    (PyNum.round1
       (_clamp
          (hum_base b + uniform_of (- hum_variation b) (hum_variation b) u2)
          (hum_min b) (hum_max b))).

(** ** The drift offset on binary64 floats *)

Module Binary64.




(** The rational number a finite float stands for. *)
Definition value (x : float) : Q :=
  match Prim2SF x with
  | S754_finite s m e =>
      (if s then - inject_Z (Z.pos m) else inject_Z (Z.pos m)) * 2 ^ e
  | _ => 0
  end.



End Binary64.

(** * Properties *)

(** ** Facts on the comparisons, [min]/[max] and rounding *)

Module PyNumFacts.

Lemma ltb_lt x y : PyNum.ltb x y = true <-> x < y.
Proof.
  unfold PyNum.ltb.
  rewrite negb_true_iff, <- not_true_iff_false, Qle_bool_iff.
  split; [apply Qnot_le_lt | apply Qlt_not_le].
Qed.

Lemma ltb_ge x y : PyNum.ltb x y = false <-> y <= x.
Proof. unfold PyNum.ltb. rewrite negb_false_iff. apply Qle_bool_iff. Qed.

Lemma gtb_gt x y : PyNum.gtb x y = true <-> y < x.
Proof. apply ltb_lt. Qed.

Lemma gtb_le x y : PyNum.gtb x y = false <-> x <= y.
Proof. apply ltb_ge. Qed.

Lemma ltb_reflect x y : reflect (x < y) (PyNum.ltb x y).
Proof. apply iff_reflect. symmetry. apply ltb_lt. Qed.

Lemma gtb_reflect x y : reflect (y < x) (PyNum.gtb x y).
Proof. apply ltb_reflect. Qed.

Lemma min_le a b : PyNum.min a b <= a /\ PyNum.min a b <= b.
Proof.
  unfold PyNum.min. destruct (ltb_reflect b a) as [H | H]; lra.
Qed.

Lemma max_ge a b : a <= PyNum.max a b /\ b <= PyNum.max a b.
Proof.
  unfold PyNum.max. destruct (gtb_reflect b a) as [H | H]; lra.
Qed.

Lemma max_cases a b : PyNum.max a b = a \/ PyNum.max a b = b.
Proof. unfold PyNum.max. destruct (PyNum.gtb b a); auto. Qed.

Lemma round_half_even_near x :
  (Qfloor x <= PyNum.round_half_even x <= Qfloor x + 1)%Z.
Proof.
  unfold PyNum.round_half_even.
  destruct (PyNum.ltb _ _); [lia |].
  destruct (PyNum.ltb _ _); [lia |].
  destruct (Z.even _); lia.
Qed.

Lemma round_half_even_mono x y :
  x <= y -> (PyNum.round_half_even x <= PyNum.round_half_even y)%Z.
Proof.
  intros Hxy.
  pose proof (Qfloor_resp_le _ _ Hxy) as Hf.
  destruct (Z.eq_dec (Qfloor x) (Qfloor y)) as [E | NE].
  - unfold PyNum.round_half_even. rewrite <- E.
    destruct (ltb_reflect (x - inject_Z (Qfloor x)) (1 # 2)),
             (ltb_reflect (1 # 2) (x - inject_Z (Qfloor x))),
             (ltb_reflect (y - inject_Z (Qfloor x)) (1 # 2)),
             (ltb_reflect (1 # 2) (y - inject_Z (Qfloor x)));
      try lia; try lra; destruct (Z.even (Qfloor x)); lia.
  - pose proof (round_half_even_near x). pose proof (round_half_even_near y).
    lia.
Qed.

Lemma round1_mono x y : x <= y -> PyNum.round1 x <= PyNum.round1 y.
Proof.
  intros Hxy. unfold PyNum.round1, Qle. cbn.
  assert (x * 10 <= y * 10) as H by lra.
  apply round_half_even_mono in H. lia.
Qed.

(** A clamped value lies within ordered bounds. *)
Lemma clamp_bounds x lo hi : lo <= hi -> lo <= _clamp x lo hi <= hi.
Proof.
  intros Hlh. unfold _clamp. split; [apply max_ge |].
  destruct (max_cases lo (PyNum.min hi x)) as [-> | ->];
    [exact Hlh | apply min_le].
Qed.

(** Rounding a clamped value keeps it within bounds of the one-decimal
    grid. *)
Lemma round1_clamp_bounds x lo hi :
  lo <= hi -> one_decimal lo -> one_decimal hi ->
  lo <= PyNum.round1 (_clamp x lo hi) <= hi.
Proof.
  unfold one_decimal. intros Hlh Hlo Hhi.
  destruct (clamp_bounds x lo hi Hlh) as [H1 H2].
  apply round1_mono in H1, H2. lra.
Qed.

End PyNumFacts.

(** ** The status classifier *)

Section Classifier.

Variables v min max warning_delta alarm_delta : Q.

Let alarm_zone : Prop := v < min - alarm_delta \/ v > max + alarm_delta.
Let warning_zone : Prop :=
  v < min - warning_delta \/ v > max + warning_delta \/ v < min \/ v > max.

Lemma alarm_zone_test :
  reflect alarm_zone
    (PyNum.ltb v (min - alarm_delta) || PyNum.gtb v (max + alarm_delta)).
Proof.
  unfold alarm_zone.
  destruct (PyNumFacts.ltb_reflect v (min - alarm_delta)),
           (PyNumFacts.gtb_reflect v (max + alarm_delta));
    constructor; tauto.
Qed.

Lemma warning_zone_test :
  reflect warning_zone
    (PyNum.ltb v (min - warning_delta) || PyNum.gtb v (max + warning_delta)
     || PyNum.ltb v min || PyNum.gtb v max).
Proof.
  unfold warning_zone.
  destruct (PyNumFacts.ltb_reflect v (min - warning_delta)),
           (PyNumFacts.gtb_reflect v (max + warning_delta)),
           (PyNumFacts.ltb_reflect v min), (PyNumFacts.gtb_reflect v max);
    constructor; tauto.
Qed.

(** The [elif] chain of the source is the flattened disjunction. *)
Lemma calculate_status_flattened :
  _calculate_status v min max warning_delta alarm_delta
  = classify_spec v min max warning_delta alarm_delta.
Proof.
  unfold _calculate_status, classify_spec.
  destruct (PyNum.ltb v (min - alarm_delta) || _); [reflexivity |].
  destruct (PyNum.ltb v (min - warning_delta) || _); [reflexivity |].
  reflexivity.
Qed.

(** C1. For every value and limits the classifier answers alarm beyond
    an alarm threshold; otherwise warning when the value is beyond a
    warning threshold or outside the band (one flattened disjunction);
    otherwise normal.  With min=-10, max=40, warning_delta=3,
    alarm_delta=5: 39 is normal, 41 and 44 are warnings, 46 and -16 are
    alarms. *)
Theorem C1_calculate_status :
  let r := _calculate_status v min max warning_delta alarm_delta in
  r = classify_spec v min max warning_delta alarm_delta
  /\ (alarm_zone <-> r = "alarm")
  /\ (~ alarm_zone /\ warning_zone <-> r = "warning")
  /\ (~ alarm_zone /\ ~ warning_zone <-> r = "normal")
  /\ _calculate_status 39 (-10) 40 3 5 = "normal"
  /\ _calculate_status 41 (-10) 40 3 5 = "warning"
  /\ _calculate_status 44 (-10) 40 3 5 = "warning"
  /\ _calculate_status 46 (-10) 40 3 5 = "alarm"
  /\ _calculate_status (-16) (-10) 40 3 5 = "alarm".
Proof.
  cbv zeta. rewrite calculate_status_flattened.
  split; [reflexivity |].
  unfold classify_spec.
  destruct alarm_zone_test as [Ha | Ha], warning_zone_test as [Hw | Hw];
    repeat split; try reflexivity; try tauto; try discriminate;
    intros; exfalso; intuition discriminate.
Qed.

End Classifier.

(** ** The combined status *)

(** C3. The combined status is alarm if either status is alarm, else
    warning if either is warning, else normal; so an alarm on either side
    wins, combine(normal, normal) = normal, combine(warning, normal) =
    warning, and the result is never offline. *)
Theorem C3_get_combined_status (temp_status hum_status : status) :
  let either (x : status) := temp_status = x \/ hum_status = x in
  let r := _get_combined_status temp_status hum_status in
  (either "alarm" <-> r = "alarm")
  /\ (~ either "alarm" /\ either "warning" <-> r = "warning")
  /\ (~ either "alarm" /\ ~ either "warning" <-> r = "normal")
  /\ r <> "offline"
  /\ _get_combined_status "alarm" hum_status = "alarm"
  /\ _get_combined_status temp_status "alarm" = "alarm"
  /\ _get_combined_status "normal" "normal" = "normal"
  /\ _get_combined_status "warning" "normal" = "warning".
Proof.
  cbv zeta. unfold _get_combined_status.
  destruct (String.eqb_spec temp_status "alarm"),
           (String.eqb_spec hum_status "alarm"),
           (String.eqb_spec temp_status "warning"),
           (String.eqb_spec hum_status "warning");
    subst; cbn; repeat split; try reflexivity; try discriminate;
    try tauto; intros; exfalso; intuition discriminate.
Qed.


(** ** One call of [get_value] *)

#[local] Arguments PyNum.round1 : simpl never.
#[local] Arguments _clamp : simpl never.
#[local] Arguments classified_reading : simpl never.
#[local] Arguments unclassified_reading : simpl never.
#[local] Arguments offline_reading : simpl never.
#[local] Arguments sensor_bias : simpl never.
#[local] Arguments PyNum.ltb : simpl never.
#[local] Arguments PyNum.gtb : simpl never.
#[local] Arguments Qeq_bool : simpl never.
#[local] Arguments Qplus : simpl never.
#[local] Arguments Qminus : simpl never.
#[local] Arguments Qmult : simpl never.
#[local] Arguments Qdiv : simpl never.
#[local] Arguments Qopp : simpl never.
#[local] Arguments Qfloor : simpl never.
#[local] Arguments inject_Z : simpl never.
#[local] Arguments Z.add : simpl never.
#[local] Arguments Z.sub : simpl never.
#[local] Arguments Z.leb : simpl never.

(** Runs the monadic code of the hypotheses and of the goal, splitting on
    every test it meets. *)
Ltac unfold_code :=
  unfold NormalScenario_get_value, DriftUpScenario_get_value,
    DriftDownScenario_get_value, SineScenario_get_value,
    OfflineScenario_get_value, IntermittentScenario_get_value,
    TimeoutScenario_get_value, CRCErrorScenario_get_value,
    PartialOfflineScenario_get_value, DailyCycleScenario_get_value,
    HVACControlScenario_get_value, DoorOpenScenario_get_value,
    PowerOutageScenario_get_value, SensorFailureScenario_get_value in *;
  repeat (progress (unfold mbind, mret, M_bind, M_ret, uniform, random,
                      randint, now, raise in *; cbn in *)).

Ltac run_code :=
  unfold_code;
  repeat (match goal with
          | H : context [if ?c then _ else _] |- _ => destruct c eqn:?
          | H : context [let (_, _) := ?c in _] |- _ => destruct c eqn:?
          | |- context [if ?c then _ else _] => destruct c eqn:?
          | |- context [let (_, _) := ?c in _] => destruct c eqn:?
          | H : Returned _ _ = Returned _ _ |- _ => inversion H; subst; clear H
          | H : Raised _ = Returned _ _ |- _ => discriminate H
          end; cbn in *).

(** Closes a comparison or an equation between concrete rationals. *)
Ltac by_computation :=
  vm_compute; first [reflexivity | discriminate | congruence].

Section EngineFacts.

Variable sin : Q -> Q.
Variable pi : Q.

Lemma get_value_base s sensor_id limits w v s' w' :
  get_value sin pi s sensor_id limits w = Returned (v, s') w' ->
  class_of s' = class_of s
  /\ temp_min (base_of s') = temp_min (base_of s)
  /\ temp_max (base_of s') = temp_max (base_of s)
  /\ hum_min (base_of s') = hum_min (base_of s)
  /\ hum_max (base_of s') = hum_max (base_of s).
Proof.
  destruct s; unfold get_value; intros H; run_code; repeat split.
Qed.

Lemma get_value_shape s sensor_id limits w v s' w' :
  get_value sin pi s sensor_id limits w = Returned (v, s') w' ->
  reading_shape (base_of s) (class_of s) limits v.
Proof.
  destruct s; unfold get_value; intros H; run_code;
    solve [ eapply shape_offline; reflexivity
          | eapply shape_garbage; reflexivity
          | eapply shape_classified; reflexivity
          | eapply shape_unclassified; reflexivity ].
Qed.

(** C2 (as amended). For every scenario whose bounds are ordered and are
    one-decimal values, as the default bounds -40, 85, 0 and 100 are, every
    reading that is not a fault reading has its temperature and humidity
    within the bounds the scenario was constructed with, for every draw. *)
Theorem C2_clamp_invariant s sensor_id limits w v s' w' :
  grid_bounds (base_of s) ->
  get_value sin pi s sensor_id limits w = Returned (v, s') w' ->
  modbus_error v = None ->
  temp_min (base_of s) <= temperature v <= temp_max (base_of s)
  /\ hum_min (base_of s) <= humidity v <= hum_max (base_of s).
Proof.
  intros (Ht & Hh & Gtl & Gth & Ghl & Ghh) Hrun Hok.
  destruct (get_value_shape _ _ _ _ _ _ _ Hrun) as [err E | t h _ E | t h _ E | t h _ E];
    subst v; try discriminate Hok; cbn;
    split; apply PyNumFacts.round1_clamp_bounds; assumption.
Qed.

(** C4 (as amended). Every reading that is not a fault reading carries
    values that were clamped to the bounds and then rounded to one decimal;
    in every class but the three that write constant statuses, the
    statuses are the classification of these rounded values.  A raw 40.04
    is returned as 40.0 and is normal under temp_max = 40, where 40.04
    itself would be a warning. *)
Theorem C4_round_then_classify s sensor_id limits w v s' w' :
  get_value sin pi s sensor_id limits w = Returned (v, s') w' ->
  modbus_error v = None ->
  (exists t h,
      temperature v
      = PyNum.round1 (_clamp t (temp_min (base_of s)) (temp_max (base_of s)))
      /\ humidity v
         = PyNum.round1 (_clamp h (hum_min (base_of s)) (hum_max (base_of s))))
  /\ (forced_normal (class_of s) = false ->
      v = classified_reading limits (temperature v) (humidity v))
  /\ (forall b0 id0 limits0 w0,
        exists w1,
          NormalScenario_get_value b0 id0 limits0 w0
          = Returned
              (classified_reading limits0
                 (PyNum.round1
                    (_clamp
                       (temp_base b0 + sensor_bias id0 0.3
                        + uniform_of (- temp_variation b0) (temp_variation b0)
                            (draw w0 0))
                       (temp_min b0) (temp_max b0)))
                 (PyNum.round1
                    (_clamp
                       (hum_base b0
                        + uniform_of (- hum_variation b0) (hum_variation b0)
                            (draw w0 1))
                       (hum_min b0) (hum_max b0)))) w1)
  /\ (let b := BaseScenario_init
                 (kwargs_of [("temp_base", 40.04); ("temp_variation", 0)]) in
      match NormalScenario_get_value b 1 ∅ (world_of [1 # 2; 1 # 2]) with
      | Returned v0 _ => temperature v0 == 40.0 /\ temp_status v0 = "normal"
      | Raised _ => False
      end)
  /\ _calculate_status 40.04 (-10) 40 3 5 = "warning".
Proof.
  intros Hrun Hok. split; [| split; [| split; [| split]]].
  - destruct (get_value_shape _ _ _ _ _ _ _ Hrun) as [err E | t h _ E | t h _ E | t h _ E];
      subst v; try discriminate Hok; exists t, h; split; reflexivity.
  - intros Hc.
    destruct (get_value_shape _ _ _ _ _ _ _ Hrun) as [err E | t h _ E | t h _ E | t h Hf E];
      subst v; try discriminate Hok; [reflexivity | congruence].
  - intros b0 id0 limits0 w0. eexists. unfold_code. reflexivity.
  - vm_compute. split; reflexivity.
  - reflexivity.
Qed.

(** C5. In the timeout, CRC-error and power-outage classes a call always
    returns and its result is the same whatever limits are supplied.  When
    the fault draw does not trigger, the call returns the generated values
    with the three statuses all normal and no fault code; when it triggers
    (or an outage is under way) the call returns an offline reading.  So a
    reading without fault code always has the three statuses normal. *)
Theorem C5_forced_normal s sensor_id limits w :
  forced_normal (class_of s) = true ->
  exists v s' w',
    get_value sin pi s sensor_id limits w = Returned (v, s') w'
    /\ (forall limits',
          get_value sin pi s sensor_id limits' w = Returned (v, s') w')
    /\ (modbus_error v = None ->
        temp_status v = "normal" /\ hum_status v = "normal"
        /\ combined_status v = "normal")
    /\ (if fault_triggers s w
        then exists err, v = offline_reading err
        else v = forced_normal_reading (base_of s) sensor_id
                   (draw w 1) (draw w 2)
             /\ modbus_error v = None
             /\ temp_status v = "normal" /\ hum_status v = "normal"
             /\ combined_status v = "normal").
Proof.
  intros Hc. destruct s as [| | | | | | | | | | | | ? ? off ? |];
    try discriminate Hc; try destruct off;
    unfold get_value, fault_triggers, draw; cbn [Nat.add base_of orb];
    unfold_code;
    repeat match goal with
           | |- context [PyNum.ltb ?a ?b] => destruct (PyNum.ltb a b) eqn:?
           end;
    run_code;
    do 3 eexists; (split; [reflexivity |]); (split; [intros; reflexivity |]);
    (split; [first [discriminate | intros; repeat split] |]);
    first [ eexists; reflexivity | repeat split ].
Qed.

(** *** The sensor-failure class *)

Lemma sensor_failure_step b rate failed sensor_id limits w :
  exists v failed' w',
    get_value sin pi (SensorFailureScenario b rate failed) sensor_id limits w
    = Returned (v, SensorFailureScenario b rate failed') w'
    /\ failed ⊆ failed'
    /\ failed' ⊆ {[sensor_id]} ∪ failed
    /\ (sensor_id ∈ failed' <-> failed_reading v).
Proof.
  unfold get_value, failed_reading; run_code;
    repeat match goal with
           | H : bool_decide _ = true |- _ => apply bool_decide_eq_true in H
           | H : bool_decide _ = false |- _ => apply bool_decide_eq_false in H
           end;
    do 3 eexists; (split; [reflexivity |]);
    (split; [set_solver |]); (split; [set_solver |]);
    (split; [intros Hin | intros [Hv | (t & h & Hv)]]);
    try (left; reflexivity); try (right; do 2 eexists; reflexivity);
    try discriminate Hv; try set_solver.
Qed.

(** C6. In the sensor-failure class any sequence of calls returns, the
    failed set only grows along it, and every call for an id that is in the
    failed set returns the offline reading with fault code sensor_failure
    or alarm garbage with fault code invalid_data, whatever the draws. *)
Theorem C6_sensor_failure_irreversible b rate failed
    (calls : list (Z * gmap string Q)) w :
  exists vs failed' w',
    run_calls sin pi (SensorFailureScenario b rate failed) calls w
    = Returned (vs, SensorFailureScenario b rate failed') w'
    /\ length vs = length calls
    /\ failed ⊆ failed'
    /\ forall (i : nat) sensor_id limits v,
         calls !! i = Some (sensor_id, limits) -> vs !! i = Some v ->
         sensor_id ∈ failed ->
         failed_reading v
         /\ (modbus_error v = Some "sensor_failure"
             /\ combined_status v = "offline"
             \/ modbus_error v = Some "invalid_data"
                /\ combined_status v = "alarm").
Proof.
  revert failed w. induction calls as [| [id limits] rest IH]; intros failed w.
  - exists [], failed, w.
    split; [reflexivity |]. split; [reflexivity |]. split; [set_solver |].
    intros i ? ? ? Hi. rewrite lookup_nil in Hi. discriminate Hi.
  - destruct (sensor_failure_step b rate failed id limits w)
      as (v & failed1 & w1 & Hstep & Hsub & _ & Hfail).
    destruct (IH failed1 w1) as (vs & failed2 & w2 & Hrun & Hlen & Hsub2 & Hall).
    exists (v :: vs), failed2, w2.
    split; [| split; [| split]].
    + cbn [run_calls]. unfold mbind, M_bind at 1. rewrite Hstep.
      unfold mbind, M_bind at 1. rewrite Hrun. reflexivity.
    + cbn. congruence.
    + set_solver.
    + intros [| i] sensor_id limits' v' Hc Hv Hin; cbn in Hc, Hv.
      * injection Hc as -> ->. injection Hv as ->.
        assert (failed_reading v') as Hr by (apply Hfail; set_solver).
        split; [exact Hr |].
        destruct Hr as [-> | (t & h & ->)]; [left | right]; split; reflexivity.
      * apply (Hall i sensor_id limits' v' Hc Hv). set_solver.
Qed.

(** *** Limits with missing keys *)





Lemma get_value_raises s sensor_id limits w :
  zero_period s = true ->
  get_value sin pi s sensor_id limits w = Raised ZeroDivisionError.
Proof.
  intros Hz. destruct s; try discriminate Hz.
  unfold get_value; run_code; [reflexivity | discriminate Hz].
Qed.


(** *** The upward drift *)

Lemma drift_up_step b rate off sensor_id limits w :
  exists w',
    get_value sin pi (DriftUpScenario b rate off) sensor_id limits w
    = Returned
        (classified_reading limits
           (PyNum.round1
              (_clamp
                 (temp_base b + sensor_bias sensor_id 0.3 + (off + rate)
                  + uniform_of (- temp_variation b * 0.5)
                      (temp_variation b * 0.5) (draw w 0))
                 (temp_min b) (temp_max b)))
           (PyNum.round1
              (_clamp
                 (hum_base b - (off + rate) * 0.5
                  + uniform_of (- hum_variation b) (hum_variation b)
                      (draw w 1))
                 (hum_min b) (hum_max b))),
         DriftUpScenario b rate (off + rate)) w'.
Proof. eexists. reflexivity. Qed.

Lemma drift_up_run b rate off (calls : list (Z * gmap string Q)) w :
  exists vs off' w',
    run_calls sin pi (DriftUpScenario b rate off) calls w
    = Returned (vs, DriftUpScenario b rate off') w'
    /\ length vs = length calls
    /\ off' == off + Qnat (length calls) * rate.
Proof.
  revert off w. induction calls as [| [id limits] rest IH]; intros off w.
  - exists [], off, w. repeat split.
    change (Qnat (length [])) with 0. ring.
  - destruct (drift_up_step b rate off id limits w) as (w1 & Hstep).
    destruct (IH (off + rate) w1) as (vs & off' & w2 & Hrun & Hlen & Hoff).
    eexists (_ :: vs), off', w2. split; [| split].
    + cbn [run_calls]. unfold mbind, M_bind at 1. rewrite Hstep.
      unfold mbind, M_bind at 1. rewrite Hrun. reflexivity.
    + cbn. congruence.
    + rewrite Hoff. unfold Qnat. cbn [length].
      rewrite Nat2Z.inj_succ, <- Z.add_1_r, inject_Z_plus.
      change (inject_Z 1) with 1. ring.
Qed.

Lemma drift_up_offset_after b rate (calls : list (Z * gmap string Q)) w :
  offset_after sin pi (DriftUpScenario b rate 0.0) calls w
  == Qnat (length calls) * rate.
Proof.
  unfold offset_after.
  destruct (drift_up_run b rate 0.0 calls w) as (vs & off' & w' & -> & _ & H).
  cbn. rewrite H. ring.
Qed.

Lemma Qnat_le n m : (n <= m)%nat -> Qnat n <= Qnat m.
Proof.
  intros H. unfold Qnat. rewrite <- Zle_Qle. lia.
Qed.



(** *** The garbage of a failed sensor *)

Lemma round1_uniform_bounds a b u :
  a <= b -> one_decimal a -> one_decimal b -> 0 <= u -> u < 1 ->
  a <= PyNum.round1 (uniform_of a b u) <= b.
Proof.
  unfold one_decimal, uniform_of. intros Hab Ha Hb H0 H1.
  assert (a <= a + (b - a) * u <= b) as [L U] by nra.
  apply PyNumFacts.round1_mono in L, U. lra.
Qed.

(** C10. The garbage reading of a failed sensor carries a temperature
    made by [uniform(-40, 85)] and a humidity made by [uniform(0, 100)],
    each rounded to one decimal, hence within [-40, 85] and [0, 100]; the
    three statuses are alarm and the fault code is invalid_data.  Neither
    the bounds of the scenario nor the limits take part: the same reading
    comes back for any other base parameters and limits.  Such a reading
    can lie inside the normal band of the caller: 22.0 and 50.0 are
    returned with status alarm. *)
Theorem C10_garbage_reading b rate failed sensor_id limits w v s' w' :
  get_value sin pi (SensorFailureScenario b rate failed) sensor_id limits w
  = Returned (v, s') w' ->
  modbus_error v = Some "invalid_data" ->
  (exists k : nat,
      v = garbage_reading (uniform_of (-40) 85 (draw w k))
                          (uniform_of 0 100 (draw w (S k))))
  /\ temp_status v = "alarm" /\ hum_status v = "alarm"
  /\ combined_status v = "alarm"
  /\ (unit_draws w ->
      -40 <= temperature v <= 85 /\ 0 <= humidity v <= 100)
  /\ (forall b' limits',
        exists failed',
          get_value sin pi (SensorFailureScenario b' rate failed)
            sensor_id limits' w
          = Returned (v, SensorFailureScenario b' rate failed') w')
  /\ (exists v0 s0 w0,
        get_value sin pi
          (SensorFailureScenario
             (BaseScenario_init (kwargs_of [("temp_max", 10)])) 0.01 {[1%Z]})
          1 ∅ (world_of [1 # 2; 62 # 125; 1 # 2])
        = Returned (v0, s0) w0
        /\ temperature v0 == 22.0 /\ humidity v0 == 50.0
        /\ combined_status v0 = "alarm"
        /\ _calculate_status (temperature v0) (-10) 40 3 5 = "normal"
        /\ _calculate_status (humidity v0) 20 80 5 10 = "normal").
Proof.
  intros Hrun Herr.
  assert (exists k : nat,
             v = garbage_reading (uniform_of (-40) 85 (draw w k))
                                 (uniform_of 0 100 (draw w (S k)))) as Hshape.
  { unfold get_value in Hrun; run_code; try discriminate Herr;
      first [exists 1%nat; reflexivity | exists 2%nat; reflexivity]. }
  split; [exact Hshape |].
  destruct Hshape as (k & Hv).
  split; [subst v; reflexivity |]. split; [subst v; reflexivity |].
  split; [subst v; reflexivity |]. split; [| split].
  - intros Hu. subst v. cbn.
    destruct (Hu (k + rng_cursor w)%nat) as [A B].
    destruct (Hu (S k + rng_cursor w)%nat) as [C D].
    split; apply round1_uniform_bounds; try assumption; by_computation.
  - intros b' limits'. clear Hv.
    unfold get_value in *; run_code; try discriminate Herr;
      try (eexists; reflexivity); congruence.
  - do 3 eexists. split; [vm_compute; reflexivity |].
    repeat split; by_computation.
Qed.

End EngineFacts.

(** ** The registry *)

Lemma choose_offline_returns ids p acc w :
  exists off w', choose_offline ids p acc w = Returned off w'.
Proof.
  revert acc w. induction ids as [| i rest IH]; intros acc w.
  - exists acc, w. reflexivity.
  - cbn [choose_offline]. unfold mbind, M_bind, random. apply IH.
Qed.

Lemma Scenario_init_class c kw w :
  exists s w', Scenario_init c kw w = Returned s w' /\ class_of s = c.
Proof.
  destruct c;
    match goal with
    | |- context [Scenario_init CPartialOffline] => idtac
    | _ => do 2 eexists; split; reflexivity
    end.
  cbn [Scenario_init]. unfold mbind, M_bind.
  destruct (choose_offline_returns (seqZ 1 10)
              (kw_get kw "offline_probability" 0.3) ∅ w) as (off & w' & ->).
  do 2 eexists. split; reflexivity.
Qed.

(** C7. [get_scenario] always returns an object.  For a name that the
    registry does not hold it is an instance of the normal class, the very
    result of [get_scenario] on "normal"; for a name the registry holds
    it is an instance of the class registered under that name. *)
Theorem C7_get_scenario name kw w :
  exists s w',
    get_scenario name kw w = Returned s w'
    /\ (SCENARIOS !! name = None ->
        class_of s = CNormal
        /\ get_scenario name kw w = get_scenario "normal" kw w)
    /\ (forall c, SCENARIOS !! name = Some c -> class_of s = c)
    /\ (exists s0 w0,
          get_scenario "not_a_real_name" kw w = Returned s0 w0
          /\ class_of s0 = CNormal)
    /\ map_to_list SCENARIOS
       ≡ₚ [ ("normal", CNormal); ("drift_up", CDriftUp);
            ("drift_down", CDriftDown); ("sine", CSine);
            ("offline", COffline); ("intermittent", CIntermittent);
            ("timeout", CTimeout); ("crc_error", CCRCError);
            ("partial_offline", CPartialOffline);
            ("daily_cycle", CDailyCycle); ("hvac_control", CHVACControl);
            ("door_open", CDoorOpen); ("power_outage", CPowerOutage);
            ("sensor_failure", CSensorFailure) ].
Proof.
  unfold get_scenario.
  destruct (Scenario_init_class (default CNormal (SCENARIOS !! name)) kw w)
    as (s & w' & Hs & Hc).
  exists s, w'. split; [exact Hs |]. split; [| split; [| split]].
  - intros Hn. rewrite Hn in Hc. split; [exact Hc |]. rewrite Hn. reflexivity.
  - intros c Hn. rewrite Hn in Hc. exact Hc.
  - do 2 eexists. split; reflexivity.
  - apply map_to_list_to_map. compute_done.
Qed.

(** ** Concrete runs *)

(** The claim C2 as first stated fails: a normal scenario constructed with
    temp_base = 30, temp_variation = 0 and temp_max = 22.06 clamps to 22.06
    and then rounds up to 22.1, above its bound. *)
Lemma C2_counterexample :
  let s := NormalScenario
             (BaseScenario_init
                (kwargs_of [("temp_base", 30); ("temp_variation", 0);
                            ("temp_max", 22.06)])) in
  exists v s' w',
    get_value (fun _ => 0) 0 s 1 ∅ (world_of [1 # 2; 1 # 2])
    = Returned (v, s') w'
    /\ modbus_error v = None
    /\ temp_min (base_of s) <= temp_max (base_of s)
    /\ temp_max (base_of s) == 22.06
    /\ temperature v == 22.1
    /\ ~ temperature v <= temp_max (base_of s).
Proof.
  intros s. do 3 eexists. split; [vm_compute; reflexivity |].
  repeat split; by_computation.
Qed.

(** The invariant at a default normal scenario, sensor 3, draws 1/4 and
    3/4. *)
Lemma C2_clamp_invariant_witness :
  let s := NormalScenario (BaseScenario_init (kwargs_of [])) in
  match get_value (fun _ => 0) 0 s 3 ∅ (world_of [1 # 4; 3 # 4]) with
  | Returned (v, _) _ =>
      temp_min (base_of s) <= temperature v <= temp_max (base_of s)
      /\ hum_min (base_of s) <= humidity v <= hum_max (base_of s)
  | Raised _ => False
  end.
Proof.
  intros s.
  destruct (get_value (fun _ => 0) 0 s 3 ∅ (world_of [1 # 4; 3 # 4]))
    as [[v s'] w' | e] eqn:E.
  - apply (C2_clamp_invariant (fun _ => 0) 0 s 3 ∅
             (world_of [1 # 4; 3 # 4]) v s' w').
    + repeat split; by_computation.
    + exact E.
    + vm_compute in E. injection E as <- _ _. reflexivity.
  - vm_compute in E. discriminate E.
Defined.

(** The claim C4 as first stated fails on the classes with constant
    statuses: a timeout scenario with temp_base = 50 and no variation
    returns 50.0 with status normal when the fault does not trigger, while
    the classification of 50.0 against the default limits is alarm. *)
Lemma C4_counterexample :
  let s := TimeoutScenario
             (BaseScenario_init
                (kwargs_of [("temp_base", 50); ("temp_variation", 0)]))
             0.3 in
  exists v s' w',
    get_value (fun _ => 0) 0 s 1 ∅ (world_of [1 # 2; 1 # 2; 1 # 2])
    = Returned (v, s') w'
    /\ modbus_error v = None
    /\ temperature v == 50
    /\ temp_status v = "normal"
    /\ _calculate_status (temperature v) (-10) 40 3 5 = "alarm"
    /\ v <> classified_reading ∅ (temperature v) (humidity v).
Proof.
  intros s. do 3 eexists. split; [vm_compute; reflexivity |].
  repeat split; by_computation.
Qed.

(** The raw 40.04 of a normal scenario: the statuses are those of the
    rounded reading. *)
Lemma C4_round_then_classify_witness :
  let s := NormalScenario
             (BaseScenario_init
                (kwargs_of [("temp_base", 40.04); ("temp_variation", 0)])) in
  match get_value (fun _ => 0) 0 s 1 ∅ (world_of [1 # 2; 1 # 2]) with
  | Returned (v, _) _ => v = classified_reading ∅ (temperature v) (humidity v)
  | Raised _ => False
  end.
Proof.
  intros s.
  destruct (get_value (fun _ => 0) 0 s 1 ∅ (world_of [1 # 2; 1 # 2]))
    as [[v s'] w' | e] eqn:E.
  - apply (C4_round_then_classify (fun _ => 0) 0 s 1 ∅
             (world_of [1 # 2; 1 # 2]) v s' w').
    + exact E.
    + vm_compute in E. injection E as <- _ _. reflexivity.
    + reflexivity.
  - vm_compute in E. discriminate E.
Defined.

(** A power-outage scenario under power, sensor 2: the draw 1/2 does not
    start an outage. *)
Lemma C5_forced_normal_witness :
  let s := PowerOutageScenario (BaseScenario_init (kwargs_of [])) 0.05 false 0 in
  let w := world_of [1 # 2; 1 # 2; 1 # 2] in
  exists v s' w',
    get_value (fun _ => 0) 0 s 2 ∅ w = Returned (v, s') w'
    /\ fault_triggers s w = false
    /\ temperature v == 22.3 /\ humidity v == 45.0
    /\ temp_status v = "normal" /\ hum_status v = "normal"
    /\ combined_status v = "normal".
Proof.
  intros s w.
  destruct (C5_forced_normal (fun _ => 0) 0 s 2 ∅ w eq_refl)
    as (v & s' & w' & Hrun & _ & _ & H).
  change (fault_triggers s w) with false in H.
  destruct H as (Hv & _ & Ht & Hh & Hc).
  exists v, s', w'. split; [exact Hrun |]. split; [reflexivity |].
  split; [rewrite Hv; by_computation |].
  split; [rewrite Hv; by_computation |].
  split; [exact Ht |]. split; [exact Hh | exact Hc].
Defined.



(** Sensor 3 already failed; the draw 3/4 selects the garbage branch. *)
Lemma C10_garbage_reading_witness :
  let s := SensorFailureScenario (BaseScenario_init (kwargs_of [])) 0.01 {[3%Z]} in
  let w := world_of [3 # 4; 9 # 10; 1 # 10] in
  match get_value (fun _ => 0) 0 s 3 default_limits w with
  | Returned (v, _) _ =>
      temp_status v = "alarm" /\ hum_status v = "alarm"
      /\ combined_status v = "alarm"
  | Raised _ => False
  end.
Proof.
  intros s w.
  destruct (get_value (fun _ => 0) 0 s 3 default_limits w)
    as [[v s'] w' | e] eqn:E.
  - assert (modbus_error v = Some "invalid_data") as Herr
      by (vm_compute in E; injection E as <- _ _; reflexivity).
    destruct (C10_garbage_reading (fun _ => 0) 0
                (BaseScenario_init (kwargs_of [])) 0.01 {[3%Z]} 3
                default_limits w v s' w' E Herr) as (_ & A & B & C & _).
    exact (conj A (conj B C)).
  - vm_compute in E. discriminate E.
Defined.

(** * Further properties of the scenario engine *)

(** ** Clamping, classification and rounding *)

(** X1. [_clamp] returns the value itself (as a number) inside ordered
    bounds, the lower bound below them and the upper bound above them; with
    inverted bounds ([min_val] above [max_val]) it returns [min_val]
    whatever the value. *)
Theorem X1_clamp_cases (value min_val max_val : Q) :
  (min_val <= value <= max_val -> _clamp value min_val max_val == value)
  /\ (min_val <= max_val -> value < min_val ->
      _clamp value min_val max_val == min_val)
  /\ (min_val <= max_val -> max_val < value ->
      _clamp value min_val max_val == max_val)
  /\ (max_val < min_val -> _clamp value min_val max_val == min_val).
Proof.
  unfold _clamp, PyNum.max, PyNum.min.
  destruct (PyNumFacts.ltb_reflect value max_val) as [A | A];
    [destruct (PyNumFacts.gtb_reflect value min_val) as [B | B]
    |destruct (PyNumFacts.gtb_reflect max_val min_val) as [B | B]];
    repeat split; intros; lra.
Qed.

(** X2. With non-negative deltas and an ordered band the classifier
    answers normal exactly inside [limit_min, limit_max] and warning
    exactly outside it within alarm_delta; its answer does not depend on
    warning_delta at all: any two non-negative warning deltas give the same
    status. *)
Theorem X2_warning_delta_irrelevant
    (value limit_min limit_max warning_delta warning_delta' alarm_delta : Q) :
  0 <= warning_delta -> 0 <= warning_delta' -> 0 <= alarm_delta ->
  limit_min <= limit_max ->
  _calculate_status value limit_min limit_max warning_delta alarm_delta
  = _calculate_status value limit_min limit_max warning_delta' alarm_delta
  /\ (_calculate_status value limit_min limit_max warning_delta alarm_delta
      = "normal" <-> limit_min <= value <= limit_max)
  /\ (_calculate_status value limit_min limit_max warning_delta alarm_delta
      = "warning" <->
      limit_min - alarm_delta <= value < limit_min
      \/ limit_max < value <= limit_max + alarm_delta).
Proof.
  intros Hw Hw' Ha Hband. unfold _calculate_status.
  destruct (PyNumFacts.ltb_reflect value (limit_min - alarm_delta)),
           (PyNumFacts.gtb_reflect value (limit_max + alarm_delta)),
           (PyNumFacts.ltb_reflect value (limit_min - warning_delta)),
           (PyNumFacts.gtb_reflect value (limit_max + warning_delta)),
           (PyNumFacts.ltb_reflect value (limit_min - warning_delta')),
           (PyNumFacts.gtb_reflect value (limit_max + warning_delta')),
           (PyNumFacts.ltb_reflect value limit_min),
           (PyNumFacts.gtb_reflect value limit_max);
    cbn; try (exfalso; lra);
    (split; [reflexivity |]); split; split;
      intros H; try discriminate H; try reflexivity;
      try (destruct H as [H | H]);
      first [lra | left; lra | right; lra | exfalso; lra].
Qed.

Lemma X2_warning_delta_irrelevant_witness :
  _calculate_status 41 (-10) 40 3 5 = _calculate_status 41 (-10) 40 0 5.
Proof.
  assert (0 <= 3) as H3 by by_computation.
  assert (0 <= 0) as H0 by by_computation.
  assert (0 <= 5) as H5 by by_computation.
  assert (-10 <= 40) as Hb by by_computation.
  exact (proj1 (X2_warning_delta_irrelevant 41 (-10) 40 3 0 5 H3 H0 H5 Hb)).
Defined.

Lemma round_half_even_integer (x : Q) (n : Z) :
  x == inject_Z n -> PyNum.round_half_even x = n.
Proof.
  intros Hx. unfold PyNum.round_half_even.
  assert (Qfloor x = n) as -> by (rewrite Hx; apply Qfloor_Z).
  destruct (PyNumFacts.ltb_reflect (x - inject_Z n) (1 # 2)) as [_ | H];
    [reflexivity |].
  exfalso. lra.
Qed.

Lemma Qmake_10_scaled (n : Z) : (n # 10) * 10 == inject_Z n.
Proof.
  unfold Qeq, Qmult, inject_Z. cbn [Qnum Qden]. lia.
Qed.

(** Rounding to one decimal is idempotent. *)
Lemma round1_round1 (x : Q) : PyNum.round1 (PyNum.round1 x) = PyNum.round1 x.
Proof.
  unfold PyNum.round1.
  rewrite (round_half_even_integer _ _
             (Qmake_10_scaled (PyNum.round_half_even (x * 10)))).
  reflexivity.
Qed.

Section Grid.

Variable sin : Q -> Q.
Variable pi : Q.

(** X3. Every reading of every scenario, fault readings included, carries
    one-decimal values: ten times the temperature and ten times the
    humidity are integers. *)
Theorem X3_readings_on_grid s sensor_id limits w v s' w' :
  get_value sin pi s sensor_id limits w = Returned (v, s') w' ->
  (exists n : Z, temperature v == n # 10)
  /\ (exists n : Z, humidity v == n # 10)
  /\ PyNum.round1 (temperature v) == temperature v
  /\ PyNum.round1 (humidity v) == humidity v.
Proof.
  intros Hrun.
  assert (forall x, exists n : Z, PyNum.round1 x == n # 10) as Hgrid
    by (intros x; eexists; unfold PyNum.round1; reflexivity).
  destruct (get_value_shape _ _ _ _ _ _ _ _ _ Hrun)
    as [err E | t h _ E | t h _ E | t h _ E]; subst v;
    unfold offline_reading, garbage_reading, classified_reading,
      unclassified_reading; cbn [temperature humidity].
  - repeat split; try (exists 0%Z; reflexivity); by_computation.
  - rewrite !round1_round1. repeat split; try apply Hgrid; reflexivity.
  - rewrite !round1_round1. repeat split; try apply Hgrid; reflexivity.
  - rewrite !round1_round1. repeat split; try apply Hgrid; reflexivity.
Qed.

End Grid.

(** A drifting scenario after three calls. *)
Lemma X3_readings_on_grid_witness :
  let s := DriftUpScenario (BaseScenario_init (kwargs_of [])) 0.1 0.2 in
  match get_value (fun _ => 0) 0 s 4 ∅ (world_of [1 # 3; 2 # 3]) with
  | Returned (v, _) _ => PyNum.round1 (temperature v) == temperature v
  | Raised _ => False
  end.
Proof.
  intros s.
  destruct (get_value (fun _ => 0) 0 s 4 ∅ (world_of [1 # 3; 2 # 3]))
    as [[v s'] w' | e] eqn:E.
  - destruct (X3_readings_on_grid (fun _ => 0) 0 s 4 ∅
                (world_of [1 # 3; 2 # 3]) v s' w' E) as (_ & _ & H & _).
    exact H.
  - vm_compute in E. discriminate E.
Defined.

(** ** Stateful scenario classes over sequences of calls *)

(** The world after [n] more calls of [random.random()]. *)
Definition skip_draws (n : nat) (w : World) : World :=
  mkWorld (rng_stream w) (n + rng_cursor w) (clock w) (clock_reads w).

(** The band the thermostat keeps its internal temperature in. *)
Definition hvac_band (setpoint hysteresis current : Q) : Prop :=
  setpoint - hysteresis - 0.3 <= current <= setpoint + hysteresis + 0.15.

(** The rate of the communication fault of the three classes that draw
    one per call. *)
Definition fault_rate (s : Scenario) : option Q :=
  match s with
  | IntermittentScenario _ r | TimeoutScenario _ r | CRCErrorScenario _ r =>
      Some r
  | _ => None
  end.

Lemma skip_draws_skip_draws n m w :
  skip_draws n (skip_draws m w) = skip_draws (n + m) w.
Proof. unfold skip_draws. cbn. f_equal. lia. Qed.

Lemma skip_draws_0 w : skip_draws 0 w = w.
Proof. destruct w. reflexivity. Qed.

Lemma unit_draws_skip n w : unit_draws w -> unit_draws (skip_draws n w).
Proof. intros H. exact H. Qed.

Section Sequences.

Variable sin : Q -> Q.
Variable pi : Q.

(** Unfolds one call at the head of a run. *)
Lemma run_calls_cons s sensor_id limits rest w v s1 w1 :
  get_value sin pi s sensor_id limits w = Returned (v, s1) w1 ->
  run_calls sin pi s ((sensor_id, limits) :: rest) w
  = match run_calls sin pi s1 rest w1 with
    | Returned (vs, s2) w2 => Returned (v :: vs, s2) w2
    | Raised e => Raised e
    end.
Proof.
  intros H. cbn [run_calls]. unfold mbind, M_bind at 1. rewrite H.
  unfold mbind, M_bind at 1. destruct (run_calls sin pi s1 rest w1) as [[vs s2] w2 | e];
    reflexivity.
Qed.

(** *** The downward drift *)

Lemma drift_down_step b rate off sensor_id limits w :
  exists v,
    get_value sin pi (DriftDownScenario b rate off) sensor_id limits w
    = Returned (v, DriftDownScenario b rate (off - rate)) (skip_draws 2 w).
Proof. eexists. reflexivity. Qed.

Lemma sine_step b period amplitude sensor_id limits w :
  Qeq_bool period 0 = false ->
  exists v,
    get_value sin pi (SineScenario b period amplitude) sensor_id limits w
    = Returned (v, SineScenario (tick b) period amplitude) (skip_draws 2 w).
Proof.
  intros Hp. unfold get_value. unfold_code. rewrite Hp.
  eexists. reflexivity.
Qed.

Lemma drift_down_run b rate off (calls : list (Z * gmap string Q)) w :
  exists vs off',
    run_calls sin pi (DriftDownScenario b rate off) calls w
    = Returned (vs, DriftDownScenario b rate off')
        (skip_draws (2 * length calls) w)
    /\ length vs = length calls
    /\ off' == off - Qnat (length calls) * rate.
Proof.
  revert off w. induction calls as [| [id limits] rest IH]; intros off w.
  - exists [], off. rewrite skip_draws_0. repeat split.
    change (Qnat (length [])) with 0. ring.
  - destruct (IH (off - rate) (skip_draws 2 w))
      as (vs & off' & Hrun & Hlen & Hoff).
    destruct (drift_down_step b rate off id limits w) as (v & Hstep).
    exists (v :: vs), off'. split; [| split].
    + rewrite (run_calls_cons _ _ _ _ _ _ _ _ Hstep), Hrun,
        skip_draws_skip_draws.
      replace (2 * length rest + 2)%nat
        with (2 * length ((id, limits) :: rest))%nat by (cbn; lia).
      reflexivity.
    + cbn. congruence.
    + rewrite Hoff. unfold Qnat. cbn [length].
      rewrite Nat2Z.inj_succ, <- Z.add_1_r, inject_Z_plus.
      change (inject_Z 1) with 1. ring.
Qed.

(** X4. The downward drift is the mirror image of the upward one.  Every
    call returns, uses two draws and lowers the offset by drift_rate,
    whichever sensor is read; after the same calls on fresh objects the
    offset is the opposite of the offset of an upward drift with the same
    rate; for a non-negative rate the offsets along a sequence of calls
    never increase. *)
Theorem X4_drift_down_offset b rate (calls : list (Z * gmap string Q)) w :
  let down := DriftDownScenario b rate 0.0 in
  let up := DriftUpScenario b rate 0.0 in
  (exists vs off',
      run_calls sin pi down calls w
      = Returned (vs, DriftDownScenario b rate off')
          (skip_draws (2 * length calls) w)
      /\ length vs = length calls)
  /\ (forall off sensor_id limits w0,
        exists v,
          get_value sin pi (DriftDownScenario b rate off) sensor_id limits w0
          = Returned (v, DriftDownScenario b rate (off - rate))
              (skip_draws 2 w0))
  /\ offset_after sin pi down calls w == - offset_after sin pi up calls w
  /\ (forall call,
        offset_after sin pi down (calls ++ [call]) w
        == offset_after sin pi down calls w - rate)
  /\ (0 <= rate ->
      forall n m : nat,
        (n <= m)%nat ->
        offset_after sin pi down (take m calls) w
        <= offset_after sin pi down (take n calls) w).
Proof.
  intros down up.
  assert (forall l, offset_after sin pi down l w == - (Qnat (length l) * rate))
    as Hdown.
  { intros l. unfold offset_after, down.
    destruct (drift_down_run b rate 0.0 l w) as (vs & off' & -> & _ & H).
    cbn. rewrite H. ring. }
  split; [| split; [| split; [| split]]].
  - destruct (drift_down_run b rate 0.0 calls w) as (vs & off' & H & Hl & _).
    exists vs, off'. split; [exact H | exact Hl].
  - intros off sensor_id limits w0. apply drift_down_step.
  - rewrite Hdown. unfold up. rewrite drift_up_offset_after. reflexivity.
  - intros call. rewrite !Hdown, length_app. cbn [length]. unfold Qnat.
    rewrite Nat2Z.inj_add, inject_Z_plus.
    change (inject_Z (Z.of_nat 1)) with 1. ring.
  - intros Hrate n m Hnm. rewrite !Hdown, !length_take.
    assert (Qnat (n `min` length calls) <= Qnat (m `min` length calls)) as H
      by (apply Qnat_le; lia).
    nra.
Qed.

(** *** The sine class *)

(** X5. In the sine class, for a period of at least one iteration
    (in absolute value), every call returns, uses two draws and advances
    the iteration counter by exactly one, whichever sensor is read, and
    changes nothing else of the object: after N calls the counter is N
    further and every other attribute is as before.  With a zero period no
    call returns: a run of at least one call raises on its first call. *)
Theorem X5_sine_iteration b period amplitude
    (calls : list (Z * gmap string Q)) w :
  (period == 0 -> calls <> [] ->
   run_calls sin pi (SineScenario b period amplitude) calls w
   = Raised ZeroDivisionError)
  /\ (1 <= Qabs period ->
      exists vs,
        run_calls sin pi (SineScenario b period amplitude) calls w
        = Returned
            (vs,
             SineScenario
               {| temp_base := temp_base b;
                  temp_variation := temp_variation b;
                  temp_min := temp_min b; temp_max := temp_max b;
                  hum_base := hum_base b; hum_variation := hum_variation b;
                  hum_min := hum_min b; hum_max := hum_max b;
                  offline_sensors := offline_sensors b;
                  _iteration := (_iteration b + Z.of_nat (length calls))%Z |}
               period amplitude)
            (skip_draws (2 * length calls) w)
        /\ length vs = length calls).
Proof.
  split.
  - intros Hp Hne. apply Qeq_bool_iff in Hp.
    destruct calls as [| [id limits] rest]; [congruence |].
    cbn [run_calls]. unfold mbind, M_bind at 1.
    rewrite (get_value_raises sin pi (SineScenario b period amplitude))
      by exact Hp.
    reflexivity.
  - intros Hper.
    assert (Qeq_bool period 0 = false) as Hp.
    { destruct (Qeq_bool period 0) eqn:E; [| reflexivity].
      apply Qeq_bool_iff in E. rewrite E in Hper.
      exfalso. revert Hper. by_computation. }
    clear Hper. revert b w.
    induction calls as [| [id limits] rest IH]; intros b w.
    + exists []. rewrite skip_draws_0. split; [| reflexivity].
      cbn [run_calls length]. unfold mret, M_ret. do 3 f_equal.
      destruct b. cbn [temp_base temp_variation temp_min temp_max hum_base
                         hum_variation hum_min hum_max offline_sensors
                         _iteration].
      f_equal. change (Z.of_nat 0) with 0%Z. lia.
    + destruct (IH (tick b) (skip_draws 2 w)) as (vs & Hrun & Hlen).
      destruct (sine_step b period amplitude id limits w Hp) as (v & Hstep).
      exists (v :: vs). split.
      * rewrite (run_calls_cons _ _ _ _ _ _ _ _ Hstep), Hrun,
          skip_draws_skip_draws.
        replace (2 * length rest + 2)%nat
          with (2 * length ((id, limits) :: rest))%nat by (cbn; lia).
        cbn [tick temp_base temp_variation temp_min temp_max hum_base
               hum_variation hum_min hum_max offline_sensors _iteration].
        do 4 f_equal. cbn [length]. lia.
      * cbn. congruence.
Qed.

End Sequences.

Lemma choose_offline_spec ids p acc w :
  exists off,
    choose_offline ids p acc w = Returned off (skip_draws (length ids) w)
    /\ acc ⊆ off /\ off ⊆ acc ∪ list_to_set ids.
Proof.
  revert acc w. induction ids as [| i rest IH]; intros acc w.
  - exists acc. rewrite skip_draws_0. repeat split; set_solver.
  - cbn [choose_offline]. unfold mbind, M_bind, random.
    match goal with
    | |- context [choose_offline rest p ?a ?w1] =>
        destruct (IH a w1) as (off & Hrun & Hsub & Hsup)
    end.
    exists off. split; [| split].
    + rewrite Hrun. unfold skip_draws. cbn. f_equal. f_equal. lia.
    + destruct (PyNum.ltb _ _); set_solver.
    + destruct (PyNum.ltb _ _); set_solver.
Qed.

Section Faults.

Variable sin : Q -> Q.
Variable pi : Q.

(** No call changes the stream of draws of the world. *)
Lemma get_value_stream s sensor_id limits w v s' w' :
  get_value sin pi s sensor_id limits w = Returned (v, s') w' ->
  rng_stream w' = rng_stream w.
Proof.
  destruct s; unfold get_value; intros H; run_code; reflexivity.
Qed.

Lemma get_value_unit_draws s sensor_id limits w v s' w' :
  get_value sin pi s sensor_id limits w = Returned (v, s') w' ->
  unit_draws w -> unit_draws w'.
Proof.
  intros H Hu i. rewrite (get_value_stream _ _ _ _ _ _ _ H). apply Hu.
Qed.

(** *** Fault rates at the ends of the scale *)

(** X6. For the intermittent, timeout and CRC-error classes, with draws
    in [0, 1): a rate of 1 or more makes every call return the offline
    reading after one draw; a rate of 0 or less makes no call fault, and
    the intermittent class then behaves as the normal class on the draws
    that follow the first. *)
Theorem X6_fault_rate_edges s r sensor_id limits w :
  fault_rate s = Some r ->
  unit_draws w ->
  (1 <= r ->
   exists v,
     get_value sin pi s sensor_id limits w = Returned (v, s) (skip_draws 1 w)
     /\ combined_status v = "offline" /\ temperature v = 0.0
     /\ humidity v = 0.0 /\ modbus_error v <> None)
  /\ (r <= 0 ->
      exists v,
        get_value sin pi s sensor_id limits w
        = Returned (v, s) (skip_draws 3 w)
        /\ modbus_error v = None)
  /\ (r <= 0 ->
      forall b,
        s = IntermittentScenario b r ->
        IntermittentScenario_get_value b r sensor_id limits w
        = NormalScenario_get_value b sensor_id limits (skip_draws 1 w)).
Proof.
  intros Hs Hu. destruct (Hu (rng_cursor w)) as [H0 H1].
  split; [| split].
  - intros Hr.
    destruct s; try discriminate Hs; injection Hs as ->;
      unfold get_value; unfold_code;
      (destruct (PyNumFacts.ltb_reflect (rng_stream w (rng_cursor w)) r);
       [| exfalso; lra]);
      eexists; (split; [reflexivity |]); repeat split; discriminate.
  - intros Hr.
    destruct s; try discriminate Hs; injection Hs as ->;
      unfold get_value; unfold_code;
      (destruct (PyNumFacts.ltb_reflect (rng_stream w (rng_cursor w)) r);
       [exfalso; lra |]);
      eexists; split; reflexivity.
  - intros Hr b ->. unfold_code.
    destruct (PyNumFacts.ltb_reflect (rng_stream w (rng_cursor w)) r);
      [exfalso; lra | reflexivity].
Qed.

(** *** The partial-offline class *)

Lemma partial_offline_step b p off sensor_id limits w :
  exists v w',
    get_value sin pi (PartialOfflineScenario b p off) sensor_id limits w
    = Returned (v, PartialOfflineScenario b p off) w'
    /\ (sensor_id ∈ off \/ sensor_id ∈ offline_sensors b ->
        v = offline_reading "timeout" /\ w' = w)
    /\ (~ (sensor_id ∈ off \/ sensor_id ∈ offline_sensors b) ->
        modbus_error v = None /\ w' = skip_draws 2 w).
Proof.
  unfold get_value. unfold_code.
  destruct (bool_decide (sensor_id ∈ off)) eqn:E1;
    [| destruct (bool_decide (sensor_id ∈ offline_sensors b)) eqn:E2];
    cbn; do 2 eexists; (split; [reflexivity |]);
    repeat match goal with
           | H : bool_decide _ = true |- _ => apply bool_decide_eq_true in H
           | H : bool_decide _ = false |- _ => apply bool_decide_eq_false in H
           end;
    split; intros H; try (split; reflexivity); exfalso; tauto.
Qed.

(** X7. The constructor of the partial-offline class draws ten times and
    picks its offline set among the ids 1..10 only.  From then on the
    object never changes: in any sequence of calls a sensor of that set, or
    of the configured [offline_sensors], gets the offline reading with
    fault code timeout and uses no draw, and any other sensor gets a
    reading without fault code. *)
Theorem X7_partial_offline kw (calls : list (Z * gmap string Q)) w :
  exists p off,
    let s := PartialOfflineScenario (BaseScenario_init kw) p off in
    get_scenario "partial_offline" kw w = Returned s (skip_draws 10 w)
    /\ (forall i, i ∈ off -> (1 <= i <= 10)%Z)
    /\ forall w0, exists vs w',
         run_calls sin pi s calls w0 = Returned (vs, s) w'
         /\ length vs = length calls
         /\ forall (i : nat) sensor_id limits v,
              calls !! i = Some (sensor_id, limits) -> vs !! i = Some v ->
              if bool_decide (sensor_id ∈ off
                              \/ sensor_id ∈ default [] (kw_offline_sensors kw))
              then v = offline_reading "timeout"
              else modbus_error v = None.
Proof.
  destruct (choose_offline_spec (seqZ 1 10)
              (kw_get kw "offline_probability" 0.3) ∅ w)
    as (off & Hinit & _ & Hsup).
  exists (kw_get kw "offline_probability" 0.3), off. cbv zeta.
  split; [| split].
  - unfold get_scenario.
    replace (SCENARIOS !! "partial_offline") with (Some CPartialOffline)
      by reflexivity.
    change (Scenario_init CPartialOffline kw w = Returned
              (PartialOfflineScenario (BaseScenario_init kw)
                 (kw_get kw "offline_probability" 0.3) off)
              (skip_draws 10 w)).
    cbn [Scenario_init]. unfold mbind, M_bind. rewrite Hinit.
    reflexivity.
  - intros i Hi. apply Hsup in Hi.
    rewrite elem_of_union, elem_of_list_to_set, elem_of_seqZ in Hi.
    destruct Hi as [Hi | Hi]; [| lia].
    exfalso. exact (not_elem_of_empty i Hi).
  - induction calls as [| [id limits] rest IH]; intros w0.
    + exists [], w0. repeat split.
      intros i ? ? ? Hi. rewrite lookup_nil in Hi. discriminate Hi.
    + destruct (partial_offline_step (BaseScenario_init kw)
                  (kw_get kw "offline_probability" 0.3) off id limits w0)
        as (v & w1 & Hstep & Hoff & Hon).
      destruct (IH w1) as (vs & w2 & Hrun & Hlen & Hall).
      exists (v :: vs), w2. split; [| split].
      * rewrite (run_calls_cons _ _ _ _ _ _ _ _ _ _ Hstep), Hrun. reflexivity.
      * cbn. congruence.
      * intros [| i] sensor_id limits' v' Hc Hv; cbn in Hc, Hv.
        -- injection Hc as -> ->. injection Hv as ->.
           case_bool_decide as Hd; [apply Hoff | apply Hon]; exact Hd.
        -- apply (Hall i sensor_id limits' v' Hc Hv).
Qed.

(** *** The power outage *)

Lemma power_off_step b p t sensor_id limits w :
  get_value sin pi (PowerOutageScenario b p true t) sensor_id limits w
  = Returned
      (offline_reading "no_power",
       PowerOutageScenario b p (if (t - 1 <=? 0)%Z then false else true)
         (t - 1)) w.
Proof. destruct w. reflexivity. Qed.

(** X10. An outage is timed and ends by itself.  With the power off and a
    timer of t >= 1, the next t calls, for any sensors, all return the
    offline reading with fault code no_power and use no draw; after n <= t
    of them the timer is t - n, and the power is back exactly when n = t.
    A call that starts an outage sets the timer from [randint(10, 30)] and
    is the first of its offline calls. *)
Theorem X10_power_outage_timed b p t (calls : list (Z * gmap string Q)) w :
  (1 <= t)%Z ->
  (Z.of_nat (length calls) <= t)%Z ->
  run_calls sin pi (PowerOutageScenario b p true t) calls w
  = Returned
      (replicate (length calls) (offline_reading "no_power"),
       PowerOutageScenario b p (Z.of_nat (length calls) <? t)%Z
         (t - Z.of_nat (length calls))) w
  /\ (forall t0 sensor_id limits,
        unit_draws w -> draw w 0 < p ->
        exists T : Z,
          (10 <= T <= 30)%Z
          /\ get_value sin pi (PowerOutageScenario b p false t0)
               sensor_id limits w
             = Returned
                 (offline_reading "no_power",
                  PowerOutageScenario b p true (T - 1)) (skip_draws 2 w)).
Proof.
  intros Ht Hn. split.
  - revert t Ht Hn. induction calls as [| [id limits] rest IH]; intros t Ht Hn.
    + cbn [run_calls length replicate]. unfold mret, M_ret.
      replace (Z.of_nat 0 <? t)%Z with true by (symmetry; apply Z.ltb_lt; lia).
      replace (t - Z.of_nat 0)%Z with t by lia. reflexivity.
    + cbn [length] in Hn.
      rewrite (run_calls_cons _ _ _ _ _ _ _ _ _ _
                 (power_off_step b p t id limits w)).
      destruct rest as [| c rest'].
      * cbn [run_calls length replicate]. unfold mret, M_ret.
        replace (t - Z.of_nat 1)%Z with (t - 1)%Z by lia.
        destruct (Z.leb_spec (t - 1) 0), (Z.ltb_spec (Z.of_nat 1) t);
          try lia; reflexivity.
      * cbn [length] in Hn, IH.
        destruct (Z.leb_spec (t - 1) 0); [lia |].
        rewrite (IH (t - 1)%Z) by lia.
        cbn [length replicate].
        replace (t - 1 - Z.of_nat (S (length rest')))%Z
          with (t - Z.of_nat (S (S (length rest'))))%Z by lia.
        destruct (Z.ltb_spec (Z.of_nat (S (length rest'))) (t - 1)),
                 (Z.ltb_spec (Z.of_nat (S (S (length rest')))) t);
          try lia; reflexivity.
  - intros t0 sensor_id limits Hu Hp.
    destruct (Hu (S (rng_cursor w))) as [U0 U1].
    set (x := rng_stream w (S (rng_cursor w)) * inject_Z (30 - 10 + 1)).
    assert (0 <= Qfloor x < 21)%Z as HT.
    { assert (0 <= x) as L
        by (unfold x; change (inject_Z (30 - 10 + 1)) with 21; lra).
      assert (x < 21) as U
        by (unfold x; change (inject_Z (30 - 10 + 1)) with 21; lra).
      apply Qfloor_resp_le in L. change (Qfloor 0) with 0%Z in L.
      split; [exact L |]. apply Z.lt_nge. intros Hge.
      pose proof (Qfloor_le x) as Hf.
      rewrite Zle_Qle in Hge. change (inject_Z 21) with 21 in Hge.
      revert U Hf Hge. generalize (inject_Z (Qfloor x)). generalize x.
      intros x' y U Hf Hge. lra. }
    exists (10 + Qfloor x)%Z. split; [lia |].
    unfold get_value. unfold_code.
    unfold draw in Hp. cbn in Hp.
    destruct (PyNumFacts.ltb_reflect (rng_stream w (rng_cursor w)) p);
      [| exfalso; tauto].
    cbn. fold x.
    destruct (Z.leb_spec (10 + Qfloor x - 1) 0); [exfalso; lia | reflexivity].
Qed.

End Faults.

Section Controllers.

Variable sin : Q -> Q.
Variable pi : Q.

(** *** Which sensors can fail *)

Lemma sensor_failure_never b rate failed sensor_id limits w :
  rate <= 0 -> unit_draws w ->
  exists v w',
    get_value sin pi (SensorFailureScenario b rate failed) sensor_id limits w
    = Returned (v, SensorFailureScenario b rate failed) w'.
Proof.
  intros Hr Hu. destruct (Hu (rng_cursor w)) as [H0 _].
  unfold get_value. unfold_code.
  destruct (bool_decide (sensor_id ∉ failed)) eqn:E; cbn.
  - destruct (PyNumFacts.ltb_reflect (rng_stream w (rng_cursor w)) rate);
      [exfalso; lra |].
    apply bool_decide_eq_true in E.
    cbn. rewrite bool_decide_eq_false_2 by exact E.
    do 2 eexists. reflexivity.
  - run_code; do 2 eexists; reflexivity.
Qed.

(** X11. In the sensor-failure class only the sensors that are read can
    fail: after any sequence of calls the failed set holds nothing but the
    ids it held before and ids that were called.  With a failure rate of 0
    or less (and draws in [0, 1)) it does not change at all. *)
Theorem X11_only_called_sensors_fail b rate failed
    (calls : list (Z * gmap string Q)) w :
  exists vs failed' w',
    run_calls sin pi (SensorFailureScenario b rate failed) calls w
    = Returned (vs, SensorFailureScenario b rate failed') w'
    /\ failed' ⊆ failed ∪ list_to_set (calls.*1)
    /\ (rate <= 0 -> unit_draws w -> failed' = failed).
Proof.
  revert failed w. induction calls as [| [id limits] rest IH]; intros failed w.
  - exists [], failed, w. split; [reflexivity |]. split; [set_solver | auto].
  - destruct (sensor_failure_step sin pi b rate failed id limits w)
      as (v & failed1 & w1 & Hstep & _ & Hsup & _).
    destruct (IH failed1 w1) as (vs & failed2 & w2 & Hrun & Hsub & Hnever).
    exists (v :: vs), failed2, w2. split; [| split].
    + rewrite (run_calls_cons _ _ _ _ _ _ _ _ _ _ Hstep), Hrun. reflexivity.
    + rewrite fmap_cons, list_to_set_cons. cbn [fst].
      clear -Hsub Hsup. set_solver.
    + intros Hr Hu.
      destruct (sensor_failure_never b rate failed id limits w Hr Hu)
        as (v' & w' & Hstep').
      rewrite Hstep in Hstep'. injection Hstep' as _ Hf _.
      rewrite Hnever; [exact Hf | exact Hr |].
      exact (get_value_unit_draws _ _ _ _ _ _ _ _ _ Hstep Hu).
Qed.

(** *** The thermostat *)

Lemma hvac_step b setpoint hysteresis on current sensor_id limits w :
  0 <= hysteresis -> unit_draws w ->
  hvac_band setpoint hysteresis current ->
  exists v on' current' w',
    get_value sin pi
      (HVACControlScenario b setpoint hysteresis on current)
      sensor_id limits w
    = Returned (v, HVACControlScenario b setpoint hysteresis on' current') w'
    /\ hvac_band setpoint hysteresis current'
    /\ on' = (if PyNum.gtb current (setpoint + hysteresis) then true
              else if PyNum.ltb current (setpoint - hysteresis) then false
              else on)
    /\ (if on' then current - 0.3 <= current' <= current - 0.1
        else current + 0.05 <= current' <= current + 0.15).
Proof.
  intros Hh Hu [Hlo Hhi]. destruct (Hu (rng_cursor w)) as [U0 U1].
  unfold get_value. unfold_code. unfold hvac_band.
  destruct (PyNumFacts.gtb_reflect current (setpoint + hysteresis)) as [A | A];
    [| destruct (PyNumFacts.ltb_reflect current (setpoint - hysteresis))
         as [B | B]; [| destruct on]];
    cbn; do 4 eexists; (split; [reflexivity |]);
    (split; [| split; [reflexivity |]]); cbn; lra.
Qed.

(** X8. The thermostat keeps its internal temperature in a band: with a
    non-negative hysteresis and draws in [0, 1), once the internal
    temperature is within [setpoint - hysteresis - 0.3,
    setpoint + hysteresis + 0.15] it stays there over any sequence of
    calls; the constructor starts it at the setpoint, inside the band.
    Each call first switches the unit on above setpoint + hysteresis and
    off below setpoint - hysteresis, then lowers the temperature by 0.1 to
    0.3 when on and raises it by 0.05 to 0.15 when off. *)
Theorem X8_hvac_band b setpoint hysteresis on current
    (calls : list (Z * gmap string Q)) w :
  0 <= hysteresis -> unit_draws w ->
  hvac_band setpoint hysteresis current ->
  (exists vs on' current' w',
      run_calls sin pi
        (HVACControlScenario b setpoint hysteresis on current) calls w
      = Returned
          (vs, HVACControlScenario b setpoint hysteresis on' current') w'
      /\ length vs = length calls
      /\ hvac_band setpoint hysteresis current')
  /\ hvac_band setpoint hysteresis setpoint
  /\ (forall sensor_id limits,
        exists v on' current' w',
          get_value sin pi
            (HVACControlScenario b setpoint hysteresis on current)
            sensor_id limits w
          = Returned
              (v, HVACControlScenario b setpoint hysteresis on' current') w'
          /\ on' = (if PyNum.gtb current (setpoint + hysteresis) then true
                    else if PyNum.ltb current (setpoint - hysteresis)
                         then false else on)
          /\ (if on' then current - 0.3 <= current' <= current - 0.1
              else current + 0.05 <= current' <= current + 0.15)).
Proof.
  intros Hh Hu Hband. split; [| split].
  - revert on current w Hu Hband.
    induction calls as [| [id limits] rest IH]; intros on current w Hu Hband.
    + exists [], on, current, w. repeat split; apply Hband.
    + destruct (hvac_step b setpoint hysteresis on current id limits w
                  Hh Hu Hband)
        as (v & on1 & cur1 & w1 & Hstep & Hband1 & _).
      destruct (IH on1 cur1 w1
                  (get_value_unit_draws _ _ _ _ _ _ _ _ _ Hstep Hu) Hband1)
        as (vs & on2 & cur2 & w2 & Hrun & Hlen & Hband2).
      exists (v :: vs), on2, cur2, w2. split; [| split].
      * rewrite (run_calls_cons _ _ _ _ _ _ _ _ _ _ Hstep), Hrun. reflexivity.
      * cbn. congruence.
      * exact Hband2.
  - unfold hvac_band. lra.
  - intros sensor_id limits.
    destruct (hvac_step b setpoint hysteresis on current sensor_id limits w
                Hh Hu Hband)
      as (v & on1 & cur1 & w1 & Hstep & _ & Hon & Hmove).
    exists v, on1, cur1, w1. auto.
Qed.

End Controllers.

Section Door.

Variable sin : Q -> Q.
Variable pi : Q.

Lemma draw_skip n w k : draw (skip_draws n w) k = draw w (k + n).
Proof. unfold draw, skip_draws. cbn. f_equal. lia. Qed.

(** The reading of a call that finds the door open and leaves it open. *)
Definition door_open_reading (b : BaseScenario) (outside_temp : Q)
    (limits : gmap string Q) (u_temp u_hum : Q) : SensorValue :=
  classified_reading limits
    (PyNum.round1
       (_clamp
          (temp_base b + (outside_temp - temp_base b) * 0.3
           + uniform_of (-2) 2 u_temp)
          (temp_min b) (temp_max b)))
    (PyNum.round1
       (_clamp (hum_base b + uniform_of (-10) 10 u_hum)
          (hum_min b) (hum_max b))).

Lemma door_open_step b p outside t sensor_id limits w :
  (2 <= t)%Z ->
  get_value sin pi (DoorOpenScenario b p outside true t) sensor_id limits w
  = Returned
      (door_open_reading b outside limits (draw w 0) (draw w 1),
       DoorOpenScenario b p outside true (t - 1)) (skip_draws 2 w).
Proof.
  intros Ht. unfold get_value. unfold_code.
  destruct (Z.leb_spec (t - 1) 0); [lia | reflexivity].
Qed.

Lemma door_close_step b p outside t sensor_id limits w :
  (t <= 1)%Z ->
  exists v,
    get_value sin pi (DoorOpenScenario b p outside true t) sensor_id limits w
    = Returned (v, DoorOpenScenario b p outside false (t - 1))
        (skip_draws 2 w).
Proof.
  intros Ht. unfold get_value. unfold_code.
  destruct (Z.leb_spec (t - 1) 0); [| lia]. eexists. reflexivity.
Qed.

(** X9. An open door closes by itself.  With the door open and a timer
    of t >= 1, after n <= t further calls the timer is t - n and the door
    is still open exactly when n < t; every call uses two draws.  The
    calls that leave the door open (all but the t-th) return the same
    reading for every sensor id: the temperature is the base pulled 30%
    toward outside_temp plus noise from [uniform(-2, 2)], without the
    per-sensor bias, and the humidity is the base plus noise from
    [uniform(-10, 10)]. *)
Theorem X9_door_open_timed b p outside t
    (calls : list (Z * gmap string Q)) w :
  (1 <= t)%Z ->
  (Z.of_nat (length calls) <= t)%Z ->
  exists vs,
    run_calls sin pi (DoorOpenScenario b p outside true t) calls w
    = Returned
        (vs,
         DoorOpenScenario b p outside (Z.of_nat (length calls) <? t)%Z
           (t - Z.of_nat (length calls)))
        (skip_draws (2 * length calls) w)
    /\ length vs = length calls
    /\ forall (i : nat) sensor_id limits v,
         calls !! i = Some (sensor_id, limits) -> vs !! i = Some v ->
         (Z.of_nat i + 1 < t)%Z ->
         v = door_open_reading b outside limits
               (draw w (2 * i)) (draw w (2 * i + 1)).
Proof.
  revert t w. induction calls as [| [id limits] rest IH]; intros t w Ht Hn.
  - exists []. cbn [length run_calls]. rewrite skip_draws_0.
    replace (Z.of_nat 0 <? t)%Z with true by (symmetry; apply Z.ltb_lt; lia).
    replace (t - Z.of_nat 0)%Z with t by lia.
    split; [reflexivity |]. split; [reflexivity |].
    intros i ? ? ? Hi. rewrite lookup_nil in Hi. discriminate Hi.
  - cbn [length] in Hn. destruct (Z.le_gt_cases t 1) as [H1 | H2].
    + assert (t = 1%Z) as -> by lia.
      destruct rest as [| c rest']; [| cbn [length] in Hn; lia].
      destruct (door_close_step b p outside 1 id limits w) as (v & Hstep);
        [lia |].
      exists [v]. rewrite (run_calls_cons _ _ _ _ _ _ _ _ _ _ Hstep).
      split; [reflexivity |]. split; [reflexivity |].
      intros i ? ? ? _ _ Hi. lia.
    + pose proof (door_open_step b p outside t id limits w) as Hstep.
      destruct (IH (t - 1)%Z (skip_draws 2 w)) as (vs & Hrun & Hlen & Hall);
        [lia | lia |].
      eexists (_ :: vs).
      rewrite (run_calls_cons _ _ _ _ _ _ _ _ _ _ (Hstep ltac:(lia))), Hrun.
      split; [| split].
      * rewrite skip_draws_skip_draws. cbn [length].
        replace (2 * length rest + 2)%nat with (2 * S (length rest))%nat
          by lia.
        replace (t - 1 - Z.of_nat (length rest))%Z
          with (t - Z.of_nat (S (length rest)))%Z by lia.
        destruct (Z.ltb_spec (Z.of_nat (length rest)) (t - 1)),
                 (Z.ltb_spec (Z.of_nat (S (length rest))) t);
          try lia; reflexivity.
      * cbn. congruence.
      * intros [| i] sensor_id limits' v' Hc Hv Hi; cbn in Hc, Hv.
        -- injection Hc as -> ->. injection Hv as <-. reflexivity.
        -- rewrite (Hall i sensor_id limits' v' Hc Hv) by lia.
           rewrite !draw_skip. f_equal; f_equal; lia.
Qed.

End Door.

(** * The virtual register map, [mock_modbus/registers.py] *)

(** The register file: the dictionary from addresses to 16-bit words and
    the layout parameters.  (The lock of the source serialises the
    accesses and has no part in a sequential model.) *)
Record VirtualRegisters := mkRegisters {
  value_base : Z;
  status_base : Z;
  sensor_count : Z;
  _registers : gmap Z Z
}.

(** One quantity of a sensor as [get_sensor_values] reports it. *)
Record Channel := mkChannel {
  ch_value : Q;
  ch_raw : Z;
  ch_address : Z;
  ch_status : Z
}.

(** The dictionary returned by [get_sensor_values]. *)
Record SensorRegisters := mkSensorRegisters {
  reg_temperature : Channel;
  reg_humidity : Channel
}.

(** [int(x)] of a float: truncation toward zero. *)
Definition py_int (x : Q) : Z := Z.quot (Qnum x) (Z.pos (Qden x)).

(** The register addresses of a sensor. *)
Definition temp_addr (r : VirtualRegisters) (sensor_id : Z) : Z :=
  value_base r + (sensor_id - 1) * 2.
Definition hum_addr (r : VirtualRegisters) (sensor_id : Z) : Z :=
  value_base r + (sensor_id - 1) * 2 + 1.
Definition temp_status_addr (r : VirtualRegisters) (sensor_id : Z) : Z :=
  status_base r + (sensor_id - 1) * 2.
Definition hum_status_addr (r : VirtualRegisters) (sensor_id : Z) : Z :=
  status_base r + (sensor_id - 1) * 2 + 1.

(** [self._registers[address] = value] *)
Definition store (r : VirtualRegisters) (address value : Z)
    : VirtualRegisters :=
  mkRegisters (value_base r) (status_base r) (sensor_count r)
    (<[address := value]> (_registers r)).

(** [VirtualRegisters._init_registers]: the body for one sensor, and the
    loop over [range(1, sensor_count + 1)]. *)
Definition init_sensor (r : VirtualRegisters) (sensor_id : Z)
    : VirtualRegisters :=
  let r := store r (temp_addr r sensor_id) 220 in
  let r := store r (hum_addr r sensor_id) 450 in
  let r := store r (temp_status_addr r sensor_id) 0 in
  store r (hum_status_addr r sensor_id) 0.

Definition _init_registers (r : VirtualRegisters) : VirtualRegisters :=
  foldl init_sensor r (seqZ 1 (sensor_count r)).

(** [VirtualRegisters.__init__] *)
Definition VirtualRegisters_init (value_base status_base sensor_count : Z)
    : VirtualRegisters :=
  _init_registers (mkRegisters value_base status_base sensor_count ∅).

(** [VirtualRegisters.get_register] *)
Definition get_register (r : VirtualRegisters) (address : Z) : Z :=
  default 0%Z (_registers r !! address).

(** [VirtualRegisters.set_register] *)
Definition set_register (r : VirtualRegisters) (address value : Z)
    : VirtualRegisters :=
  store r address (Z.land value 0xFFFF).

(** [VirtualRegisters.get_registers] *)
Definition get_registers (r : VirtualRegisters) (start_address count : Z)
    : list Z :=
  (fun i => get_register r (start_address + i)) <$> seqZ 0 count.

(** [VirtualRegisters.set_registers]: the loop over [enumerate(values)]
    with its counter [i]. *)
Fixpoint set_registers_loop (r : VirtualRegisters) (start_address i : Z)
    (values : list Z) : VirtualRegisters :=
  match values with
  | [] => r
  | value :: rest =>
      set_registers_loop (set_register r (start_address + i) value)
        start_address (i + 1) rest
  end.

Definition set_registers (r : VirtualRegisters) (start_address : Z)
    (values : list Z) : VirtualRegisters :=
  set_registers_loop r start_address 0 values.

(** [VirtualRegisters.set_sensor_values] *)
Definition set_sensor_values (r : VirtualRegisters) (sensor_id : Z)
    (temperature humidity : Q) (temp_status hum_status : Z)
    : VirtualRegisters :=
  let temp_raw := Z.land (py_int (temperature * 10)) 0xFFFF in
  let hum_raw := Z.land (py_int (humidity * 10)) 0xFFFF in
  let r := store r (temp_addr r sensor_id) temp_raw in
  let r := store r (hum_addr r sensor_id) hum_raw in
  let r := store r (temp_status_addr r sensor_id) temp_status in
  store r (hum_status_addr r sensor_id) hum_status.

(** [VirtualRegisters.get_sensor_values] *)
Definition get_sensor_values (r : VirtualRegisters) (sensor_id : Z)
    : SensorRegisters :=
  let temp_raw := default 0%Z (_registers r !! temp_addr r sensor_id) in
  let hum_raw := default 0%Z (_registers r !! hum_addr r sensor_id) in
  let temp_status :=
    default 0%Z (_registers r !! temp_status_addr r sensor_id) in
  let hum_status := default 0%Z (_registers r !! hum_status_addr r sensor_id) in
  let temp_raw := if (temp_raw >? 32767)%Z then (temp_raw - 65536)%Z
                  else temp_raw in
  {| reg_temperature :=
       {| ch_value := inject_Z temp_raw / 10.0; ch_raw := temp_raw;
          ch_address := temp_addr r sensor_id; ch_status := temp_status |};
     reg_humidity :=
       {| ch_value := inject_Z hum_raw / 10.0; ch_raw := hum_raw;
          ch_address := hum_addr r sensor_id; ch_status := hum_status |} |}.

(** [VirtualRegisters.get_all_values] *)
Definition get_all_values (r : VirtualRegisters) : gmap Z SensorRegisters :=
  foldl (fun result sensor_id =>
           <[sensor_id := get_sensor_values r sensor_id]> result)
    ∅ (seqZ 1 (sensor_count r)).

(** A signed 16-bit word read from its unsigned form. *)
Definition signed16 (x : Z) : Z := ((x + 32768) mod 65536 - 32768)%Z.

(** The value and status blocks of the first [sensor_count] sensors do
    not overlap. *)
Definition disjoint_layout (r : VirtualRegisters) : Prop :=
  (value_base r + 2 * sensor_count r <= status_base r
   \/ status_base r + 2 * sensor_count r <= value_base r)%Z.

(** ** Single registers and blocks of registers *)

Lemma land_16bit (v : Z) :
  Z.land v 0xFFFF = (v mod 65536)%Z /\ (0 <= Z.land v 0xFFFF <= 65535)%Z.
Proof.
  assert (Z.land v 0xFFFF = (v mod 65536)%Z) as E
    by (change 0xFFFF%Z with (Z.ones 16); rewrite Z.land_ones by lia;
        reflexivity).
  split; [exact E |]. rewrite E.
  pose proof (Z.mod_pos_bound v 65536). lia.
Qed.

Lemma set_registers_loop_lookup values r start i a :
  _registers (set_registers_loop r start i values) !! a
  = if decide (start + i <= a < start + i + Z.of_nat (length values))%Z
    then (fun v => Z.land v 0xFFFF) <$> values !! Z.to_nat (a - start - i)
    else _registers r !! a.
Proof.
  revert r i. induction values as [| v rest IH]; intros r i.
  - cbn [set_registers_loop length]. case_decide; [lia | reflexivity].
  - cbn [set_registers_loop length]. rewrite IH. unfold set_register, store.
    cbn [_registers].
    repeat case_decide; try lia.
    + destruct (decide (a = start + i)%Z) as [-> | Hne].
      * lia.
      * replace (Z.to_nat (a - start - i))
          with (S (Z.to_nat (a - start - (i + 1)))) by lia.
        reflexivity.
    + assert (a = start + i)%Z as -> by lia.
      replace (Z.to_nat (start + i - start - i)) with 0%nat by lia.
      cbn. apply lookup_insert_eq.
    + rewrite lookup_insert_ne by lia. reflexivity.
Qed.

Lemma set_registers_loop_layout values r start i :
  value_base (set_registers_loop r start i values) = value_base r
  /\ status_base (set_registers_loop r start i values) = status_base r
  /\ sensor_count (set_registers_loop r start i values) = sensor_count r.
Proof.
  revert r i. induction values as [| v rest IH]; intros r i;
    [repeat split |].
  cbn [set_registers_loop].
  destruct (IH (set_register r (start + i) v) (i + 1)%Z) as (A & B & C).
  rewrite A, B, C. repeat split.
Qed.

(** X12. Registers hold 16-bit words.  Reading back a block written by
    [set_registers] returns each value reduced modulo 65536, between 0
    and 65535; registers outside the block, and the layout, are untouched;
    in any register file an address that holds no register reads 0. *)
Theorem X12_register_block_round_trip r start (values : list Z) :
  let r' := set_registers r start values in
  get_registers r' start (Z.of_nat (length values))
  = (fun v => v mod 65536)%Z <$> values
  /\ Forall (fun x => 0 <= x <= 65535)%Z
       (get_registers r' start (Z.of_nat (length values)))
  /\ (forall a,
        ~ (start <= a < start + Z.of_nat (length values))%Z ->
        get_register r' a = get_register r a)
  /\ (forall r0 a, _registers r0 !! a = None -> get_register r0 a = 0%Z)
  /\ value_base r' = value_base r /\ status_base r' = status_base r
  /\ sensor_count r' = sensor_count r.
Proof.
  intros r'.
  assert (get_registers r' start (Z.of_nat (length values))
          = (fun v => v mod 65536)%Z <$> values) as Hblock.
  { apply list_eq. intros j. unfold get_registers, get_register, r'.
    rewrite !list_lookup_fmap.
    destruct (decide (j < length values)%nat) as [Hj | Hj].
    - rewrite lookup_seqZ_lt by lia. cbn [fmap option_fmap option_map].
      unfold set_registers. rewrite set_registers_loop_lookup.
      case_decide; [| lia].
      replace (Z.to_nat (start + (0 + Z.of_nat j) - start - 0)) with j by lia.
      destruct (values !! j) as [v |] eqn:Ev; cbn.
      + f_equal. apply land_16bit.
      + apply lookup_ge_None in Ev. lia.
    - rewrite lookup_seqZ_ge by lia.
      rewrite (proj2 (lookup_ge_None values j)) by lia. reflexivity. }
  split; [exact Hblock |]. split; [| split; [| split]].
  - rewrite Hblock. apply Forall_fmap, Forall_forall. intros v _. cbn.
    pose proof (Z.mod_pos_bound v 65536). lia.
  - intros a Ha. unfold get_register, r', set_registers.
    rewrite set_registers_loop_lookup. case_decide; [lia | reflexivity].
  - intros r0 a Ha. unfold get_register. rewrite Ha. reflexivity.
  - apply set_registers_loop_layout.
Qed.

(** ** Sensor values in the registers *)

Lemma py_int_integer (x : Q) (n : Z) : x == inject_Z n -> py_int x = n.
Proof.
  unfold Qeq, py_int, inject_Z. cbn [Qnum Qden]. intros H.
  rewrite Z.mul_1_r in H. rewrite H. apply Z.quot_mul. lia.
Qed.

Lemma py_int_tenths (x : Q) (n : Z) : x == n # 10 -> py_int (x * 10) = n.
Proof.
  intros H. apply py_int_integer. rewrite H. apply Qmake_10_scaled.
Qed.

Lemma tenths_value (n : Z) : inject_Z n / 10.0 == n # 10.
Proof.
  rewrite (Qmake_Qdiv n 10). apply Qdiv_comp; reflexivity.
Qed.

Lemma signed16_decoding (x : Z) :
  (let u := Z.land x 0xFFFF in if (u >? 32767)%Z then (u - 65536)%Z else u)
  = signed16 x.
Proof.
  cbv zeta. destruct (land_16bit x) as [-> _]. unfold signed16.
  destruct (Z.gtb_spec (x mod 65536) 32767);
    Z.to_euclidean_division_equations; lia.
Qed.

Lemma signed16_in_range (x : Z) :
  (-32768 <= x <= 32767)%Z -> signed16 x = x.
Proof.
  intros H. unfold signed16. Z.to_euclidean_division_equations. lia.
Qed.

Lemma set_sensor_values_layout r sensor_id t h ts hs :
  value_base (set_sensor_values r sensor_id t h ts hs) = value_base r
  /\ status_base (set_sensor_values r sensor_id t h ts hs) = status_base r
  /\ sensor_count (set_sensor_values r sensor_id t h ts hs) = sensor_count r.
Proof. repeat split. Qed.

(** What the dictionary holds after [set_sensor_values], at the four
    addresses of the sensor (when they are distinct) and elsewhere. *)
Lemma set_sensor_values_lookup r sensor_id t h ts hs :
  let r' := set_sensor_values r sensor_id t h ts hs in
  ((value_base r - status_base r <= -2 \/ 2 <= value_base r - status_base r)%Z
   -> _registers r' !! temp_addr r sensor_id
      = Some (Z.land (py_int (t * 10)) 0xFFFF)
      /\ _registers r' !! hum_addr r sensor_id
         = Some (Z.land (py_int (h * 10)) 0xFFFF)
      /\ _registers r' !! temp_status_addr r sensor_id = Some ts
      /\ _registers r' !! hum_status_addr r sensor_id = Some hs)
  /\ (forall a,
        a <> temp_addr r sensor_id -> a <> hum_addr r sensor_id ->
        a <> temp_status_addr r sensor_id ->
        a <> hum_status_addr r sensor_id ->
        _registers r' !! a = _registers r !! a).
Proof.
  cbv zeta. unfold set_sensor_values, store, temp_addr, hum_addr,
    temp_status_addr, hum_status_addr. cbn [_registers value_base status_base].
  split.
  - intros Hd. repeat split;
      repeat first [ rewrite lookup_insert_eq; reflexivity
                   | rewrite lookup_insert_ne by lia ].
  - intros a H1 H2 H3 H4.
    rewrite !lookup_insert_ne by (intros E; symmetry in E; contradiction).
    reflexivity.
Qed.

(** X13. Writing a sensor with [set_sensor_values] and reading it back
    with [get_sensor_values], when the value and status bases differ by
    at least 2: the temperature comes back as the signed 16-bit reading of
    [int(temperature * 10)], the humidity as its unsigned 16-bit reading,
    both divided by 10, and the statuses as given.  So a one-decimal
    temperature from -3276.8 to 3276.7 and a one-decimal humidity from 0
    to 6553.5 come back unchanged, while a negative humidity of -m/10 comes
    back as (65536 - m)/10. *)
Theorem X13_sensor_values_round_trip r sensor_id
    (temperature humidity : Q) (temp_status hum_status : Z) :
  (value_base r - status_base r <= -2 \/ 2 <= value_base r - status_base r)%Z ->
  let got :=
    get_sensor_values
      (set_sensor_values r sensor_id temperature humidity
         temp_status hum_status) sensor_id in
  got
  = {| reg_temperature :=
         {| ch_value := inject_Z (signed16 (py_int (temperature * 10))) / 10.0;
            ch_raw := signed16 (py_int (temperature * 10));
            ch_address := temp_addr r sensor_id;
            ch_status := temp_status |};
       reg_humidity :=
         {| ch_value := inject_Z (py_int (humidity * 10) mod 65536) / 10.0;
            ch_raw := py_int (humidity * 10) mod 65536;
            ch_address := hum_addr r sensor_id;
            ch_status := hum_status |} |}
  /\ (forall n : Z,
        temperature == n # 10 -> (-32768 <= n <= 32767)%Z ->
        ch_value (reg_temperature got) == temperature)
  /\ (forall m : Z,
        humidity == m # 10 -> (0 <= m <= 65535)%Z ->
        ch_value (reg_humidity got) == humidity)
  /\ (forall m : Z,
        humidity == - m # 10 -> (1 <= m <= 65535)%Z ->
        ch_value (reg_humidity got) == (65536 - m) # 10).
Proof.
  intros Hd got.
  destruct (set_sensor_values_lookup r sensor_id temperature humidity
              temp_status hum_status) as [Hl _].
  destruct (Hl Hd) as (A & B & C & D).
  assert (got = {| reg_temperature :=
         {| ch_value := inject_Z (signed16 (py_int (temperature * 10))) / 10.0;
            ch_raw := signed16 (py_int (temperature * 10));
            ch_address := temp_addr r sensor_id;
            ch_status := temp_status |};
       reg_humidity :=
         {| ch_value := inject_Z (py_int (humidity * 10) mod 65536) / 10.0;
            ch_raw := py_int (humidity * 10) mod 65536;
            ch_address := hum_addr r sensor_id;
            ch_status := hum_status |} |}) as Hgot.
  { unfold got, get_sensor_values.
    change (temp_addr (set_sensor_values r sensor_id temperature humidity
                         temp_status hum_status) sensor_id)
      with (temp_addr r sensor_id).
    change (hum_addr (set_sensor_values r sensor_id temperature humidity
                        temp_status hum_status) sensor_id)
      with (hum_addr r sensor_id).
    change (temp_status_addr (set_sensor_values r sensor_id temperature
                                humidity temp_status hum_status) sensor_id)
      with (temp_status_addr r sensor_id).
    change (hum_status_addr (set_sensor_values r sensor_id temperature
                               humidity temp_status hum_status) sensor_id)
      with (hum_status_addr r sensor_id).
    rewrite A, B, C, D. cbv zeta. cbn [default]. unfold id.
    pose proof (signed16_decoding (py_int (temperature * 10))) as Hs.
    cbv zeta in Hs. rewrite Hs.
    destruct (land_16bit (py_int (humidity * 10))) as [-> _]. reflexivity. }
  split; [exact Hgot |]. rewrite Hgot. cbn [reg_temperature reg_humidity ch_value].
  split; [| split].
  - intros n Hn Hr. rewrite (py_int_tenths _ _ Hn), signed16_in_range by lia.
    rewrite tenths_value, Hn. reflexivity.
  - intros m Hm Hr. rewrite (py_int_tenths _ _ Hm), Z.mod_small by lia.
    rewrite tenths_value, Hm. reflexivity.
  - intros m Hm Hr. rewrite (py_int_tenths _ _ Hm).
    replace (- m mod 65536)%Z with (65536 - m)%Z
      by (Z.to_euclidean_division_equations; lia).
    apply tenths_value.
Qed.

(** Sensor 4 at 21.5 degrees below zero and 48.3 percent. *)
Lemma X13_sensor_values_round_trip_witness :
  let got :=
    get_sensor_values
      (set_sensor_values (mkRegisters 30000 40000 10 ∅) 4 (-21.5) 48.3 0 1) 4 in
  ch_value (reg_temperature got) == -21.5.
Proof.
  intros got.
  assert (30000 - 40000 <= -2 \/ 2 <= 30000 - 40000)%Z as Hd by lia.
  destruct (X13_sensor_values_round_trip (mkRegisters 30000 40000 10 ∅) 4
              (-21.5) 48.3 0 1 Hd) as (_ & Ht & _).
  apply (Ht (-215)%Z); [reflexivity | lia].
Defined.

(** ** Initial contents and the view of all sensors *)

(** The four registers of a sensor hold the initial 22.0 degrees, 45.0
    percent and the two OK statuses. *)
Definition holds_defaults (r : VirtualRegisters) (k : Z) : Prop :=
  _registers r !! temp_addr r k = Some 220%Z
  /\ _registers r !! hum_addr r k = Some 450%Z
  /\ _registers r !! temp_status_addr r k = Some 0%Z
  /\ _registers r !! hum_status_addr r k = Some 0%Z.

Lemma init_sensor_layout r k :
  value_base (init_sensor r k) = value_base r
  /\ status_base (init_sensor r k) = status_base r
  /\ sensor_count (init_sensor r k) = sensor_count r.
Proof. repeat split. Qed.

Lemma init_loop_layout l r :
  value_base (foldl init_sensor r l) = value_base r
  /\ status_base (foldl init_sensor r l) = status_base r
  /\ sensor_count (foldl init_sensor r l) = sensor_count r.
Proof.
  revert r. induction l as [| x l IH]; intros r; [repeat split |].
  cbn [foldl]. destruct (IH (init_sensor r x)) as (A & B & C).
  rewrite A, B, C. repeat split.
Qed.

Lemma init_sensor_lookup r x :
  ((value_base r - status_base r <= -2 \/ 2 <= value_base r - status_base r)%Z
   -> holds_defaults (init_sensor r x) x)
  /\ (forall a,
        a <> temp_addr r x -> a <> hum_addr r x ->
        a <> temp_status_addr r x -> a <> hum_status_addr r x ->
        _registers (init_sensor r x) !! a = _registers r !! a).
Proof.
  unfold holds_defaults, init_sensor, store, temp_addr, hum_addr,
    temp_status_addr, hum_status_addr. cbn [_registers value_base status_base].
  split.
  - intros Hd. repeat split;
      repeat first [ rewrite lookup_insert_eq; reflexivity
                   | rewrite lookup_insert_ne by lia ].
  - intros a H1 H2 H3 H4.
    rewrite !lookup_insert_ne by (intros E; symmetry in E; contradiction).
    reflexivity.
Qed.

Lemma init_loop_defaults l r k :
  disjoint_layout r ->
  (forall x, x ∈ l -> (1 <= x <= sensor_count r)%Z) ->
  k ∈ l -> holds_defaults (foldl init_sensor r l) k.
Proof.
  intros Hd. induction l as [| x l IH] using rev_ind; intros Hl Hk.
  - apply elem_of_nil in Hk. contradiction.
  - rewrite foldl_app. cbn [foldl].
    assert (1 <= x <= sensor_count r)%Z as Hx by (apply Hl; set_solver).
    destruct (init_loop_layout l r) as (Lv & Ls & Lc).
    unfold disjoint_layout in Hd.
    destruct (init_sensor_lookup (foldl init_sensor r l) x) as [Hsame Hother].
    destruct (decide (k = x)) as [-> | Hne].
    + apply Hsame. rewrite Lv, Ls. lia.
    + assert (k ∈ l) as Hkl by set_solver.
      assert (1 <= k <= sensor_count r)%Z as Hkr by (apply Hl; set_solver).
      destruct IH as (A & B & C & D);
        [intros y Hy; apply Hl; set_solver | exact Hkl |].
      unfold holds_defaults.
      change (temp_addr (init_sensor (foldl init_sensor r l) x) k)
        with (temp_addr (foldl init_sensor r l) k).
      change (hum_addr (init_sensor (foldl init_sensor r l) x) k)
        with (hum_addr (foldl init_sensor r l) k).
      change (temp_status_addr (init_sensor (foldl init_sensor r l) x) k)
        with (temp_status_addr (foldl init_sensor r l) k).
      change (hum_status_addr (init_sensor (foldl init_sensor r l) x) k)
        with (hum_status_addr (foldl init_sensor r l) k).
      rewrite !Hother
        by (unfold temp_addr, hum_addr, temp_status_addr, hum_status_addr;
            rewrite ?Lv, ?Ls; lia).
      auto.
Qed.

Lemma get_all_values_loop_lookup (r : VirtualRegisters) l
    (acc : gmap Z SensorRegisters) k :
  foldl (fun result sensor_id =>
           <[sensor_id := get_sensor_values r sensor_id]> result) acc l !! k
  = if decide (k ∈ l) then Some (get_sensor_values r k) else acc !! k.
Proof.
  revert acc. induction l as [| x l IH]; intros acc.
  - cbn. case_decide as H; [apply elem_of_nil in H; contradiction | reflexivity].
  - cbn [foldl]. rewrite IH.
    destruct (decide (k ∈ l)) as [Hin | Hnin].
    + rewrite decide_True by set_solver. reflexivity.
    + destruct (decide (k = x)) as [-> | Hne].
      * rewrite decide_True by set_solver. apply lookup_insert_eq.
      * rewrite decide_False by set_solver.
        apply lookup_insert_ne. congruence.
Qed.

(** X14. [get_all_values] reports exactly the sensors 1..sensor_count,
    each as [get_sensor_values] reads it.  On a register file fresh from
    the constructor, with value and status blocks that do not overlap,
    every one of them reads 22.0 degrees (raw 220) and 45.0 percent (raw
    450) with both statuses 0. *)
Theorem X14_initial_registers (vbase sbase count : Z) :
  (vbase + 2 * count <= sbase \/ sbase + 2 * count <= vbase)%Z ->
  let r := VirtualRegisters_init vbase sbase count in
  forall k,
    (forall r0 : VirtualRegisters,
        get_all_values r0 !! k
        = if decide (1 <= k <= sensor_count r0)%Z
          then Some (get_sensor_values r0 k) else None)
    /\ ((1 <= k <= count)%Z ->
        get_all_values r !! k
        = Some
            {| reg_temperature :=
                 {| ch_value := inject_Z 220 / 10.0; ch_raw := 220;
                    ch_address := vbase + (k - 1) * 2; ch_status := 0 |};
               reg_humidity :=
                 {| ch_value := inject_Z 450 / 10.0; ch_raw := 450;
                    ch_address := vbase + (k - 1) * 2 + 1;
                    ch_status := 0 |} |}
        /\ inject_Z 220 / 10.0 == 22.0 /\ inject_Z 450 / 10.0 == 45.0).
Proof.
  intros Hd r k.
  assert (forall r0 : VirtualRegisters,
             get_all_values r0 !! k
             = if decide (1 <= k <= sensor_count r0)%Z
               then Some (get_sensor_values r0 k) else None) as Hall.
  { intros r0. unfold get_all_values. rewrite get_all_values_loop_lookup.
    rewrite lookup_empty.
    destruct (decide (k ∈ seqZ 1 (sensor_count r0))) as [Hin | Hnin];
      rewrite elem_of_seqZ in *; case_decide; try reflexivity; lia. }
  split; [exact Hall |]. intros Hk.
  split; [| split; reflexivity].
  rewrite Hall. subst r.
  unfold VirtualRegisters_init, _init_registers. cbn [sensor_count].
  destruct (init_loop_layout (seqZ 1 count) (mkRegisters vbase sbase count ∅))
    as (Lv & Ls & Lc).
  cbn [value_base status_base sensor_count] in Lv, Ls, Lc.
  rewrite Lc, decide_True by exact Hk. f_equal.
  destruct (init_loop_defaults (seqZ 1 count)
              (mkRegisters vbase sbase count ∅) k) as (A & B & C & D).
  - exact Hd.
  - intros x Hx. apply elem_of_seqZ in Hx. cbn [sensor_count]. lia.
  - apply elem_of_seqZ. lia.
  - unfold get_sensor_values.
    rewrite A, B, C, D. cbv zeta. cbn [default]. unfold id.
    unfold temp_addr, hum_addr. rewrite Lv. reflexivity.
Qed.

(** The default layout: bases 30000 and 40000, ten sensors. *)
Lemma X14_initial_registers_witness :
  ch_raw (reg_temperature
            (default (get_sensor_values (mkRegisters 0 0 0 ∅) 0)
               (get_all_values (VirtualRegisters_init 30000 40000 10) !! 7%Z)))
  = 220%Z.
Proof.
  assert (30000 + 2 * 10 <= 40000 \/ 40000 + 2 * 10 <= 30000)%Z as Hd by lia.
  destruct (X14_initial_registers 30000 40000 10 Hd 7) as (_ & H).
  destruct H as (-> & _); [lia | reflexivity].
Defined.

(** * The register generator, [mock_modbus/generator.py] *)

(** The [min], [max], [base] and [variation] of one quantity in the
    configuration. *)
Record QuantityConfig := mkQuantityConfig {
  cfg_min : Q;
  cfg_max : Q;
  cfg_base : Q;
  cfg_variation : Q
}.

(** The entries of the configuration dictionary that the generator reads:
    ["scenario"], ["values"] and ["errors"]["offline_sensors"]. *)
Record GeneratorConfig := mkGeneratorConfig {
  cfg_scenario : option string;
  cfg_temperature : QuantityConfig;
  cfg_humidity : QuantityConfig;
  cfg_offline_sensors : option (list Z)
}.

(** [RegisterGenerator._default_config] *)
Definition _default_config : GeneratorConfig :=
  {| cfg_scenario := Some "normal"%string;
     cfg_temperature := mkQuantityConfig (-40.0) 85.0 22.0 2.0;
     cfg_humidity := mkQuantityConfig 0.0 100.0 45.0 5.0;
     cfg_offline_sensors := Some [] |}.

(** [RegisterGenerator._init_scenario] *)
Definition _init_scenario (config : GeneratorConfig) : M Scenario :=
  let scenario_name := default "normal"%string (cfg_scenario config) in
  let temp_cfg := cfg_temperature config in
  let hum_cfg := cfg_humidity config in
  get_scenario scenario_name
    (mkKwargs
       (list_to_map
          [ ("temp_base"%string, cfg_base temp_cfg);
            ("temp_variation"%string, cfg_variation temp_cfg);
            ("temp_min"%string, cfg_min temp_cfg);
            ("temp_max"%string, cfg_max temp_cfg);
            ("hum_base"%string, cfg_base hum_cfg);
            ("hum_variation"%string, cfg_variation hum_cfg);
            ("hum_min"%string, cfg_min hum_cfg);
            ("hum_max"%string, cfg_max hum_cfg) ])
       (Some (default [] (cfg_offline_sensors config)))).

(** [RegisterGenerator._get_limits_dict] *)
Definition _get_limits_dict : gmap string Q :=
  list_to_map
    [ ("temp_min"%string, -10.0); ("temp_max"%string, 40.0);
      ("temp_warning_delta"%string, 3.0); ("temp_alarm_delta"%string, 5.0);
      ("hum_min"%string, 20.0); ("hum_max"%string, 80.0);
      ("hum_warning_delta"%string, 5.0); ("hum_alarm_delta"%string, 10.0) ].

(** The generator object: its registers, configuration and scenario. *)
Record RegisterGenerator := mkRegisterGenerator {
  registers : VirtualRegisters;
  config : GeneratorConfig;
  _scenario : Scenario
}.

Section Generator.

Variable sin : Q -> Q.
Variable pi : Q.

(** The body of the loop of [_update_registers], for one sensor. *)
Definition update_sensor (config : GeneratorConfig) (limits : gmap string Q)
    (regs : VirtualRegisters) (scenario : Scenario) (sensor_id : Z)
    : M (VirtualRegisters * Scenario) :=
  if bool_decide (sensor_id ∈ default [] (cfg_offline_sensors config))
  then mret (set_sensor_values regs sensor_id 0 0 1 1, scenario)
  else
    '(value, scenario) ← get_value sin pi scenario sensor_id limits;
    let temp_status :=
      if String.eqb (temp_status value) "normal" then 0%Z else 1%Z in
    let hum_status :=
      if String.eqb (hum_status value) "normal" then 0%Z else 1%Z in
    let '(temp_status, hum_status) :=
      if String.eqb (combined_status value) "offline"
      then (1%Z, 1%Z) else (temp_status, hum_status) in
    mret (set_sensor_values regs sensor_id
            (temperature value) (humidity value) temp_status hum_status,
          scenario).

Fixpoint update_loop (config : GeneratorConfig) (limits : gmap string Q)
    (sensor_ids : list Z) (regs : VirtualRegisters) (scenario : Scenario)
    : M (VirtualRegisters * Scenario) :=
  match sensor_ids with
  | [] => mret (regs, scenario)
  | sensor_id :: rest =>
      '(regs, scenario) ← update_sensor config limits regs scenario sensor_id;
      update_loop config limits rest regs scenario
  end.

(** [RegisterGenerator._update_registers] *)
Definition _update_registers (g : RegisterGenerator) : M RegisterGenerator :=
  let limits := _get_limits_dict in
  '(regs, scenario) ←
    update_loop (config g) limits (seqZ 1 (sensor_count (registers g)))
      (registers g) (_scenario g);
  mret (mkRegisterGenerator regs (config g) scenario).

End Generator.

(** The status word the generator stores for a status of a reading. *)
Definition status_code (quantity_status combined : status) : Z :=
  if String.eqb combined "offline" then 1%Z
  else if String.eqb quantity_status "normal" then 0%Z else 1%Z.

(** The registers of sensor [k] hold the encoding of a reading. *)
Definition encodes (r : VirtualRegisters) (k : Z) (v : SensorValue) : Prop :=
  _registers r !! temp_addr r k
  = Some (Z.land (py_int (temperature v * 10)) 0xFFFF)
  /\ _registers r !! hum_addr r k
     = Some (Z.land (py_int (humidity v * 10)) 0xFFFF)
  /\ _registers r !! temp_status_addr r k
     = Some (status_code (temp_status v) (combined_status v))
  /\ _registers r !! hum_status_addr r k
     = Some (status_code (hum_status v) (combined_status v)).

(** The registers of sensor [k] hold what a sensor configured offline
    gets: zero values and both statuses 1. *)
Definition marked_offline (r : VirtualRegisters) (k : Z) : Prop :=
  _registers r !! temp_addr r k = Some 0%Z
  /\ _registers r !! hum_addr r k = Some 0%Z
  /\ _registers r !! temp_status_addr r k = Some 1%Z
  /\ _registers r !! hum_status_addr r k = Some 1%Z.

(** What an update pass leaves in the registers of sensor [k]. *)
Definition updated (offline : list Z) (b : BaseScenario) (c : ScenarioClass)
    (limits : gmap string Q) (r : VirtualRegisters) (k : Z) : Prop :=
  if bool_decide (k ∈ offline) then marked_offline r k
  else exists v, reading_shape b c limits v /\ encodes r k v.

(** The sensors among [sensor_ids] that are not configured offline, in
    order: those an update pass reads from the scenario. *)
Definition live_sensors (config : GeneratorConfig) (sensor_ids : list Z)
    : list Z :=
  filter (fun k => k ∉ default [] (cfg_offline_sensors config)) sensor_ids.

(** The calls of [get_value] that an update pass makes, in order. *)
Definition pass_calls (g : RegisterGenerator) : list (Z * gmap string Q) :=
  (fun k => (k, _get_limits_dict))
  <$> live_sensors (config g) (seqZ 1 (sensor_count (registers g))).

(** What [get_sensor_values] decodes from the registers that hold the
    encoding of the reading [v]. *)
Definition decoded (r : VirtualRegisters) (k : Z) (v : SensorValue)
    : SensorRegisters :=
  {| reg_temperature :=
       {| ch_value := inject_Z (signed16 (py_int (temperature v * 10))) / 10.0;
          ch_raw := signed16 (py_int (temperature v * 10));
          ch_address := temp_addr r k;
          ch_status := status_code (temp_status v) (combined_status v) |};
     reg_humidity :=
       {| ch_value := inject_Z (py_int (humidity v * 10) mod 65536) / 10.0;
          ch_raw := (py_int (humidity v * 10) mod 65536)%Z;
          ch_address := hum_addr r k;
          ch_status := status_code (hum_status v) (combined_status v) |} |}.

(** An address that is none of the four addresses of sensor [k]. *)
Definition off_sensor (r : VirtualRegisters) (k a : Z) : Prop :=
  a <> temp_addr r k /\ a <> hum_addr r k
  /\ a <> temp_status_addr r k /\ a <> hum_status_addr r k.

(** Two scenario objects with the same class and the same bounds. *)
Definition same_range (s s' : Scenario) : Prop :=
  class_of s' = class_of s
  /\ temp_min (base_of s') = temp_min (base_of s)
  /\ temp_max (base_of s') = temp_max (base_of s)
  /\ hum_min (base_of s') = hum_min (base_of s)
  /\ hum_max (base_of s') = hum_max (base_of s).

(** Two register files with the same layout. *)
Definition same_layout (r r' : VirtualRegisters) : Prop :=
  value_base r' = value_base r /\ status_base r' = status_base r
  /\ sensor_count r' = sensor_count r.

(** ** One update pass *)

Lemma reading_shape_range b b' c limits v :
  temp_min b' = temp_min b -> temp_max b' = temp_max b ->
  hum_min b' = hum_min b -> hum_max b' = hum_max b ->
  reading_shape b' c limits v -> reading_shape b c limits v.
Proof.
  intros E1 E2 E3 E4 [err E | t h Hc E | t h Hc E | t h Hc E];
    rewrite ?E1, ?E2, ?E3, ?E4 in E;
    [ eapply shape_offline | eapply shape_garbage
    | eapply shape_classified | eapply shape_unclassified ]; eassumption.
Qed.

Lemma same_layout_addresses r r' k :
  same_layout r r' ->
  temp_addr r' k = temp_addr r k /\ hum_addr r' k = hum_addr r k
  /\ temp_status_addr r' k = temp_status_addr r k
  /\ hum_status_addr r' k = hum_status_addr r k.
Proof.
  intros (A & B & _).
  unfold temp_addr, hum_addr, temp_status_addr, hum_status_addr.
  rewrite A, B. repeat split.
Qed.

(** The addresses of two different sensors of a disjoint layout. *)
Lemma sensors_apart r k x :
  disjoint_layout r ->
  (1 <= k <= sensor_count r)%Z -> (1 <= x <= sensor_count r)%Z -> k <> x ->
  off_sensor r x (temp_addr r k) /\ off_sensor r x (hum_addr r k)
  /\ off_sensor r x (temp_status_addr r k)
  /\ off_sensor r x (hum_status_addr r k).
Proof.
  unfold disjoint_layout, off_sensor, temp_addr, hum_addr, temp_status_addr,
    hum_status_addr.
  intros Hd Hk Hx Hne. repeat split; lia.
Qed.

Lemma updated_frame offline b c limits r r' k :
  same_layout r r' ->
  (forall a, ~ off_sensor r k a -> _registers r' !! a = _registers r !! a) ->
  updated offline b c limits r k -> updated offline b c limits r' k.
Proof.
  intros Hl Hsame. destruct (same_layout_addresses r r' k Hl) as (A & B & C & D).
  assert (_registers r' !! temp_addr r k = _registers r !! temp_addr r k
          /\ _registers r' !! hum_addr r k = _registers r !! hum_addr r k
          /\ _registers r' !! temp_status_addr r k
             = _registers r !! temp_status_addr r k
          /\ _registers r' !! hum_status_addr r k
             = _registers r !! hum_status_addr r k) as (L1 & L2 & L3 & L4)
    by (repeat split; apply Hsame; unfold off_sensor; tauto).
  unfold updated, marked_offline, encodes.
  rewrite A, B, C, D, L1, L2, L3, L4. tauto.
Qed.

Section GeneratorFacts.

Variable sin : Q -> Q.
Variable pi : Q.

Lemma update_sensor_spec config limits regs scen x w regs1 scen1 w1 :
  update_sensor sin pi config limits regs scen x w
  = Returned (regs1, scen1) w1 ->
  same_layout regs regs1
  /\ same_range scen scen1
  /\ (forall a, off_sensor regs x a ->
        _registers regs1 !! a = _registers regs !! a)
  /\ ((value_base regs - status_base regs <= -2
       \/ 2 <= value_base regs - status_base regs)%Z ->
      updated (default [] (cfg_offline_sensors config))
        (base_of scen) (class_of scen) limits regs1 x).
Proof.
  unfold update_sensor, updated.
  destruct (bool_decide (x ∈ default [] (cfg_offline_sensors config))) eqn:Eo.
  - intros H. injection H as <- <- <-.
    destruct (set_sensor_values_lookup regs x 0 0 1 1) as [Hl Hf].
    split; [repeat split |]. split; [repeat split |].
    split; [intros a (A1 & A2 & A3 & A4); apply Hf; assumption |].
    intros Hd. exact (Hl Hd).
  - unfold mbind, M_bind.
    destruct (get_value sin pi scen x limits w) as [[v scen'] w' | e] eqn:Ev;
      [| discriminate].
    intros H.
    assert (regs1 = set_sensor_values regs x (temperature v) (humidity v)
                      (status_code (temp_status v) (combined_status v))
                      (status_code (hum_status v) (combined_status v))
            /\ scen1 = scen') as [-> ->].
    { unfold status_code.
      destruct (String.eqb (combined_status v) "offline");
        injection H as <- <- <-; split; reflexivity. }
    destruct (set_sensor_values_lookup regs x (temperature v) (humidity v)
                (status_code (temp_status v) (combined_status v))
                (status_code (hum_status v) (combined_status v))) as [Hl Hf].
    split; [repeat split |].
    split; [exact (get_value_base sin pi _ _ _ _ _ _ _ Ev) |].
    split; [intros a (A1 & A2 & A3 & A4); apply Hf; assumption |].
    intros Hd. exists v. split.
    + exact (get_value_shape sin pi _ _ _ _ _ _ _ Ev).
    + exact (Hl Hd).
Qed.

Lemma update_loop_spec config limits ids :
  forall regs scen w regs' scen' w',
    update_loop sin pi config limits ids regs scen w
    = Returned (regs', scen') w' ->
    disjoint_layout regs ->
    (forall x, x ∈ ids -> (1 <= x <= sensor_count regs)%Z) ->
    NoDup ids ->
    same_layout regs regs'
    /\ same_range scen scen'
    /\ (forall a, (forall x, x ∈ ids -> off_sensor regs x a) ->
          _registers regs' !! a = _registers regs !! a)
    /\ (forall k, k ∈ ids ->
          updated (default [] (cfg_offline_sensors config))
            (base_of scen) (class_of scen) limits regs' k).
Proof.
  induction ids as [| x rest IH];
    intros regs scen w regs' scen' w' Hrun Hd Hrange Hnd.
  - injection Hrun as <- <- <-.
    split; [repeat split |]. split; [repeat split |].
    split; [reflexivity |]. intros k Hk. apply elem_of_nil in Hk. contradiction.
  - cbn [update_loop] in Hrun. unfold mbind, M_bind in Hrun.
    destruct (update_sensor sin pi config limits regs scen x w)
      as [[regs1 scen1] w1 | e] eqn:E1; [| discriminate].
    destruct (update_sensor_spec _ _ _ _ _ _ _ _ _ E1)
      as (Hl1 & Hr1 & Hf1 & Hu1).
    pose proof Hl1 as (Lv & Ls & Lc).
    apply NoDup_cons in Hnd as [Hx Hnd].
    assert (disjoint_layout regs1) as Hd1
      by (unfold disjoint_layout; rewrite Lv, Ls, Lc; exact Hd).
    destruct (IH regs1 scen1 w1 regs' scen' w' Hrun Hd1) as (Hl & Hr & Hf & Hu).
    { intros y Hy. rewrite Lc. apply Hrange. apply elem_of_cons. auto. }
    { exact Hnd. }
    assert (forall k a, off_sensor regs1 k a <-> off_sensor regs k a) as Hoff.
    { intros k a. unfold off_sensor.
      destruct (same_layout_addresses regs regs1 k Hl1) as (-> & -> & -> & ->).
      reflexivity. }
    assert (1 <= x <= sensor_count regs)%Z as Hxr
      by (apply Hrange; apply elem_of_cons; auto).
    split; [| split; [| split]].
    + destruct Hl as (A & B & C). repeat split; congruence.
    + destruct Hr as (A & B & C & D & E), Hr1 as (A1 & B1 & C1 & D1 & E1').
      repeat split; congruence.
    + intros a Ha. rewrite Hf.
      * apply Hf1. apply Ha. apply elem_of_cons. auto.
      * intros y Hy. apply Hoff. apply Ha. apply elem_of_cons. auto.
    + intros k Hk. apply elem_of_cons in Hk as [-> | Hk].
      * apply (updated_frame _ _ _ _ regs1 regs' x Hl).
        -- intros a Ha. apply Hf. intros y Hy. apply Hoff.
           assert (1 <= y <= sensor_count regs)%Z as Hyr
             by (apply Hrange; apply elem_of_cons; auto).
           assert (x <> y) as Hne by (intros ->; contradiction).
           destruct (sensors_apart regs x y Hd Hxr Hyr Hne) as (S1 & S2 & S3 & S4).
           unfold off_sensor in Ha.
           destruct (same_layout_addresses regs regs1 x Hl1) as (T1 & T2 & T3 & T4).
           rewrite T1, T2, T3, T4 in Ha.
           destruct (decide (a = temp_addr regs x)) as [-> | N1]; [exact S1 |].
           destruct (decide (a = hum_addr regs x)) as [-> | N2]; [exact S2 |].
           destruct (decide (a = temp_status_addr regs x)) as [-> | N3];
             [exact S3 |].
           destruct (decide (a = hum_status_addr regs x)) as [-> | N4];
             [exact S4 |].
           exfalso. apply Ha. tauto.
        -- apply Hu1. unfold disjoint_layout in Hd. lia.
      * specialize (Hu k Hk). unfold updated in *.
        destruct Hr1 as (A1 & B1 & C1 & D1 & E1').
        destruct (bool_decide (k ∈ default [] (cfg_offline_sensors config)));
          [exact Hu |].
        destruct Hu as (v & Hshape & Henc). exists v. split; [| exact Henc].
        rewrite A1 in Hshape.
        exact (reading_shape_range _ _ _ _ _ B1 C1 D1 E1' Hshape).
Qed.

(** The three ways the loop body ends. *)
Lemma update_sensor_offline config limits regs scen x w :
  x ∈ default [] (cfg_offline_sensors config) ->
  update_sensor sin pi config limits regs scen x w
  = Returned (set_sensor_values regs x 0 0 1 1, scen) w.
Proof.
  intros Hx. unfold update_sensor. rewrite bool_decide_eq_true_2 by exact Hx.
  reflexivity.
Qed.

Lemma update_sensor_live config limits regs scen x w v scen1 w1 :
  x ∉ default [] (cfg_offline_sensors config) ->
  get_value sin pi scen x limits w = Returned (v, scen1) w1 ->
  update_sensor sin pi config limits regs scen x w
  = Returned
      (set_sensor_values regs x (temperature v) (humidity v)
         (status_code (temp_status v) (combined_status v))
         (status_code (hum_status v) (combined_status v)),
       scen1) w1.
Proof.
  intros Hx Hv. unfold update_sensor.
  rewrite bool_decide_eq_false_2 by exact Hx.
  unfold mbind, M_bind. rewrite Hv. unfold status_code.
  destruct (String.eqb (combined_status v) "offline"); reflexivity.
Qed.

Lemma update_sensor_raises config limits regs scen x w e :
  x ∉ default [] (cfg_offline_sensors config) ->
  get_value sin pi scen x limits w = Raised e ->
  update_sensor sin pi config limits regs scen x w = Raised e.
Proof.
  intros Hx Hv. unfold update_sensor.
  rewrite bool_decide_eq_false_2 by exact Hx.
  unfold mbind, M_bind. rewrite Hv. reflexivity.
Qed.

(** The rest of a pass leaves the registers of a sensor it does not
    visit in place. *)
Lemma update_loop_keeps config limits rest regs scen w regs' scen' w' x :
  update_loop sin pi config limits rest regs scen w
  = Returned (regs', scen') w' ->
  disjoint_layout regs ->
  (forall y, y ∈ rest -> (1 <= y <= sensor_count regs)%Z) ->
  NoDup rest ->
  (1 <= x <= sensor_count regs)%Z -> x ∉ rest ->
  same_layout regs regs'
  /\ forall a, ~ off_sensor regs x a ->
       _registers regs' !! a = _registers regs !! a.
Proof.
  intros Hrun Hd Hrange Hnd Hxr Hx.
  destruct (update_loop_spec _ _ _ _ _ _ _ _ _ Hrun Hd Hrange Hnd)
    as (Hl & _ & Hf & _).
  split; [exact Hl |]. intros a Ha. apply Hf. intros y Hy.
  assert (x <> y) as Hne by (intros ->; contradiction).
  destruct (sensors_apart regs x y Hd Hxr (Hrange y Hy) Hne)
    as (S1 & S2 & S3 & S4).
  unfold off_sensor in Ha.
  destruct (decide (a = temp_addr regs x)) as [-> | N1]; [exact S1 |].
  destruct (decide (a = hum_addr regs x)) as [-> | N2]; [exact S2 |].
  destruct (decide (a = temp_status_addr regs x)) as [-> | N3]; [exact S3 |].
  destruct (decide (a = hum_status_addr regs x)) as [-> | N4]; [exact S4 |].
  exfalso. apply Ha. tauto.
Qed.

Lemma encodes_frame r r' k v :
  same_layout r r' ->
  (forall a, ~ off_sensor r k a -> _registers r' !! a = _registers r !! a) ->
  encodes r k v -> encodes r' k v.
Proof.
  intros Hl Hsame. destruct (same_layout_addresses r r' k Hl) as (A & B & C & D).
  assert (_registers r' !! temp_addr r k = _registers r !! temp_addr r k
          /\ _registers r' !! hum_addr r k = _registers r !! hum_addr r k
          /\ _registers r' !! temp_status_addr r k
             = _registers r !! temp_status_addr r k
          /\ _registers r' !! hum_status_addr r k
             = _registers r !! hum_status_addr r k) as (L1 & L2 & L3 & L4)
    by (repeat split; apply Hsame; unfold off_sensor; tauto).
  unfold encodes. rewrite A, B, C, D, L1, L2, L3, L4. tauto.
Qed.

Lemma marked_offline_frame r r' k :
  same_layout r r' ->
  (forall a, ~ off_sensor r k a -> _registers r' !! a = _registers r !! a) ->
  marked_offline r k -> marked_offline r' k.
Proof.
  intros Hl Hsame. destruct (same_layout_addresses r r' k Hl) as (A & B & C & D).
  assert (_registers r' !! temp_addr r k = _registers r !! temp_addr r k
          /\ _registers r' !! hum_addr r k = _registers r !! hum_addr r k
          /\ _registers r' !! temp_status_addr r k
             = _registers r !! temp_status_addr r k
          /\ _registers r' !! hum_status_addr r k
             = _registers r !! hum_status_addr r k) as (L1 & L2 & L3 & L4)
    by (repeat split; apply Hsame; unfold off_sensor; tauto).
  unfold marked_offline. rewrite A, B, C, D, L1, L2, L3, L4. tauto.
Qed.

Lemma run_calls_raises s sensor_id limits rest w e :
  get_value sin pi s sensor_id limits w = Raised e ->
  run_calls sin pi s ((sensor_id, limits) :: rest) w = Raised e.
Proof.
  intros H. cbn [run_calls]. unfold mbind, M_bind at 1. rewrite H.
  reflexivity.
Qed.

(** A pass over [ids] is the run of the scenario over the sensors of [ids]
    that are not configured offline, each reading stored in the registers
    of its sensor. *)
Lemma update_loop_run config limits ids :
  forall regs scen w,
    disjoint_layout regs ->
    (forall x, x ∈ ids -> (1 <= x <= sensor_count regs)%Z) ->
    NoDup ids ->
    match run_calls sin pi scen
            ((fun k => (k, limits)) <$> live_sensors config ids) w with
    | Returned (vs, scen') w' =>
        exists regs',
          update_loop sin pi config limits ids regs scen w
          = Returned (regs', scen') w'
          /\ length vs = length (live_sensors config ids)
          /\ (forall (i : nat) k v,
                live_sensors config ids !! i = Some k -> vs !! i = Some v ->
                encodes regs' k v)
          /\ (forall k,
                k ∈ ids -> k ∈ default [] (cfg_offline_sensors config) ->
                marked_offline regs' k)
    | Raised e => update_loop sin pi config limits ids regs scen w = Raised e
    end.
Proof.
  induction ids as [| x rest IH]; intros regs scen w Hd Hrange Hnd.
  - cbn. exists regs. split; [reflexivity |]. split; [reflexivity |].
    split; [intros i k v Hi; rewrite lookup_nil in Hi; discriminate Hi |].
    intros k Hk. apply elem_of_nil in Hk. contradiction.
  - apply NoDup_cons in Hnd as [Hx Hnd].
    assert (1 <= x <= sensor_count regs)%Z as Hxr
      by (apply Hrange; apply elem_of_cons; auto).
    assert (value_base regs - status_base regs <= -2
            \/ 2 <= value_base regs - status_base regs)%Z as Hgap
      by (unfold disjoint_layout in Hd; lia).
    assert (forall y, y ∈ rest -> (1 <= y <= sensor_count regs)%Z) as Hrest
      by (intros y Hy; apply Hrange; apply elem_of_cons; auto).
    unfold live_sensors. rewrite filter_cons.
    fold (live_sensors config rest).
    destruct (decide (x ∉ default [] (cfg_offline_sensors config)))
      as [Hlive | Hoff].
    + rewrite fmap_cons.
      destruct (get_value sin pi scen x limits w) as [[v scen1] w1 | e] eqn:Ev.
      2:{ rewrite (run_calls_raises _ _ _ _ _ _ Ev).
          cbn [update_loop]. unfold mbind, M_bind at 1.
          rewrite (update_sensor_raises _ _ _ _ _ _ _ Hlive Ev). reflexivity. }
      rewrite (run_calls_cons sin pi _ _ _ _ _ _ _ _ Ev).
      pose proof (update_sensor_live config limits regs _ _ _ _ _ _ Hlive Ev)
        as Hstep.
      set (regs1 := set_sensor_values regs x (temperature v) (humidity v)
                      (status_code (temp_status v) (combined_status v))
                      (status_code (hum_status v) (combined_status v))) in *.
      assert (encodes regs1 x v) as Henc1.
      { destruct (set_sensor_values_lookup regs x (temperature v) (humidity v)
                    (status_code (temp_status v) (combined_status v))
                    (status_code (hum_status v) (combined_status v)))
          as [Hl _].
        exact (Hl Hgap). }
      specialize (IH regs1 scen1 w1 Hd Hrest Hnd).
      destruct (run_calls sin pi scen1
                  ((fun k => (k, limits)) <$> live_sensors config rest) w1)
        as [[vs scen'] w' | e].
      2:{ cbn [update_loop]. unfold mbind, M_bind at 1. rewrite Hstep.
          exact IH. }
      destruct IH as (regs' & Hloop & Hlen & Henc & Hmark).
      exists regs'. split; [| split; [| split]].
      * cbn [update_loop]. unfold mbind, M_bind at 1. rewrite Hstep.
        exact Hloop.
      * cbn [length]. rewrite Hlen. reflexivity.
      * intros [| i] k v0 Hi Hv0.
        -- cbn in Hi, Hv0. injection Hi as <-. injection Hv0 as <-.
           destruct (update_loop_keeps _ _ _ _ _ _ _ _ _ x Hloop Hd Hrest Hnd
                       Hxr Hx) as (Hl & Hkeep).
           exact (encodes_frame _ _ _ _ Hl Hkeep Henc1).
        -- exact (Henc i k v0 Hi Hv0).
      * intros k Hk Hkoff. apply elem_of_cons in Hk as [-> | Hk];
          [contradiction | exact (Hmark k Hk Hkoff)].
    + assert (x ∈ default [] (cfg_offline_sensors config)) as Hin
        by (destruct (decide (x ∈ default [] (cfg_offline_sensors config)));
            [assumption | contradiction]).
      pose proof (update_sensor_offline config limits regs scen x w Hin)
        as Hstep.
      set (regs1 := set_sensor_values regs x 0 0 1 1) in *.
      assert (marked_offline regs1 x) as Hm1.
      { destruct (set_sensor_values_lookup regs x 0 0 1 1) as [Hl _].
        exact (Hl Hgap). }
      specialize (IH regs1 scen w Hd Hrest Hnd).
      destruct (run_calls sin pi scen
                  ((fun k => (k, limits)) <$> live_sensors config rest) w)
        as [[vs scen'] w' | e].
      2:{ cbn [update_loop]. unfold mbind, M_bind at 1. rewrite Hstep.
          exact IH. }
      destruct IH as (regs' & Hloop & Hlen & Henc & Hmark).
      exists regs'. split; [| split; [| split]].
      * cbn [update_loop]. unfold mbind, M_bind at 1. rewrite Hstep.
        exact Hloop.
      * exact Hlen.
      * exact Henc.
      * intros k Hk Hkoff. apply elem_of_cons in Hk as [-> | Hk];
          [| exact (Hmark k Hk Hkoff)].
        destruct (update_loop_keeps _ _ _ _ _ _ _ _ _ x Hloop Hd Hrest Hnd
                    Hxr Hx) as (Hl & Hkeep).
        exact (marked_offline_frame _ _ _ Hl Hkeep Hm1).
Qed.

End GeneratorFacts.

Lemma decode_encodes r k v :
  encodes r k v -> get_sensor_values r k = decoded r k v.
Proof.
  intros (A & B & C & D). unfold get_sensor_values, decoded.
  rewrite A, B, C, D. cbv zeta. cbn [default]. unfold id.
  pose proof (signed16_decoding (py_int (temperature v * 10))) as Hs.
  cbv zeta in Hs. rewrite Hs.
  destruct (land_16bit (py_int (humidity v * 10))) as [-> _]. reflexivity.
Qed.

Lemma decode_marked_offline r k :
  marked_offline r k ->
  get_sensor_values r k
  = {| reg_temperature :=
         {| ch_value := inject_Z 0 / 10.0; ch_raw := 0;
            ch_address := temp_addr r k; ch_status := 1 |};
       reg_humidity :=
         {| ch_value := inject_Z 0 / 10.0; ch_raw := 0;
            ch_address := hum_addr r k; ch_status := 1 |} |}.
Proof.
  intros (A & B & C & D). unfold get_sensor_values.
  rewrite A, B, C, D. reflexivity.
Qed.

(** A one-decimal value between -3276.8 and 3276.7 fits a signed word. *)
Lemma tenths_signed_range (n : Z) (lo hi : Q) :
  lo <= n # 10 <= hi -> -3276.8 <= lo -> hi <= 3276.7 ->
  (-32768 <= n <= 32767)%Z.
Proof.
  intros [H1 H2] Hlo Hhi.
  assert (-3276.8 <= n # 10) as L by lra.
  assert (n # 10 <= 3276.7) as U by lra.
  unfold Qle in L, U. cbn in L, U. lia.
Qed.

Lemma tenths_unsigned_range (n : Z) (lo hi : Q) :
  lo <= n # 10 <= hi -> 0 <= lo -> hi <= 6553.5 -> (0 <= n <= 65535)%Z.
Proof.
  intros [H1 H2] Hlo Hhi.
  assert (0 <= n # 10) as L by lra.
  assert (n # 10 <= 6553.5) as U by lra.
  unfold Qle in L, U. cbn in L, U. lia.
Qed.

Lemma calculate_status_normal_band v mn mx wd ad :
  _calculate_status v mn mx wd ad = "normal" -> mn <= v <= mx.
Proof.
  unfold _calculate_status.
  destruct (PyNum.ltb v (mn - ad) || PyNum.gtb v (mx + ad)); [discriminate |].
  destruct (PyNum.ltb v (mn - wd) || PyNum.gtb v (mx + wd)); [discriminate |].
  destruct (PyNumFacts.ltb_reflect v mn), (PyNumFacts.gtb_reflect v mx);
    cbn; try discriminate. intros _. lra.
Qed.

Lemma status_code_zero ts cs :
  status_code ts cs = 0%Z <-> ts = "normal" /\ cs <> "offline".
Proof.
  unfold status_code.
  destruct (String.eqb_spec cs "offline"), (String.eqb_spec ts "normal");
    split; try discriminate; try tauto; intros [A B]; congruence.
Qed.

Section Passes.

Variable sin : Q -> Q.
Variable pi : Q.

(** X15. An update pass over a register file whose value and status
    blocks do not overlap calls [get_value] once for each sensor of
    1..sensor_count that is not configured offline, in increasing order and
    with the limits of the generator, and raises when one of these calls
    raises.  Otherwise it leaves the scenario and the world as these calls
    leave them, keeps the layout and the configuration, and the registers
    then read as follows.  A sensor configured offline reads raw 0, 0 with
    both statuses 1.  Any other sensor reads the encoding of the very
    reading its call returned: the signed 16-bit word of
    [int(temperature * 10)], the unsigned word of [int(humidity * 10)], and
    for each quantity the status 0 when its status is "normal" and the
    reading is not offline, else 1 (warning and alarm are not told
    apart). *)
Theorem X15_update_pass g w :
  disjoint_layout (registers g) ->
  let ids := seqZ 1 (sensor_count (registers g)) in
  let offline := default [] (cfg_offline_sensors (config g)) in
  (forall k,
      k ∈ live_sensors (config g) ids
      <-> (1 <= k <= sensor_count (registers g))%Z /\ k ∉ offline)
  /\ match run_calls sin pi (_scenario g) (pass_calls g) w with
     | Returned (vs, scenario') w' =>
         exists regs',
           _update_registers sin pi g w
           = Returned (mkRegisterGenerator regs' (config g) scenario') w'
           /\ same_layout (registers g) regs'
           /\ same_range (_scenario g) scenario'
           /\ length vs = length (live_sensors (config g) ids)
           /\ (forall (i : nat) k v,
                 live_sensors (config g) ids !! i = Some k ->
                 vs !! i = Some v ->
                 get_sensor_values regs' k = decoded regs' k v)
           /\ (forall k,
                 (1 <= k <= sensor_count (registers g))%Z -> k ∈ offline ->
                 let got := get_sensor_values regs' k in
                 ch_raw (reg_temperature got) = 0%Z
                 /\ ch_raw (reg_humidity got) = 0%Z
                 /\ ch_status (reg_temperature got) = 1%Z
                 /\ ch_status (reg_humidity got) = 1%Z)
     | Raised e => _update_registers sin pi g w = Raised e
     end.
Proof.
  intros Hd ids offline. split.
  - intros k. unfold live_sensors. rewrite list_elem_of_filter.
    unfold ids. rewrite elem_of_seqZ. fold offline. split.
    + intros [H1 H2]. split; [lia | exact H1].
    + intros [H1 H2]. split; [exact H2 | lia].
  - assert (forall x, x ∈ ids -> (1 <= x <= sensor_count (registers g))%Z)
      as Hrange by (intros x Hx; apply elem_of_seqZ in Hx; lia).
    pose proof (update_loop_run sin pi (config g) _get_limits_dict ids
                  (registers g) (_scenario g) w Hd Hrange
                  (NoDup_seqZ _ _)) as H.
    unfold pass_calls. fold ids.
    destruct (run_calls sin pi (_scenario g)
                ((fun k => (k, _get_limits_dict))
                 <$> live_sensors (config g) ids) w)
      as [[vs scenario'] w' | e].
    2:{ unfold _update_registers, mbind, M_bind. fold ids. rewrite H.
        reflexivity. }
    destruct H as (regs' & Hloop & Hlen & Henc & Hmark).
    destruct (update_loop_spec sin pi _ _ _ _ _ _ _ _ _ Hloop Hd Hrange
                (NoDup_seqZ _ _)) as (Hl & Hr & _ & _).
    exists regs'. split; [| split; [| split; [| split; [| split]]]].
    + unfold _update_registers, mbind, M_bind. fold ids. rewrite Hloop.
      reflexivity.
    + exact Hl.
    + exact Hr.
    + exact Hlen.
    + intros i k v Hi Hv. apply decode_encodes. exact (Henc i k v Hi Hv).
    + intros k Hk Hoff.
      rewrite (decode_marked_offline regs' k); [repeat split |].
      apply Hmark; [apply elem_of_seqZ; lia | exact Hoff].
Qed.

(** X16. A zero temperature status register certifies the displayed
    values.  After an update pass (non-overlapping layout; scenario bounds
    that are ordered one-decimal values within the register ranges
    -3276.8..3276.7 and 0..6553.5), if the temperature status register of
    a sensor reads 0 then the sensor is not configured offline, and the
    temperature and humidity decoded from its registers lie within the
    bounds of the scenario; for every class that classifies, the decoded
    temperature also lies within the limits -10..40 of the generator. *)
Theorem X16_status_zero_certifies g w g' w' k :
  disjoint_layout (registers g) ->
  grid_bounds (base_of (_scenario g)) ->
  -3276.8 <= temp_min (base_of (_scenario g)) ->
  temp_max (base_of (_scenario g)) <= 3276.7 ->
  0 <= hum_min (base_of (_scenario g)) ->
  hum_max (base_of (_scenario g)) <= 6553.5 ->
  _update_registers sin pi g w = Returned g' w' ->
  (1 <= k <= sensor_count (registers g))%Z ->
  let got := get_sensor_values (registers g') k in
  let b := base_of (_scenario g) in
  ch_status (reg_temperature got) = 0%Z ->
  (k ∉ default [] (cfg_offline_sensors (config g)))
  /\ temp_min b <= ch_value (reg_temperature got) <= temp_max b
  /\ hum_min b <= ch_value (reg_humidity got) <= hum_max b
  /\ (forced_normal (class_of (_scenario g)) = false ->
      -10 <= ch_value (reg_temperature got) <= 40).
Proof.
  intros Hd (Ht & Hh & Gtl & Gth & Ghl & Ghh) Htl Hth Hhl Hhh Hrun Hk got b.
  unfold _update_registers, mbind, M_bind in Hrun.
  destruct (update_loop sin pi (config g) _get_limits_dict
              (seqZ 1 (sensor_count (registers g))) (registers g)
              (_scenario g) w) as [[regs scen] w1 | e] eqn:E; [| discriminate].
  injection Hrun as <- <-.
  destruct (update_loop_spec sin pi _ _ _ _ _ _ _ _ _ E Hd)
    as (_ & _ & _ & Hu).
  { intros x Hx. apply elem_of_seqZ in Hx. lia. }
  { apply NoDup_seqZ. }
  specialize (Hu k ltac:(apply elem_of_seqZ; lia)). unfold updated in Hu.
  subst got. cbn [registers].
  case_bool_decide as Hoff.
  { rewrite (decode_marked_offline _ _ Hu). cbn. discriminate. }
  destruct Hu as (v & Hshape & Henc).
  rewrite (decode_encodes _ _ _ Henc).
  cbn [reg_temperature reg_humidity ch_status ch_value].
  intros Hst. split; [exact Hoff |].
  assert (forall x lo hi,
             lo <= hi -> one_decimal lo -> one_decimal hi ->
             -3276.8 <= lo -> hi <= 3276.7 ->
             let t := PyNum.round1 (_clamp x lo hi) in
             lo <= inject_Z (signed16 (py_int (t * 10))) / 10.0 <= hi
             /\ inject_Z (signed16 (py_int (t * 10))) / 10.0 == t) as Htemp.
  { intros x lo hi Hlh Hlo Hhi Hl Hu t.
    pose proof (PyNumFacts.round1_clamp_bounds x lo hi Hlh Hlo Hhi) as Hb.
    fold t in Hb.
    assert (t == PyNum.round_half_even (_clamp x lo hi * 10) # 10) as Hn
      by reflexivity.
    rewrite Hn in Hb.
    pose proof (tenths_signed_range _ _ _ Hb Hl Hu) as Hr.
    rewrite (py_int_tenths _ _ Hn), signed16_in_range, tenths_value by exact Hr.
    split; [exact Hb | symmetry; exact Hn]. }
  assert (forall x lo hi,
             lo <= hi -> one_decimal lo -> one_decimal hi ->
             0 <= lo -> hi <= 6553.5 ->
             let t := PyNum.round1 (_clamp x lo hi) in
             lo <= inject_Z (py_int (t * 10) mod 65536) / 10.0 <= hi) as Hhum.
  { intros x lo hi Hlh Hlo Hhi Hl Hu t.
    pose proof (PyNumFacts.round1_clamp_bounds x lo hi Hlh Hlo Hhi) as Hb.
    fold t in Hb.
    assert (t == PyNum.round_half_even (_clamp x lo hi * 10) # 10) as Hn
      by reflexivity.
    rewrite Hn in Hb.
    pose proof (tenths_unsigned_range _ _ _ Hb Hl Hu) as Hr.
    rewrite (py_int_tenths _ _ Hn), Z.mod_small, tenths_value by lia.
    exact Hb. }
  destruct Hshape as [err -> | t h _ -> | t h Hc -> | t h Hc ->].
  - cbv in Hst. discriminate Hst.
  - cbv in Hst. discriminate Hst.
  - unfold classified_reading in *. cbn [temperature humidity] in *.
    cbn [temp_status combined_status] in Hst.
    destruct (Htemp t _ _ Ht Gtl Gth Htl Hth) as [Hb Heq].
    split; [exact Hb |]. split; [apply Hhum; assumption |].
    intros _. rewrite Heq.
    apply status_code_zero in Hst as [Hn _].
    apply calculate_status_normal_band in Hn.
    change (limits_get _get_limits_dict "temp_min" (-10)) with (-10.0) in Hn.
    change (limits_get _get_limits_dict "temp_max" 40) with 40.0 in Hn.
    unfold b in Hn. lra.
  - unfold unclassified_reading in *. cbn [temperature humidity] in *.
    destruct (Htemp t _ _ Ht Gtl Gth Htl Hth) as [Hb Heq].
    split; [exact Hb |]. split; [apply Hhum; assumption |].
    intros Hf. congruence.
Qed.

End Passes.

(** ** Concrete runs of the further properties *)

Lemma unit_draws_world_of (us : list Q) :
  Forall (fun u => 0 <= u /\ u < 1) us -> unit_draws (world_of us).
Proof.
  intros H i. unfold world_of. cbn [rng_stream]. revert i.
  induction H as [| u us Hu _ IH]; intros [| i]; cbn [nth];
    try (split; by_computation); [exact Hu | apply IH].
Qed.

(** Three draws of one half. *)
Lemma halves_unit_draws : unit_draws (world_of [1 # 2; 1 # 2; 1 # 2]).
Proof.
  apply unit_draws_world_of. repeat constructor; by_computation.
Qed.

(** A timeout scenario whose rate is 1. *)
Lemma X6_fault_rate_edges_witness :
  let s := TimeoutScenario (BaseScenario_init (kwargs_of [])) 1 in
  let w := world_of [1 # 2; 1 # 2; 1 # 2] in
  exists v,
    get_value (fun _ => 0) 0 s 1 ∅ w = Returned (v, s) (skip_draws 1 w)
    /\ combined_status v = "offline" /\ temperature v = 0.0
    /\ humidity v = 0.0 /\ modbus_error v <> None.
Proof.
  intros s w.
  destruct (X6_fault_rate_edges (fun _ => 0) 0 s 1 1 ∅ w eq_refl
              halves_unit_draws) as (H & _).
  apply H. by_computation.
Defined.

(** A default thermostat read once. *)
Lemma X8_hvac_band_witness :
  let b := BaseScenario_init (kwargs_of []) in
  exists vs on' current' w',
    run_calls (fun _ => 0) 0 (HVACControlScenario b 22 1 false 22)
      [(1%Z, ∅)] (world_of [1 # 2; 1 # 2; 1 # 2])
    = Returned (vs, HVACControlScenario b 22 1 on' current') w'
    /\ length vs = 1%nat
    /\ hvac_band 22 1 current'.
Proof.
  intros b.
  assert (0 <= 1) as Hh by by_computation.
  assert (hvac_band 22 1 22) as Hb by (split; by_computation).
  exact (proj1 (X8_hvac_band (fun _ => 0) 0 b 22 1 false 22 [(1%Z, ∅)]
                  (world_of [1 # 2; 1 # 2; 1 # 2]) Hh halves_unit_draws Hb)).
Defined.

(** A door with two ticks left, read twice. *)
Lemma X9_door_open_timed_witness :
  let b := BaseScenario_init (kwargs_of []) in
  let w := world_of [1 # 2; 1 # 2; 1 # 2] in
  exists vs,
    run_calls (fun _ => 0) 0 (DoorOpenScenario b 0.1 35 true 2)
      [(1%Z, ∅); (2%Z, ∅)] w
    = Returned (vs, DoorOpenScenario b 0.1 35 false 0) (skip_draws 4 w)
    /\ length vs = 2%nat.
Proof.
  intros b w.
  destruct (X9_door_open_timed (fun _ => 0) 0 b 0.1 35 2
              [(1%Z, ∅); (2%Z, ∅)] w) as (vs & Hrun & Hlen & _);
    [lia | cbn; lia |].
  exists vs. split; [exact Hrun | exact Hlen].
Defined.

(** An outage with three ticks left, read three times. *)
Lemma X10_power_outage_timed_witness :
  let b := BaseScenario_init (kwargs_of []) in
  let w := world_of [1 # 2; 1 # 2; 1 # 2] in
  run_calls (fun _ => 0) 0 (PowerOutageScenario b 0.05 true 3)
    [(1%Z, ∅); (2%Z, ∅); (3%Z, ∅)] w
  = Returned
      (replicate 3 (offline_reading "no_power"),
       PowerOutageScenario b 0.05 false 0) w.
Proof.
  intros b w.
  destruct (X10_power_outage_timed (fun _ => 0) 0 b 0.05 3
              [(1%Z, ∅); (2%Z, ∅); (3%Z, ∅)] w) as (H & _);
    [lia | cbn; lia |].
  exact H.
Defined.

(** A generator over two sensors with the default configuration, the
    second sensor configured offline. *)
Definition sample_generator : RegisterGenerator :=
  {| registers := VirtualRegisters_init 30000 40000 2;
     config :=
       {| cfg_scenario := Some "normal"%string;
          cfg_temperature := mkQuantityConfig (-40.0) 85.0 22.0 2.0;
          cfg_humidity := mkQuantityConfig 0.0 100.0 45.0 5.0;
          cfg_offline_sensors := Some [2%Z] |};
     _scenario := NormalScenario (BaseScenario_init (kwargs_of [])) |}.

Lemma sample_generator_layout : disjoint_layout (registers sample_generator).
Proof. unfold disjoint_layout. vm_compute. left. discriminate. Qed.

Lemma X15_update_pass_witness :
  let w := world_of [1 # 2; 1 # 2; 1 # 2] in
  exists g' w',
    _update_registers (fun _ => 0) 0 sample_generator w = Returned g' w'
    /\ w' = skip_draws 2 w
    /\ (let got := get_sensor_values (registers g') 1 in
        ch_raw (reg_temperature got) = 220%Z
        /\ ch_raw (reg_humidity got) = 450%Z
        /\ ch_status (reg_temperature got) = 0%Z)
    /\ ch_status (reg_temperature (get_sensor_values (registers g') 2)) = 1%Z.
Proof.
  intros w.
  destruct (X15_update_pass (fun _ => 0) 0 sample_generator w
              sample_generator_layout) as [_ H].
  destruct (run_calls (fun _ => 0) 0 (_scenario sample_generator)
              (pass_calls sample_generator) w) as [[vs s'] w' | e] eqn:E.
  - destruct H as (regs' & Hrun & _ & _ & _ & Hlive & Hoff).
    exists (mkRegisterGenerator regs' (config sample_generator) s'), w'.
    split; [exact Hrun |]. cbn [registers].
    vm_compute in E. injection E as <- _ <-.
    split; [reflexivity |]. split.
    + rewrite (Hlive 0%nat 1%Z _ eq_refl eq_refl). repeat split.
    + apply (Hoff 2%Z).
      * vm_compute. split; discriminate.
      * apply list_elem_of_singleton. reflexivity.
  - vm_compute in E. discriminate E.
Defined.

Lemma X16_status_zero_certifies_witness :
  match _update_registers (fun _ => 0) 0 sample_generator
          (world_of [1 # 2; 1 # 2; 1 # 2]) with
  | Returned g' _ =>
      -10 <= ch_value (reg_temperature (get_sensor_values (registers g') 1))
      <= 40
  | Raised _ => False
  end.
Proof.
  destruct (_update_registers (fun _ => 0) 0 sample_generator
              (world_of [1 # 2; 1 # 2; 1 # 2])) as [g' w' | e] eqn:E.
  - assert (ch_status (reg_temperature (get_sensor_values (registers g') 1))
            = 0%Z) as Hst
      by (vm_compute in E; injection E as <- _; reflexivity).
    assert (grid_bounds (base_of (_scenario sample_generator))) as Hg
      by (repeat split; by_computation).
    assert (-3276.8 <= temp_min (base_of (_scenario sample_generator))) as H1
      by by_computation.
    assert (temp_max (base_of (_scenario sample_generator)) <= 3276.7) as H2
      by by_computation.
    assert (0 <= hum_min (base_of (_scenario sample_generator))) as H3
      by by_computation.
    assert (hum_max (base_of (_scenario sample_generator)) <= 6553.5) as H4
      by by_computation.
    assert (1 <= 1 <= sensor_count (registers sample_generator))%Z as Hk
      by (vm_compute; split; discriminate).
    destruct (X16_status_zero_certifies (fun _ => 0) 0 sample_generator
                (world_of [1 # 2; 1 # 2; 1 # 2]) g' w' 1
                sample_generator_layout Hg H1 H2 H3 H4 E Hk Hst)
      as (_ & _ & _ & H).
    apply H. reflexivity.
  - vm_compute in E. discriminate E.
Defined.

(** * Choosing the scenario of a generator *)

(** [RegisterGenerator.__init__]; [config or self._default_config()]. *)
Definition RegisterGenerator_init (registers : VirtualRegisters)
    (config : option GeneratorConfig) : M RegisterGenerator :=
  let config := default _default_config config in
  scenario ← _init_scenario config;
  mret (mkRegisterGenerator registers config scenario).

(** [RegisterGenerator.set_scenario] *)
Definition set_scenario (g : RegisterGenerator) (scenario_name : string)
    : M RegisterGenerator :=
  let config :=
    {| cfg_scenario := Some scenario_name;
       cfg_temperature := cfg_temperature (config g);
       cfg_humidity := cfg_humidity (config g);
       cfg_offline_sensors := cfg_offline_sensors (config g) |} in
  scenario ← _init_scenario config;
  mret (mkRegisterGenerator (registers g) config scenario).

(** The base parameters that a configuration prescribes. *)
Definition configured_base (config : GeneratorConfig) : BaseScenario :=
  {| temp_base := cfg_base (cfg_temperature config);
     temp_variation := cfg_variation (cfg_temperature config);
     temp_min := cfg_min (cfg_temperature config);
     temp_max := cfg_max (cfg_temperature config);
     hum_base := cfg_base (cfg_humidity config);
     hum_variation := cfg_variation (cfg_humidity config);
     hum_min := cfg_min (cfg_humidity config);
     hum_max := cfg_max (cfg_humidity config);
     offline_sensors := default [] (cfg_offline_sensors config);
     _iteration := 0 |}.

(** A scenario object as its constructor leaves it when only the base
    parameters are given: the parameters of its class at their defaults,
    its state at the start. *)
Definition fresh_with_defaults (s : Scenario) : Prop :=
  match s with
  | NormalScenario _ | OfflineScenario _ => True
  | DriftUpScenario _ rate off | DriftDownScenario _ rate off =>
      rate = 0.1 /\ off = 0.0
  | SineScenario _ period amplitude => period = 60 /\ amplitude = 5.0
  | IntermittentScenario _ rate => rate = 0.2
  | TimeoutScenario _ rate => rate = 0.3
  | CRCErrorScenario _ rate => rate = 0.15
  | PartialOfflineScenario _ p off =>
      p = 0.3 /\ forall i, i ∈ off -> (1 <= i <= 10)%Z
  | DailyCycleScenario _ day night => day = 25.0 /\ night = 18.0
  | HVACControlScenario _ setpoint hysteresis on current =>
      setpoint = 22.0 /\ hysteresis = 1.0 /\ on = false /\ current = 22.0
  | DoorOpenScenario _ p outside open timer =>
      p = 0.1 /\ outside = 35.0 /\ open = false /\ timer = 0%Z
  | PowerOutageScenario _ p off timer =>
      p = 0.05 /\ off = false /\ timer = 0%Z
  | SensorFailureScenario _ rate failed => rate = 0.01 /\ failed = ∅
  end.

Lemma _init_scenario_spec config w :
  exists s w',
    _init_scenario config w = Returned s w'
    /\ class_of s
       = default CNormal
           (SCENARIOS !! default "normal"%string (cfg_scenario config))
    /\ base_of s = configured_base config
    /\ fresh_with_defaults s.
Proof.
  unfold _init_scenario, get_scenario.
  set (kw := mkKwargs _ _).
  assert (BaseScenario_init kw = configured_base config) as Hb by reflexivity.
  destruct (default CNormal
              (SCENARIOS !! default "normal"%string (cfg_scenario config)))
    eqn:Hc;
    match goal with
    | |- context [Scenario_init CPartialOffline] => idtac
    | _ => do 2 eexists; split; [reflexivity |]; split; [reflexivity |];
           split; [exact Hb |]; cbn; repeat split; reflexivity
    end.
  cbn [Scenario_init]. unfold mbind, M_bind.
  destruct (choose_offline_spec (seqZ 1 10)
              (kw_get kw "offline_probability" 0.3) ∅ w)
    as (off & -> & _ & Hsup).
  do 2 eexists. split; [reflexivity |]. split; [reflexivity |].
  split; [exact Hb |]. cbn. split; [reflexivity |].
  intros i Hi. apply Hsup in Hi.
  rewrite elem_of_union, elem_of_list_to_set, elem_of_seqZ in Hi.
  destruct Hi as [Hi | Hi]; [| lia].
  exfalso. exact (not_elem_of_empty i Hi).
Qed.

(** X17. Choosing a scenario by name always succeeds and starts from
    scratch.  [set_scenario] keeps the registers and the rest of the
    configuration and installs a new object: of the class registered
    under the name, or of the normal class when the name is unknown; with
    the eight base parameters and the offline list of the configuration;
    with every parameter of its own class at its default (a timeout
    scenario always has timeout_rate 0.3, an intermittent one failure_rate
    0.2) and its state at the start, whatever the previous scenario had
    accumulated.  A generator constructed without a configuration gets the
    normal scenario with exactly the defaults of the scenario classes. *)
Theorem X17_set_scenario g name w :
  exists g' w',
    set_scenario g name w = Returned g' w'
    /\ registers g' = registers g
    /\ cfg_scenario (config g') = Some name
    /\ cfg_temperature (config g') = cfg_temperature (config g)
    /\ cfg_humidity (config g') = cfg_humidity (config g)
    /\ cfg_offline_sensors (config g') = cfg_offline_sensors (config g)
    /\ class_of (_scenario g') = default CNormal (SCENARIOS !! name)
    /\ base_of (_scenario g') = configured_base (config g)
    /\ fresh_with_defaults (_scenario g')
    /\ RegisterGenerator_init (registers g) None w
       = Returned
           (mkRegisterGenerator (registers g) _default_config
              (NormalScenario (BaseScenario_init (kwargs_of [])))) w.
Proof.
  unfold set_scenario, mbind, M_bind.
  set (cfg := mkGeneratorConfig _ _ _ _).
  destruct (_init_scenario_spec cfg w) as (s & w' & -> & Hc & Hb & Hf).
  exists (mkRegisterGenerator (registers g) cfg s), w'.
  repeat split; try assumption.
Qed.

(** * Merging configurations, [_merge_config] of both generators *)

Section MergeConfig.

(** The values that are not dictionaries (numbers, strings, lists, ...). *)
Variable A : Type.

(** A configuration value: a dictionary, as the list of its items in
    insertion order, or anything else. *)
#[local] Unset Elimination Schemes.
Inductive PyVal :=
| Atom (a : A)
| Dict (items : list (string * PyVal)).
#[local] Set Elimination Schemes.

(** [d.get(key)] *)
Fixpoint dict_get (d : list (string * PyVal)) (key : string) : option PyVal :=
  match d with
  | [] => None
  | (k, v) :: rest => if String.eqb k key then Some v else dict_get rest key
  end.

(** [d[key] = value]: in place when the key is present, at the end when
    it is new. *)
Fixpoint dict_set (d : list (string * PyVal)) (key : string) (value : PyVal)
    : list (string * PyVal) :=
  match d with
  | [] => [(key, value)]
  | (k, v) :: rest =>
      if String.eqb k key then (k, value) :: rest
      else (k, v) :: dict_set rest key value
  end.

(** What one step of the loop of [_merge_config] stores under a key of
    the update. *)
Definition merged_item (merge : list (string * PyVal) -> PyVal ->
                                list (string * PyVal))
    (old : option PyVal) (value : PyVal) : PyVal :=
  match old, value with
  | Some (Dict b), Dict _ => Dict (merge b value)
  | _, _ => value
  end.

(** [_merge_config(base, update)], with the update dictionary as a
    value; the inner loop runs over [update.items()]. *)
Fixpoint merge_dict (base : list (string * PyVal)) (update : PyVal)
    {struct update} : list (string * PyVal) :=
  match update with
  | Atom _ => base
  | Dict items =>
      (fix loop (items : list (string * PyVal))
           (base : list (string * PyVal)) : list (string * PyVal) :=
         match items with
         | [] => base
         | (key, value) :: rest =>
             loop rest
               (match dict_get base key, value with
                | Some (Dict b), Dict _ =>
                    dict_set base key (Dict (merge_dict b value))
                | _, _ => dict_set base key value
                end)
         end) items base
  end.

Definition _merge_config (base update : list (string * PyVal))
    : list (string * PyVal) :=
  merge_dict base (Dict update).

(** The keys of a dictionary, in order. *)
Definition dict_keys (d : list (string * PyVal)) : list string := d.*1.

Lemma merge_config_nil base : _merge_config base [] = base.
Proof. reflexivity. Qed.

Lemma merge_config_cons base key value rest :
  _merge_config base ((key, value) :: rest)
  = _merge_config
      (dict_set base key (merged_item merge_dict (dict_get base key) value))
      rest.
Proof.
  unfold _merge_config, merged_item. cbn [merge_dict].
  destruct (dict_get base key) as [[a | b] |]; destruct value; reflexivity.
Qed.

Lemma dict_get_set d key value key' :
  dict_get (dict_set d key value) key'
  = if String.eqb key key' then Some value else dict_get d key'.
Proof.
  induction d as [| [k v] rest IH]; cbn [dict_set dict_get].
  - reflexivity.
  - destruct (String.eqb_spec k key) as [-> | Hne]; cbn [dict_get].
    + destruct (String.eqb key key'); reflexivity.
    + rewrite IH. destruct (String.eqb_spec k key') as [-> | Hne'].
      * destruct (String.eqb_spec key key'); [congruence | reflexivity].
      * reflexivity.
Qed.

Lemma dict_keys_set d key value :
  dict_keys (dict_set d key value)
  = match dict_get d key with
    | Some _ => dict_keys d
    | None => dict_keys d ++ [key]
    end.
Proof.
  unfold dict_keys.
  induction d as [| [k v] rest IH]; cbn [dict_set dict_get].
  - reflexivity.
  - destruct (String.eqb_spec k key) as [-> | Hne].
    + reflexivity.
    + cbn [fmap list_fmap fst]. cbn [fmap] in IH. rewrite IH.
      destruct (dict_get rest key); reflexivity.
Qed.

Lemma dict_get_None d key : dict_get d key = None <-> key ∉ dict_keys d.
Proof.
  unfold dict_keys. induction d as [| [k v] rest IH]; cbn [dict_get].
  - split; [intros _; apply not_elem_of_nil | reflexivity].
  - rewrite fmap_cons, not_elem_of_cons. cbn [fst].
    destruct (String.eqb_spec k key) as [-> | Hne].
    + split; [discriminate | intros [H _]; congruence].
    + rewrite IH. split; [intros H; split; [congruence | exact H] | tauto].
Qed.

(** X18. [_merge_config] is a deep merge that keeps what it does not
    touch.  With an update whose keys are distinct, every key of the
    update reads back as the update's value, except that where both sides
    hold a dictionary it reads back as the merge of the two; every other
    key reads as before.  The existing keys keep their order at the front
    and only keys of the update are added after them.  An empty update
    changes nothing. *)
Theorem X18_merge_config (base update : list (string * PyVal)) :
  (NoDup (dict_keys update) ->
   forall key,
     dict_get (_merge_config base update) key
     = match dict_get update key with
       | None => dict_get base key
       | Some value =>
           Some match dict_get base key, value with
                | Some (Dict b), Dict u => Dict (_merge_config b u)
                | _, _ => value
                end
       end)
  /\ (exists added,
        dict_keys (_merge_config base update) = dict_keys base ++ added
        /\ forall key, key ∈ added -> key ∈ dict_keys update)
  /\ _merge_config base [] = base.
Proof.
  split; [| split; [| reflexivity]].
  - revert base. induction update as [| [k v] rest IH]; intros base Hnd key.
    + reflexivity.
    + unfold dict_keys in Hnd. rewrite fmap_cons in Hnd. cbn [fst] in Hnd.
      apply NoDup_cons in Hnd as [Hk Hnd].
      rewrite merge_config_cons, (IH _ Hnd). cbn [dict_get].
      rewrite dict_get_set.
      destruct (String.eqb_spec k key) as [-> | Hne].
      * rewrite (proj2 (dict_get_None rest key) Hk).
        unfold merged_item.
        destruct (dict_get base key) as [[a | b] |]; destruct v; reflexivity.
      * reflexivity.
  - revert base. induction update as [| [k v] rest IH]; intros base.
    + exists []. rewrite app_nil_r. split; [reflexivity |].
      intros key Hk. apply elem_of_nil in Hk. contradiction.
    + rewrite merge_config_cons.
      destruct (IH (dict_set base k
                      (merged_item merge_dict (dict_get base k) v)))
        as (added & Hkeys & Hadded).
      rewrite Hkeys, dict_keys_set.
      assert (forall key, key ∈ added -> key ∈ dict_keys ((k, v) :: rest))
        as Hadded'.
      { intros key Hin. unfold dict_keys. rewrite fmap_cons.
        apply elem_of_cons. right. apply Hadded. exact Hin. }
      destruct (dict_get base k).
      * exists added. split; [reflexivity | exact Hadded'].
      * exists (k :: added). rewrite <- app_assoc. split; [reflexivity |].
        intros key Hin. apply elem_of_cons in Hin as [-> | Hin];
          [| apply Hadded'; exact Hin].
        unfold dict_keys. rewrite fmap_cons. apply elem_of_cons. left.
        reflexivity.
Qed.

End MergeConfig.
